(** * tgbot: credential reconciliation, IP allowlist and scheduling

    A shallow embedding of [src/tgbot.py] and the properties of its
    reconciliation pass ([sync_ck_to_panels]), its panel client
    ([QingLongAPI]), the preservation test ([should_preserve_cookie]),
    the IP change-detection job ([update_ip_whitelist]), the daily
    scheduler ([schedule_daily_task]) and the notification sender
    ([notify]).

    Conventions.
    - A Python [str] is a [string]; text outside ASCII is kept as its
      UTF-8 bytes and is only ever concatenated or compared, never cut.
    - A value read from a JSON document (a response body, an entry of
      [tgbot.json]) is a [json].
    - A coroutine is a function from the state of the running task to a
      result, a new state and the events it emitted, in order.  [await]
      is function application: a task runs alone between its start and
      its end, and tasks started by one [asyncio.gather] work on disjoint
      remotes (one panel each), so their events may interleave in any
      order while their results do not depend on the order. *)

From Stdlib Require Import String Ascii List ZArith Lia Bool Arith DecimalString.
Import ListNotations.

Set Warnings "-register-all".

Local Open Scope string_scope.
Local Open Scope list_scope.

Infix "+++" := String.append (right associativity, at level 60).

(* ================================================================== *)
(** ** Python strings *)
(* ================================================================== *)

Module PyStr.

(** [sub in s] *)
Fixpoint contains (sub s : string) : bool :=
  String.prefix sub s ||
  match s with
  | EmptyString => false
  | String _ s' => contains sub s'
  end.

(** [s.split(sep)] for a separator of one character. *)
Fixpoint split (sep : ascii) (s : string) : list string :=
  match s with
  | EmptyString => [EmptyString]
  | String c s' =>
      if Ascii.eqb c sep then EmptyString :: split sep s'
      else match split sep s' with
           | h :: t => String c h :: t
           | [] => [String c EmptyString]
           end
  end.

Fixpoint lstrip_by (p : ascii -> bool) (s : string) : string :=
  match s with
  | EmptyString => EmptyString
  | String c s' => if p c then lstrip_by p s' else s
  end.

Fixpoint rstrip_by (p : ascii -> bool) (s : string) : string :=
  match s with
  | EmptyString => EmptyString
  | String c s' =>
      match rstrip_by p s' with
      | EmptyString => if p c then EmptyString else String c EmptyString
      | r => String c r
      end
  end.

Definition strip_by (p : ascii -> bool) (s : string) : string :=
  rstrip_by p (lstrip_by p s).

(** The characters [str.strip()] removes, among the ASCII ones:
    tab, line feed, vertical tab, form feed, carriage return, the four
    separators 0x1c-0x1f and the space. *)
Definition is_space (c : ascii) : bool :=
  let n := nat_of_ascii c in
  (Nat.leb 9 n && Nat.leb n 13) || (Nat.leb 28 n && Nat.leb n 32).

Fixpoint mem_char (c : ascii) (chars : string) : bool :=
  match chars with
  | EmptyString => false
  | String d r => Ascii.eqb c d || mem_char c r
  end.

(** [s.strip()] *)
Definition strip (s : string) : string := strip_by is_space s.

(** [s.strip(chars)] and [s.rstrip(chars)] *)
Definition strip_chars (chars s : string) : string :=
  strip_by (fun c => mem_char c chars) s.
Definition rstrip_chars (chars s : string) : string :=
  rstrip_by (fun c => mem_char c chars) s.

(** [s.replace(old, new)] for a non-empty [old]: the occurrences of
    [old] are found from the left and do not overlap.  [skip] counts the
    characters of an occurrence still to be dropped. *)
Fixpoint replace_from (old new : string) (skip : nat) (s : string) : string :=
  match s with
  | EmptyString => EmptyString
  | String c s' =>
      match skip with
      | S k => replace_from old new k s'
      | O =>
          if String.prefix old s
          then new +++ replace_from old new (String.length old - 1) s'
          else String c (replace_from old new 0 s')
      end
  end.

Definition replace (old new s : string) : string := replace_from old new 0 s.

(** [str(n)] of a length or a status code. *)
Definition of_nat (n : nat) : string := NilZero.string_of_uint (Nat.to_uint n).
Definition of_Z (z : Z) : string := NilZero.string_of_int (Z.to_int z).

(** [next((f(x) for x in xs if p(x)), default)] *)
Fixpoint next_where {A B : Type} (f : A -> B) (p : A -> bool) (xs : list A)
    (default : B) : B :=
  match xs with
  | [] => default
  | x :: r => if p x then f x else next_where f p r default
  end.

(** Truth value of a string: [if s:] *)
Definition nonempty (s : string) : bool :=
  match s with EmptyString => false | _ => true end.

End PyStr.

(* ================================================================== *)
(** ** JSON values *)
(* ================================================================== *)

Inductive json : Type :=
| JNull
| JBool (b : bool)
| JNum (z : Z)
| JStr (s : string)
| JArr (items : list json)
| JObj (fields : list (string * json)).

Module Json.

Fixpoint assoc (k : string) (fields : list (string * json)) : option json :=
  match fields with
  | [] => None
  | (k', v) :: r => if String.eqb k k' then Some v else assoc k r
  end.

(** Python truth value of a decoded JSON value. *)
Definition truthy (j : json) : bool :=
  match j with
  | JNull => false
  | JBool b => b
  | JNum z => negb (Z.eqb z 0)
  | JStr s => PyStr.nonempty s
  | JArr l => match l with [] => false | _ => true end
  | JObj l => match l with [] => false | _ => true end
  end.

(** [a or b] *)
Definition or_else (a b : json) : json := if truthy a then a else b.

(** [j == n] for an integer literal [n]; [False == 0] and [True == 1]
    hold in Python. *)
Definition eq_int (j : json) (n : Z) : bool :=
  match j with
  | JNum z => Z.eqb z n
  | JBool b => Z.eqb (if b then 1 else 0) n
  | _ => false
  end.

(** [j == s] for a string literal [s]. *)
Definition eq_str (j : json) (s : string) : bool :=
  match j with
  | JStr t => String.eqb t s
  | _ => false
  end.

(** [type(j).__name__] *)
Definition type_name (j : json) : string :=
  match j with
  | JNull => "NoneType"
  | JBool _ => "bool"
  | JNum _ => "int"
  | JStr _ => "str"
  | JArr _ => "list"
  | JObj _ => "dict"
  end.

Definition join_comma (parts : list string) : string :=
  String.concat ", " parts.

(** [repr(j)]; for a string the quoting is Python's when the text has no
    quote, backslash or control character. *)
Fixpoint repr (j : json) : string :=
  match j with
  | JNull => "None"
  | JBool b => if b then "True" else "False"
  | JNum z => PyStr.of_Z z
  | JStr s => "'" +++ s +++ "'"
  | JArr l => "[" +++ join_comma (map repr l) +++ "]"
  | JObj f =>
      "{" +++ join_comma (map (fun kv => "'" +++ fst kv +++ "': " +++ repr (snd kv)) f)
          +++ "}"
  end.

(** [str(j)], which is what an f-string field [{j}] prints. *)
Definition str (j : json) : string :=
  match j with
  | JStr s => s
  | _ => repr j
  end.

End Json.

(* ================================================================== *)
(** ** Configuration ([CONFIG], loaded once from tgbot.json) *)
(* ================================================================== *)

Record PanelConfig : Type := {
  panel_url : string;
  panel_client_id : string;
  panel_client_secret : string;
  panel_name : string
}.

Record Config : Type := {
  TELEGRAM_TOKEN : string;
  TG_USER_IDS : list json;
  TELEGRAM_PROXY_API : string;
  QL_URL : string;
  CLIENT_ID : string;
  CLIENT_SECRET : string;
  QL_PANELS : list PanelConfig;
  PRESERVED_PT_PINS : list string;
  PROXY_AUTH_KEY : string;
  PROXY_API_URL : string;
  CURRENT_IP_KEY : string
}.

(* ================================================================== *)
(** ** Credential extraction *)
(* ================================================================== *)

(** [extract_pt_pin(cookie_str)]: the first [;]-separated part that
    contains ["pt_pin="], stripped, with every ["pt_pin="] removed;
    [None] when there is no such part. *)
Fixpoint first_pt_pin (parts : list string) : option string :=
  match parts with
  | [] => None
  | part :: rest =>
      if PyStr.contains "pt_pin=" part
      then Some (PyStr.replace "pt_pin=" "" (PyStr.strip part))
      else first_pt_pin rest
  end.

Definition extract_pt_pin (cookie_str : string) : option string :=
  first_pt_pin (PyStr.split ";" cookie_str).

(** The cleaned form of one entry of [PRESERVED_PT_PINS]. *)
Definition preserved_clean (preserved : string) : string :=
  PyStr.strip_chars ";" (PyStr.replace "pt_pin=" "" preserved).

Fixpoint any_preserved (pins : list string) (pt_pin : string) : bool :=
  match pins with
  | [] => false
  | preserved :: rest =>
      if String.eqb (preserved_clean preserved) pt_pin then true
      else any_preserved rest pt_pin
  end.

(** [should_preserve_cookie(pt_pin)]; the argument is [None] or a
    string. *)
Definition should_preserve_cookie (CONFIG : Config) (pt_pin : option string) : bool :=
  match pt_pin with
  | None => false
  | Some pin =>
      if negb (PyStr.nonempty pin) then false
      else any_preserved (PRESERVED_PT_PINS CONFIG) pin
  end.

(* ================================================================== *)
(** ** Exceptions, events and the coroutine monad *)
(* ================================================================== *)

Inductive exn_class : Type :=
| HTTPStatusError (status_code : Z)
| RequestError
| ValueError
| AttributeError
| TypeError
| OSError
| OverflowError
| OtherException.

(** A raised exception: its class and the text [str(e)]. *)
Record exn : Type := Exn { exn_class_of : exn_class; exn_text : string }.

Inductive result (A : Type) : Type :=
| Ok (a : A)
| Raised (e : exn).
Arguments Ok {A} a.
Arguments Raised {A} e.

Inductive level : Type := INFO | WARNING | ERROR.

Inductive method : Type := GET | POST | DELETE.

(** What one HTTP call carries.  [rq_bearer] is the value [t] of the
    header [Authorization: Bearer {t}]; [rq_params] the query, [rq_json]
    the JSON body ([json=] or [data=json.dumps(..)]), [rq_form] and
    [rq_file] the fields and the path of a multipart upload. *)
Record request : Type := {
  rq_method : method;
  rq_url : string;
  rq_bearer : option json;
  rq_params : list (string * json);
  rq_json : option json;
  rq_form : list (string * json);
  rq_file : option string
}.

(** What comes back from the remote side for one attempt. *)
Inductive reply : Type :=
| Reply (body : json)                          (* 2xx; the decoded body *)
| BadStatus (status_code : Z) (text : string)  (* raise_for_status() raised *)
| NoReply (text : string)                      (* httpx.RequestError *)
| Broken (text : string).                      (* any other exception *)

Inductive event : Type :=
| Http (rq : request) (r : reply)
| Log (lvl : level) (text : string)
| Sleep (seconds : Z)
| RedisSet (key value : string).

(** The remote side as seen by a task in state [St]: httpx. *)
Class Network (St : Type) : Type :=
  exchange : request -> St -> reply * St.

Definition M (St A : Type) : Type := St -> result A * St * list event.

Definition ret {St A : Type} (a : A) : M St A :=
  fun s => (Ok a, s, []).

Definition raise {St A : Type} (e : exn) : M St A :=
  fun s => (Raised e, s, []).

Definition bind {St A B : Type} (c : M St A) (k : A -> M St B) : M St B :=
  fun s =>
    match c s with
    | (Ok a, s1, ev1) =>
        match k a s1 with
        | (r, s2, ev2) => (r, s2, ev1 ++ ev2)
        end
    | (Raised e, s1, ev1) => (Raised e, s1, ev1)
    end.

(** [try: body except Exception as e: handler(e)] *)
Definition try_except {St A : Type} (body : M St A) (handler : exn -> M St A) : M St A :=
  fun s =>
    match body s with
    | (Ok a, s1, ev1) => (Ok a, s1, ev1)
    | (Raised e, s1, ev1) =>
        match handler e s1 with
        | (r, s2, ev2) => (r, s2, ev1 ++ ev2)
        end
    end.

Definition lift {St A : Type} (r : result A) : M St A :=
  fun s => (r, s, []).

Definition emit {St : Type} (e : event) : M St unit :=
  fun s => (Ok tt, s, [e]).

Declare Scope coro_scope.
Delimit Scope coro_scope with coro.
Notation "x <- c ;; k" := (bind c (fun x => k))
  (at level 61, c at next level, right associativity) : coro_scope.
Notation "c ;;; k" := (bind c (fun _ => k))
  (at level 61, right associativity) : coro_scope.
Local Open Scope coro_scope.

(** The three components of a finished run. *)
Definition value_of {St A : Type} (o : result A * St * list event) : result A := fst (fst o).
Definition state_of {St A : Type} (o : result A * St * list event) : St := snd (fst o).
Definition events_of {St A : Type} (o : result A * St * list event) : list event := snd o.

Definition logger_info {St : Type} (text : string) : M St unit := emit (Log INFO text).
Definition logger_warning {St : Type} (text : string) : M St unit := emit (Log WARNING text).
Definition logger_error {St : Type} (text : string) : M St unit := emit (Log ERROR text).
Definition asyncio_sleep {St : Type} (seconds : Z) : M St unit := emit (Sleep seconds).

(** [j.get(k, default)] *)
Definition py_get (j : json) (k : string) (default : json) : result json :=
  match j with
  | JObj f => Ok (match Json.assoc k f with Some v => v | None => default end)
  | _ => Raised (Exn AttributeError
                   ("'" +++ Json.type_name j +++ "' object has no attribute 'get'"))
  end.

(** [for item in j]: the items a [for] loop visits. *)
Definition py_iter (j : json) : result (list json) :=
  match j with
  | JArr l => Ok l
  | JObj f => Ok (map (fun kv => JStr (fst kv)) f)
  | JStr s => Ok (map (fun c => JStr (String c EmptyString)) (list_ascii_of_string s))
  | _ => Raised (Exn TypeError
                   ("'" +++ Json.type_name j +++ "' object is not iterable"))
  end.

(** [j.split(';')] *)
Definition py_split (j : json) : result (list string) :=
  match j with
  | JStr s => Ok (PyStr.split ";" s)
  | _ => Raised (Exn AttributeError
                   ("'" +++ Json.type_name j +++ "' object has no attribute 'split'"))
  end.

Definition rbind {A B : Type} (r : result A) (k : A -> result B) : result B :=
  match r with
  | Ok a => k a
  | Raised e => Raised e
  end.

(* ================================================================== *)
(** ** [safe_request] *)
(* ================================================================== *)

Section SafeRequest.
Context {St : Type} `{Network St}.

(** One pass through the [try] body of [safe_request]: the call, then
    [raise_for_status()] and the decoding of the body. *)
Definition attempt_request (rq : request) : M St json :=
  fun s =>
    match exchange rq s with
    | (Reply body, s') => (Ok body, s', [Http rq (Reply body)])
    | (BadStatus code text, s') =>
        (Raised (Exn (HTTPStatusError code) text), s', [Http rq (BadStatus code text)])
    | (NoReply text, s') =>
        (Raised (Exn RequestError text), s', [Http rq (NoReply text)])
    | (Broken text, s') =>
        (Raised (Exn OtherException text), s', [Http rq (Broken text)])
    end.

(** The text logged by the handler that catches [e]. *)
Definition request_error_msg (e : exn) (url : string) : string :=
  match exn_class_of e with
  | HTTPStatusError code => "HTTP错误 " +++ PyStr.of_Z code +++ ": " +++ url
  | RequestError => "请求错误: " +++ exn_text e +++ " " +++ url
  | _ => "未知错误: " +++ exn_text e +++ " " +++ url
  end.

(** [for attempt in range(retries): ...] over the attempts still to be
    made; [return None] when the range is exhausted without a [return]
    or a [raise]. *)
Fixpoint safe_request_loop (rq : request) (error_detail : string)
    (retries : nat) (attempts : list nat) : M St json :=
  match attempts with
  | [] => ret JNull
  | attempt :: rest =>
      try_except (attempt_request rq)
        (fun e =>
           let error_msg := request_error_msg e (rq_url rq) in
           if Nat.ltb attempt (retries - 1) then
             logger_warning ("⚠️ " +++ error_msg +++ "，正在重试 ("
                             +++ PyStr.of_nat (attempt + 1) +++ "/"
                             +++ PyStr.of_nat retries +++ ")") ;;;
             asyncio_sleep 1 ;;;
             safe_request_loop rq error_detail retries rest
           else
             logger_error ("❌ " +++ error_msg +++ " " +++ error_detail) ;;;
             raise e)
  end.

(** [safe_request(method, url, **kwargs)] with the default [retries=2];
    no caller passes another value. *)
Definition safe_request (rq : request) (error_detail : string) : M St json :=
  safe_request_loop rq error_detail 2 (seq 0 2).

End SafeRequest.

(* ================================================================== *)
(** ** [class QingLongAPI] *)
(* ================================================================== *)

Record QingLongAPI : Type := {
  url : string;
  client_id : string;
  client_secret : string;
  name : string;
  token : json
}.

(** [QingLongAPI(url, client_id, client_secret, name)] *)
Definition new_QingLongAPI (u cid secret nm : string) : QingLongAPI :=
  {| url := PyStr.rstrip_chars "/" u; client_id := cid; client_secret := secret;
     name := nm; token := JNull |}.

(** The state of a task that works with one client object: the object
    and the panel it talks to. *)
Record PanelTask (Net : Type) : Type := {
  self : QingLongAPI;
  remote : Net
}.
Arguments self {Net} _.
Arguments remote {Net} _.

#[export] Instance PanelTask_Network {Net : Type} `{Network Net} : Network (PanelTask Net) :=
  fun rq s =>
    match exchange rq (remote s) with
    | (r, net') => (r, {| self := self s; remote := net' |})
    end.

(** An entry of the list [get_enabled_cookies_with_remarks] returns. *)
Record CookieRemark : Type := {
  ck_value : string;
  ck_remarks : json
}.

(** An entry of the list [get_all_cookies] returns. *)
Record CookieInfo : Type := {
  cookie_id : json;
  cookie_value : json;
  cookie_pt_pin : string;
  cookie_status : json
}.

(** A loop that appends at most one entry per item and stops at the
    first item that raises. *)
Fixpoint collect {A : Type} (step : json -> result (option A)) (items : list json)
    : result (list A) :=
  match items with
  | [] => Ok []
  | item :: rest =>
      rbind (step item) (fun o =>
      rbind (collect step rest) (fun l =>
      Ok (match o with Some a => a :: l | None => l end)))
  end.

(** The body of the loop of [get_enabled_cookies_with_remarks]. *)
Definition enabled_row (item : json) : result (option CookieRemark) :=
  rbind (py_get item "status" JNull) (fun st =>
  rbind (if Json.eq_int st 0
         then rbind (py_get item "name" JNull) (fun nm => Ok (Json.eq_str nm "JD_COOKIE"))
         else Ok false) (fun wanted =>
  if wanted then
    rbind (py_get item "value" (JStr "")) (fun value =>
    rbind (py_split value) (fun parts =>
    let pt_key := PyStr.next_where (fun p => p) (PyStr.contains "pt_key=") parts "" in
    let pt_pin := PyStr.next_where (fun p => p) (PyStr.contains "pt_pin=") parts "" in
    if PyStr.nonempty pt_key && PyStr.nonempty pt_pin then
      rbind (py_get item "remarks" (JStr "")) (fun rem =>
      Ok (Some {| ck_value := PyStr.strip pt_key +++ ";" +++ PyStr.strip pt_pin +++ ";";
                  ck_remarks := rem |}))
    else Ok None))
  else Ok None)).

(** [item.get('_id') or item.get('id')], the remote id the client reads
    from a record. *)
Definition item_id (item : json) : result json :=
  rbind (py_get item "_id" JNull) (fun id1 =>
  if Json.truthy id1 then Ok id1 else py_get item "id" JNull).

(** The body of the loop of [get_all_cookies]. *)
Definition all_row (item : json) : result (option CookieInfo) :=
  rbind (py_get item "name" JNull) (fun nm =>
  if Json.eq_str nm "JD_COOKIE" then
    rbind (py_get item "value" (JStr "")) (fun value =>
    rbind (py_split value) (fun parts =>
    let pt_key := PyStr.next_where (fun p => p) (PyStr.contains "pt_key=") parts "" in
    let pt_pin := PyStr.next_where PyStr.strip (PyStr.contains "pt_pin=") parts "" in
    if PyStr.nonempty pt_key && PyStr.nonempty pt_pin then
      rbind (item_id item) (fun id =>
      rbind (py_get item "status" (JNum 1)) (fun st =>
      Ok (Some {| cookie_id := id; cookie_value := value;
                  cookie_pt_pin := pt_pin; cookie_status := st |})))
    else Ok None))
  else Ok None).

Section Client.
Context {Net : Type} `{Network Net}.

Definition self_ : M (PanelTask Net) QingLongAPI :=
  fun s => (Ok (self s), s, []).

(** [self.token = t] *)
Definition set_token (t : json) : M (PanelTask Net) unit :=
  fun s =>
    (Ok tt,
     {| self := {| url := url (self s); client_id := client_id (self s);
                   client_secret := client_secret (self s); name := name (self s);
                   token := t |};
        remote := remote s |},
     []).

Definition get_token : M (PanelTask Net) json :=
  api <- self_ ;;
  if Json.truthy (token api) then ret (token api)
  else
    try_except
      (result <- safe_request
                   {| rq_method := GET;
                      rq_url := url api +++ "/open/auth/token";
                      rq_bearer := None;
                      rq_params := [("client_id", JStr (client_id api));
                                    ("client_secret", JStr (client_secret api))];
                      rq_json := None; rq_form := []; rq_file := None |}
                   ("面板: " +++ name api) ;;
       data <- lift (py_get result "data" (JObj [])) ;;
       tok <- lift (py_get data "token" JNull) ;;
       set_token tok ;;;
       ret tok)
      (fun e =>
         logger_error ("❌ 获取令牌失败 (" +++ name api +++ "): " +++ exn_text e) ;;;
         ret JNull).

(** [self._request(method, endpoint, json=body)] *)
Definition _request (meth : method) (endpoint : string) (body : option json)
    : M (PanelTask Net) json :=
  tok <- get_token ;;
  api <- self_ ;;
  if negb (Json.truthy tok) then
    raise (Exn ValueError ("无法获取" +++ name api +++ "的访问令牌"))
  else
    safe_request
      {| rq_method := meth;
         rq_url := url api +++ endpoint;
         rq_bearer := Some tok;
         rq_params := []; rq_json := body; rq_form := []; rq_file := None |}
      ("面板: " +++ name api).

Definition get_enabled_cookies_with_remarks : M (PanelTask Net) (list CookieRemark) :=
  api <- self_ ;;
  try_except
    (result <- _request GET "/open/envs" None ;;
     data <- lift (py_get result "data" (JArr [])) ;;
     items <- lift (py_iter data) ;;
     lift (collect enabled_row items))
    (fun e =>
       logger_error ("❌ 获取环境变量及备注失败 (" +++ name api +++ "): " +++ exn_text e) ;;;
       ret []).

Definition get_all_cookies : M (PanelTask Net) (list CookieInfo) :=
  api <- self_ ;;
  try_except
    (result <- _request GET "/open/envs" None ;;
     data <- lift (py_get result "data" (JArr [])) ;;
     items <- lift (py_iter data) ;;
     lift (collect all_row items))
    (fun e =>
       logger_error ("❌ 获取所有环境变量失败 (" +++ name api +++ "): " +++ exn_text e) ;;;
       ret []).

(** [delete_cookies(cookie_ids)].  The call is made with httpx directly,
    once, with the header built from [self.token] as it is; its [try]
    body (call, [raise_for_status()], [response.json()]) is one
    [attempt_request]. *)
Definition delete_cookies (cookie_ids : list json) : M (PanelTask Net) (bool * string) :=
  api <- self_ ;;
  try_except
    (match cookie_ids with
     | [] => ret (true, "没有需要删除的Cookie")
     | _ =>
         result <- attempt_request
                     {| rq_method := DELETE;
                        rq_url := url api +++ "/open/envs";
                        rq_bearer := Some (token api);
                        rq_params := []; rq_json := Some (JArr cookie_ids);
                        rq_form := []; rq_file := None |} ;;
         code <- lift (py_get result "code" JNull) ;;
         if Json.eq_int code 200 then
           ret (true, "成功删除 " +++ PyStr.of_nat (length cookie_ids) +++ " 个Cookie")
         else
           msg <- lift (py_get result "message" (JStr "未知错误")) ;;
           ret (false, "删除失败: " +++ Json.str msg)
     end)
    (fun e =>
       logger_error ("❌ 删除Cookie失败 (" +++ name api +++ "): " +++ exn_text e) ;;;
       ret (false, "删除出错: " +++ exn_text e)).

(** The array [envs] that [add_cookies] posts. *)
Definition envs_of (cookies_info : list CookieRemark) : list json :=
  map (fun cookie_info =>
         JObj [("name", JStr "JD_COOKIE");
               ("value", JStr (ck_value cookie_info));
               ("remarks", ck_remarks cookie_info)])
      cookies_info.

Definition add_cookies (cookies_info : list CookieRemark) : M (PanelTask Net) (bool * string) :=
  api <- self_ ;;
  try_except
    (match cookies_info with
     | [] => ret (true, "没有需要添加的Cookie")
     | _ =>
         let envs := envs_of cookies_info in
         result <- _request POST "/open/envs" (Some (JArr envs)) ;;
         ok <- (if Json.truthy result
                then code <- lift (py_get result "code" JNull) ;; ret (Json.eq_int code 200)
                else ret false) ;;
         if (ok : bool) then
           ret (true, "成功添加 " +++ PyStr.of_nat (length envs) +++ " 个Cookie")
         else
           msg <- lift (py_get result "message" (JStr "未知错误")) ;;
           ret (false, "添加失败: " +++ Json.str msg)
     end)
    (fun e =>
       logger_error ("❌ 添加Cookie失败 (" +++ name api +++ "): " +++ exn_text e) ;;;
       ret (false, "添加出错: " +++ exn_text e)).

End Client.

(* ================================================================== *)
(** ** [notify] *)
(* ================================================================== *)

Definition newline : string := String (ascii_of_nat 10) EmptyString.

Section Notify.
Context {St : Type} `{Network St}.

(** The [try] body of the loop of [notify] for one [user_id], up to
    [return True].  [readable] tells which paths [open(.., 'rb')] can
    open. *)
Definition notify_send (CONFIG : Config) (readable : string -> bool)
    (title message : string) (document : option string) (user_id : json) : M St unit :=
  let base_url := PyStr.rstrip_chars "/" (TELEGRAM_PROXY_API CONFIG) in
  let send_message : M St unit :=
    safe_request
      {| rq_method := GET;
         rq_url := base_url +++ "/bot" +++ TELEGRAM_TOKEN CONFIG +++ "/sendMessage";
         rq_bearer := None;
         rq_params := [("chat_id", user_id);
                       ("text", JStr ("*" +++ title +++ "*" +++ newline +++ newline
                                      +++ message));
                       ("parse_mode", JStr "Markdown")];
         rq_json := None; rq_form := []; rq_file := None |} "" ;;;
    ret tt in
  let send_document (path : string) : M St unit :=
    if readable path then
      safe_request
        {| rq_method := POST;
           rq_url := base_url +++ "/bot" +++ TELEGRAM_TOKEN CONFIG +++ "/sendDocument";
           rq_bearer := None; rq_params := []; rq_json := None;
           rq_form := [("chat_id", user_id);
                       ("caption", JStr (title +++ newline +++ newline +++ message))];
           rq_file := Some path |} "" ;;;
      ret tt
    else
      raise (Exn OSError ("[Errno 2] No such file or directory: '" +++ path +++ "'")) in
  match document with
  | Some path => if PyStr.nonempty path then send_document path else send_message
  | None => send_message
  end.

(** [for user_id in CONFIG['TG_USER_IDS']: ...] followed by
    [return False]. *)
Fixpoint notify_loop (CONFIG : Config) (readable : string -> bool)
    (title message : string) (document : option string) (user_ids : list json)
    : M St bool :=
  match user_ids with
  | [] => ret false
  | user_id :: rest =>
      try_except
        (notify_send CONFIG readable title message document user_id ;;;
         ret true)
        (fun e =>
           logger_error ("❌ 发送通知给 " +++ Json.str user_id +++ " 失败: " +++ exn_text e) ;;;
           notify_loop CONFIG readable title message document rest)
  end.

Definition notify (CONFIG : Config) (readable : string -> bool)
    (title message : string) (document : option string) : M St bool :=
  notify_loop CONFIG readable title message document (TG_USER_IDS CONFIG).

End Notify.

(* ================================================================== *)
(** ** The reconciliation pass: [sync_ck_to_panels] *)
(* ================================================================== *)

(** The dictionary [clean_panel] returns. *)
Module Clean.
Record result : Type := {
  name : string;
  success : bool;
  message : string;
  deleted_count : nat
}.
End Clean.

(** The dictionary [add_cookies_to_panel] returns. *)
Module Add.
Record result : Type := {
  name : string;
  success : bool;
  message : string
}.
End Add.

(** The loop of [clean_panel] over [cookies_info]: the ids to delete and
    the pins kept, both in the order met. *)
Fixpoint split_cookies (CONFIG : Config) (cookies_info : list CookieInfo)
    : list json * list (option string) :=
  match cookies_info with
  | [] => ([], [])
  | cookie :: rest =>
      let pt_pin := extract_pt_pin (cookie_pt_pin cookie) in
      let '(to_delete_ids, preserved_pins) := split_cookies CONFIG rest in
      if should_preserve_cookie CONFIG pt_pin
      then (to_delete_ids, pt_pin :: preserved_pins)
      else (cookie_id cookie :: to_delete_ids, preserved_pins)
  end.

Section Reconciler.
Context {Net : Type} `{Network Net}.

Definition clean_panel (CONFIG : Config) : M (PanelTask Net) Clean.result :=
  api <- self_ ;;
  try_except
    (cookies_info <- get_all_cookies ;;
     match cookies_info with
     | [] =>
         ret {| Clean.name := name api; Clean.success := true;
                Clean.message := "未发现CK"; Clean.deleted_count := 0 |}
     | _ =>
         let to_delete_ids := fst (split_cookies CONFIG cookies_info) in
         match to_delete_ids with
         | _ :: _ =>
             sm <- delete_cookies to_delete_ids ;;
             let '(success, message) := sm in
             if (success : bool) then
               ret {| Clean.name := name api; Clean.success := true;
                      Clean.message := "已删除 " +++ PyStr.of_nat (length to_delete_ids)
                                       +++ " 个非保留CK";
                      Clean.deleted_count := length to_delete_ids |}
             else
               ret {| Clean.name := name api; Clean.success := false;
                      Clean.message := "删除失败 - " +++ message;
                      Clean.deleted_count := 0 |}
         | [] =>
             ret {| Clean.name := name api; Clean.success := true;
                    Clean.message := "没有需要删除的CK"; Clean.deleted_count := 0 |}
         end
     end)
    (fun e =>
       logger_error ("❌ 清理面板 " +++ name api +++ " CK出错: " +++ exn_text e) ;;;
       ret {| Clean.name := name api; Clean.success := false;
              Clean.message := "清理出错: " +++ exn_text e; Clean.deleted_count := 0 |}).

Definition add_cookies_to_panel (main_cookies_with_remarks : list CookieRemark)
    : M (PanelTask Net) Add.result :=
  api <- self_ ;;
  try_except
    (sm <- add_cookies main_cookies_with_remarks ;;
     let '(success, message) := sm in
     ret {| Add.name := name api; Add.success := success; Add.message := message |})
    (fun e =>
       logger_error ("❌ 添加CK到面板 " +++ name api +++ " 出错: " +++ exn_text e) ;;;
       ret {| Add.name := name api; Add.success := false;
              Add.message := "添加出错: " +++ exn_text e |}).

(** The remotes a pass talks to: the primary panel, the secondary panels
    in the order of [CONFIG['QL_PANELS']], and the notification
    channel. *)
Record World : Type := {
  primary : Net;
  secondaries : list Net;
  telegram : Net
}.

(** What [await asyncio.gather(..)] gives back: the results in the order
    of the tasks, or the exception of a task that raised. *)
Fixpoint gathered {A : Type} (rs : list (result A)) : result (list A) :=
  match rs with
  | [] => Ok []
  | Ok a :: rest => rbind (gathered rest) (fun l => Ok (a :: l))
  | Raised e :: _ => Raised e
  end.

(** One pass, phase by phase.  [before], [between] and [after] are the
    events of the pass itself; [cleaning] and [adding] hold, panel by
    panel, the events of the tasks of the first and of the second
    [gather]. *)
Record PassRun : Type := {
  before : list event;
  cleaning : list (list event);
  between : list event;
  adding : list (list event);
  after : list event;
  clean_results : list Clean.result;
  add_results : list Add.result;
  final : World
}.

(** [sum(result['deleted_count'] for result in clean_results if result['success'])] *)
Definition total_deleted_of (clean_results : list Clean.result) : nat :=
  list_sum (map Clean.deleted_count (filter Clean.success clean_results)).

(** [sum(1 for result in add_results if result['success'])] *)
Definition success_count_of (add_results : list Add.result) : nat :=
  length (filter Add.success add_results).

(** The handler of the [try] of [sync_ck_to_panels]. *)
Definition sync_failed (CONFIG : Config) (readable : string -> bool) (e : exn)
    : M Net bool :=
  logger_error ("❌ CK同步任务出错: " +++ exn_text e) ;;;
  notify CONFIG readable "CK同步失败" (exn_text e) None.

Definition sync_ck_to_panels (CONFIG : Config) (readable : string -> bool) (w : World)
    : PassRun :=
  let start := Log INFO "🔄 开始执行 CK 同步到其他面板" in
  let failed (e : exn) (evs : list event) (cl ad : list (list event))
             (mid : list event) (w' : World) : PassRun :=
    let '(_, tg, ev) := sync_failed CONFIG readable e (telegram w') in
    {| before := evs; cleaning := cl; between := mid; adding := ad; after := ev;
       clean_results := []; add_results := [];
       final := {| primary := primary w'; secondaries := secondaries w';
                   telegram := tg |} |} in
  let main_ql :=
    new_QingLongAPI (QL_URL CONFIG) (CLIENT_ID CONFIG) (CLIENT_SECRET CONFIG) "主面板" in
  let '(fetched, main_task, ev0) :=
    get_enabled_cookies_with_remarks {| self := main_ql; remote := primary w |} in
  let w0 := {| primary := remote main_task; secondaries := secondaries w;
               telegram := telegram w |} in
  match fetched with
  | Raised e => failed e (start :: ev0) [] [] [] w0
  | Ok [] =>
      {| before := start :: ev0 ++ [Log WARNING "⚠️ 主青龙面板未获取到有效 CK"];
         cleaning := []; between := []; adding := []; after := [];
         clean_results := []; add_results := []; final := w0 |}
  | Ok main_cookies_with_remarks =>
      let ev_before :=
        start :: ev0 ++
        [Log INFO ("✅ 从主青龙面板获取到 "
                   +++ PyStr.of_nat (length main_cookies_with_remarks) +++ " 条有效CK")] in
      let panel_apis :=
        map (fun panel => new_QingLongAPI (panel_url panel) (panel_client_id panel)
                            (panel_client_secret panel) (panel_name panel))
            (QL_PANELS CONFIG) in
      let tasks :=
        map (fun an => {| self := fst an; remote := snd an |})
            (combine panel_apis (secondaries w)) in
      let untouched := skipn (length panel_apis) (secondaries w) in
      let cleaned := map (clean_panel CONFIG) tasks in
      let w1 := {| primary := primary w0;
                   secondaries := map (fun o => remote (state_of o)) cleaned ++ untouched;
                   telegram := telegram w0 |} in
      match gathered (map value_of cleaned) with
      | Raised e => failed e ev_before (map events_of cleaned) [] [] w1
      | Ok results1 =>
          let total_deleted := total_deleted_of results1 in
          let ev_between :=
            [Log INFO ("✅ 已从其他面板清理 " +++ PyStr.of_nat total_deleted
                       +++ " 条非保留CK")] in
          let added :=
            map (add_cookies_to_panel main_cookies_with_remarks) (map state_of cleaned) in
          let w2 := {| primary := primary w0;
                       secondaries := map (fun o => remote (state_of o)) added ++ untouched;
                       telegram := telegram w0 |} in
          match gathered (map value_of added) with
          | Raised e =>
              failed e ev_before (map events_of cleaned) (map events_of added) ev_between w2
          | Ok results2 =>
              let success_count := success_count_of results2 in
              {| before := ev_before;
                 cleaning := map events_of cleaned;
                 between := ev_between;
                 adding := map events_of added;
                 after :=
                   [Log INFO ("✅ CK同步任务完成，成功同步到 " +++ PyStr.of_nat success_count
                              +++ "/" +++ PyStr.of_nat (length panel_apis)
                              +++ " 个面板，同步了 "
                              +++ PyStr.of_nat (length main_cookies_with_remarks)
                              +++ " 条CK，清理了 " +++ PyStr.of_nat total_deleted
                              +++ " 条非保留CK")];
                 clean_results := results1;
                 add_results := results2;
                 final := w2 |}
          end
      end
  end.

End Reconciler.

Arguments World Net : clear implicits.
Arguments PassRun Net : clear implicits.

(** Where an event of a pass comes from: the pass itself, or the task of
    the panel at a position of [CONFIG['QL_PANELS']]. *)
Inductive origin : Type :=
| FromPass
| FromPanel (i : nat).

(** The ways the events of concurrently running tasks can be observed
    in one sequence: each task's events keep their order. *)
Inductive Interleaving {A : Type} : list (list A) -> list A -> Prop :=
| Interleaving_done : forall ls,
    Forall (fun l => l = []) ls -> Interleaving ls []
| Interleaving_step : forall ls1 x l ls2 tr,
    Interleaving (ls1 ++ l :: ls2) tr ->
    Interleaving (ls1 ++ (x :: l) :: ls2) (x :: tr).

Definition tag (o : origin) (evs : list event) : list (origin * event) :=
  map (fun e => (o, e)) evs.

Fixpoint tag_panels (i : nat) (evss : list (list event)) : list (list (origin * event)) :=
  match evss with
  | [] => []
  | evs :: rest => tag (FromPanel i) evs :: tag_panels (S i) rest
  end.

(** The sequences of events one pass can show: the second [gather]
    starts when the first has returned. *)
Definition pass_trace {Net : Type} (run : PassRun Net) (tr : list (origin * event)) : Prop :=
  exists t1 t2,
    Interleaving (tag_panels 0 (cleaning run)) t1 /\
    Interleaving (tag_panels 0 (adding run)) t2 /\
    tr = tag FromPass (before run) ++ t1 ++ tag FromPass (between run) ++ t2
         ++ tag FromPass (after run).

(** The schedule in which each task runs to its end before the next
    one starts. *)
Definition sequential_trace {Net : Type} (run : PassRun Net) : list (origin * event) :=
  tag FromPass (before run) ++ concat (tag_panels 0 (cleaning run))
  ++ tag FromPass (between run) ++ concat (tag_panels 0 (adding run))
  ++ tag FromPass (after run).

(* ================================================================== *)
(** ** The IP allowlist: [get_current_ip], [manage_whitelist],
       [update_ip_whitelist] *)
(* ================================================================== *)

(** The state of a task that uses the cache: the remote side and the
    keys of [redis_client]. *)
Record Process (Net : Type) : Type := {
  net : Net;
  redis : list (string * string)
}.
Arguments net {Net} _.
Arguments redis {Net} _.

#[export] Instance Process_Network {Net : Type} `{Network Net} : Network (Process Net) :=
  fun rq s =>
    match exchange rq (net s) with
    | (r, net') => (r, {| net := net'; redis := redis s |})
    end.

Fixpoint lookup (key : string) (store : list (string * string)) : option string :=
  match store with
  | [] => None
  | (k, v) :: rest => if String.eqb key k then Some v else lookup key rest
  end.

Section Whitelist.
Context {Net : Type} `{Network Net}.

(** [await redis_client.get(key)]: [None] or the stored text
    ([decode_responses=True]). *)
Definition redis_get (key : string) : M (Process Net) (option string) :=
  fun s => (Ok (lookup key (redis s)), s, []).

(** [await redis_client.set(key, value)]: text and integers are stored
    as text; the client refuses other values. *)
Definition redis_set (key : string) (value : json) : M (Process Net) unit :=
  match value with
  | JStr _ | JNum _ =>
      fun s =>
        (Ok tt, {| net := net s; redis := (key, Json.str value) :: redis s |},
         [RedisSet key (Json.str value)])
  | _ =>
      raise (Exn OtherException
               ("Invalid input of type: '" +++ Json.type_name value
                +++ "'. Convert to a bytes, string, int or float first."))
  end.

Definition get_current_ip : M (Process Net) json :=
  try_except
    (safe_request
       {| rq_method := GET; rq_url := "https://4.ipw.cn/"; rq_bearer := None;
          rq_params := []; rq_json := None; rq_form := []; rq_file := None |} "")
    (fun e =>
       logger_error ("❌ 获取当前 IP 失败: " +++ exn_text e) ;;;
       ret JNull).

(** [service_map] *)
Definition service_map (operation : string) : option string :=
  if String.eqb operation "add" then Some "AddWhite"
  else if String.eqb operation "del" then Some "DelWhite"
  else if String.eqb operation "list" then Some "GetWhite"
  else None.

(** [False if operation != 'list' else []] *)
Definition whitelist_failure (operation : string) : json :=
  if String.eqb operation "list" then JArr [] else JBool false.

Definition manage_whitelist (CONFIG : Config) (operation : string) (ip : json)
    : M (Process Net) json :=
  match service_map operation with
  | None =>
      logger_error ("❌ 未知的白名单操作: " +++ operation) ;;;
      ret (whitelist_failure operation)
  | Some service =>
      try_except
        (let params := [("authkey", JStr (PROXY_AUTH_KEY CONFIG));
                        ("service", JStr service);
                        ("format", JStr "json")] in
         let params :=
           if Json.truthy ip && (String.eqb operation "add" || String.eqb operation "del")
           then params ++ [("white", ip)] else params in
         result <- safe_request
                     {| rq_method := GET; rq_url := PROXY_API_URL CONFIG;
                        rq_bearer := None; rq_params := params;
                        rq_json := None; rq_form := []; rq_file := None |} "" ;;
         code <- lift (py_get result "ret" JNull) ;;
         if Json.eq_int code 200 then
           if String.eqb operation "list" then lift (py_get result "data" (JArr []))
           else
             let action := if String.eqb operation "add" then "添加" else "删除" in
             logger_info ("✅ 已" +++ action +++ " IP " +++ Json.str ip +++ " "
                          +++ (if String.eqb operation "add" then "到" else "从")
                          +++ "白名单") ;;;
             ret (JBool true)
         else
           error_msg <- lift (py_get result "msg" (JStr "未知错误")) ;;
           logger_error ("❌ IP 白名单" +++ operation +++ "操作失败: "
                         +++ Json.str error_msg) ;;;
           ret (whitelist_failure operation))
        (fun e =>
           logger_error ("❌ IP 白名单操作出错: " +++ exn_text e) ;;;
           ret (whitelist_failure operation))
  end.

(** [old_ip] as a value: [None] or the text. *)
Definition json_of_cached (old_ip : option string) : json :=
  match old_ip with
  | None => JNull
  | Some t => JStr t
  end.

(** [current_ip == old_ip] *)
Definition same_ip (current_ip : json) (old_ip : option string) : bool :=
  match current_ip, old_ip with
  | JStr a, Some b => String.eqb a b
  | JNull, None => true
  | _, _ => false
  end.

Definition update_ip_whitelist (CONFIG : Config) (readable : string -> bool)
    : M (Process Net) unit :=
  try_except
    (logger_info "🔄 开始检查 IP 白名单" ;;;
     current_ip <- get_current_ip ;;
     if negb (Json.truthy current_ip) then
       logger_warning "⚠️ 获取当前IP失败"
     else
       old_ip <- redis_get (CURRENT_IP_KEY CONFIG) ;;
       if same_ip current_ip old_ip then
         logger_info "ℹ️ IP 未变动"
       else
         let old := json_of_cached old_ip in
         logger_info ("🔔 IP 变动: "
                      +++ Json.str (Json.or_else old (JStr "首次设置"))
                      +++ " → " +++ Json.str current_ip) ;;;
         add_success <- manage_whitelist CONFIG "add" current_ip ;;
         if Json.truthy add_success then
           (if Json.truthy old then
              del_success <- manage_whitelist CONFIG "del" old ;;
              if negb (Json.truthy del_success) then
                logger_warning ("⚠️ 旧IP " +++ Json.str old +++ " 删除失败，但不影响使用")
              else ret tt
            else ret tt) ;;;
           redis_set (CURRENT_IP_KEY CONFIG) current_ip ;;;
           notify CONFIG readable "IP 白名单已更新"
             ("检测到 IP 变动，已自动更新白名单。" +++ newline +++ "旧 IP: "
              +++ Json.str (Json.or_else old (JStr "无")) +++ newline +++ "新 IP: "
              +++ Json.str current_ip) None ;;;
           logger_info ("✅ IP白名单已更新为: " +++ Json.str current_ip)
         else
           logger_error "❌ 新IP添加失败，保留旧IP")
    (fun e => logger_error ("❌ IP 白名单更新出错: " +++ exn_text e)).

End Whitelist.

(* ================================================================== *)
(** ** The daily scheduler: the next run of [schedule_daily_task] *)
(* ================================================================== *)

(** An aware [datetime] in the fixed zone [LOCAL_TIMEZONE]: the day as
    [date.toordinal()] and the wall-clock fields.  Two values of the
    same zone compare and subtract by these fields. *)
Record datetime : Type := {
  ordinal : Z;
  hour : Z;
  minute : Z;
  second : Z;
  microsecond : Z
}.

Module Datetime.

(** [date.max.toordinal()], the 31st of December 9999. *)
Definition MAXORDINAL : Z := 3652059.

Definition valid (d : datetime) : Prop :=
  (1 <= ordinal d <= MAXORDINAL)%Z /\ (0 <= hour d < 24)%Z /\ (0 <= minute d < 60)%Z /\
  (0 <= second d < 60)%Z /\ (0 <= microsecond d < 1000000)%Z.

(** Microseconds since midnight. *)
Definition time_of_day (d : datetime) : Z :=
  (((hour d * 60 + minute d) * 60 + second d) * 1000000 + microsecond d)%Z.

Definition micros_per_day : Z := 86400000000.

(** Microseconds since the day before day 1. *)
Definition instant (d : datetime) : Z :=
  (ordinal d * micros_per_day + time_of_day d)%Z.

(** [a < b]: by date, then by time. *)
Definition lt (a b : datetime) : bool :=
  (ordinal a <? ordinal b)%Z ||
  ((ordinal a =? ordinal b)%Z &&
   ((hour a <? hour b)%Z ||
    ((hour a =? hour b)%Z &&
     ((minute a <? minute b)%Z ||
      ((minute a =? minute b)%Z &&
       ((second a <? second b)%Z ||
        ((second a =? second b)%Z && (microsecond a <? microsecond b)%Z))))))).

(** [d.replace(hour=h, minute=m, second=0, microsecond=0)] *)
Definition replace (d : datetime) (h m : Z) : result datetime :=
  if negb ((0 <=? h)%Z && (h <=? 23)%Z) then
    Raised (Exn ValueError "hour must be in 0..23")
  else if negb ((0 <=? m)%Z && (m <=? 59)%Z) then
    Raised (Exn ValueError "minute must be in 0..59")
  else
    Ok {| ordinal := ordinal d; hour := h; minute := m; second := 0; microsecond := 0 |}.

(** [d + timedelta(days=n)] *)
Definition add_days (d : datetime) (n : Z) : result datetime :=
  let o := (ordinal d + n)%Z in
  if (1 <=? o)%Z && (o <=? MAXORDINAL)%Z then
    Ok {| ordinal := o; hour := hour d; minute := minute d; second := second d;
          microsecond := microsecond d |}
  else Raised (Exn OverflowError "date value out of range").

(** [(a - b)] in microseconds; [total_seconds()] is this over 10^6. *)
Definition sub_micros (a b : datetime) : Z := (instant a - instant b)%Z.

End Datetime.

(** The first lines of the loop body of [schedule_daily_task], from the
    reading [now] of the clock: [next_run] and the wait in
    microseconds. *)
Definition next_run_of (hour_ minute_ : Z) (now : datetime) : result (datetime * Z) :=
  rbind (Datetime.replace now hour_ minute_) (fun next_run =>
  rbind (if Datetime.lt next_run now then Datetime.add_days next_run 1 else Ok next_run)
        (fun next_run =>
  Ok (next_run, Datetime.sub_micros next_run now))).

(* ================================================================== *)
(** ** The panel's side of the interface *)
(* ================================================================== *)

(** What the client relies on from a panel, whatever its implementation:
    the panel holds a list of records; a GET changes nothing; the
    listing, when it carries data, carries the records held; a bulk
    delete answered with code 200 leaves only records that were there
    and whose id was not in the request; a POST only appends. *)
Class PanelContract (Net : Type) `{Network Net} : Type := {
  records : Net -> list json;
  contract_get : forall rq n,
    rq_method rq = GET -> records (snd (exchange rq n)) = records n;
  contract_list : forall rq n base fields n' d,
    rq_method rq = GET -> rq_url rq = base +++ "/open/envs" ->
    exchange rq n = (Reply (JObj fields), n') ->
    Json.assoc "data" fields = Some d ->
    d = JArr (records n);
  contract_delete : forall rq n base ids body n' code,
    rq_method rq = DELETE -> rq_url rq = base +++ "/open/envs" ->
    rq_json rq = Some (JArr ids) ->
    exchange rq n = (Reply body, n') ->
    py_get body "code" JNull = Ok code -> Json.eq_int code 200 = true ->
    forall it, In it (records n') ->
      In it (records n) /\ (forall v, item_id it = Ok v -> ~ In v ids);
  contract_post : forall rq n,
    rq_method rq = POST ->
    exists added, records (snd (exchange rq n)) = records n ++ added
}.

(** A record the cleaning would delete: it is listed by
    [get_all_cookies] and its pin is not preserved. *)
Definition deletable (CONFIG : Config) (item : json) : Prop :=
  exists cookie, all_row item = Ok (Some cookie) /\
    should_preserve_cookie CONFIG (extract_pt_pin (cookie_pt_pin cookie)) = false.

(** A record the cleaning keeps because its pin is preserved. *)
Definition preserved_record (CONFIG : Config) (item : json) : Prop :=
  exists cookie, all_row item = Ok (Some cookie) /\
    should_preserve_cookie CONFIG (extract_pt_pin (cookie_pt_pin cookie)) = true.

(* ------------------------------------------------------------------ *)
(** *** A reference panel *)

(** A panel that follows the interface of the External Interfaces
    section: token by client id and secret, a typed list of records,
    bulk delete by id, bulk add as a pure append.  [ql_faults] scripts
    what goes wrong, one entry per incoming attempt. *)
Module QL.

Record Env : Type := {
  env_id : Z;
  env_name : string;
  env_value : string;
  env_remarks : json;
  env_status : Z
}.

Inductive fault : Type :=
| Healthy
| Down (text : string)                  (* no answer: a transport failure *)
| Status (status_code : Z) (text : string)
| Garbled (text : string)               (* an answer that does not decode *)
| Refused (message : string).           (* a well-formed refusal, code 400 *)

Record Server : Type := {
  ql_client_id : string;
  ql_client_secret : string;
  ql_token : string;
  ql_envs : list Env;
  ql_next_id : Z;
  ql_faults : list fault
}.

Definition render (e : Env) : json :=
  JObj [("id", JNum (env_id e)); ("name", JStr (env_name e));
        ("value", JStr (env_value e)); ("remarks", env_remarks e);
        ("status", JNum (env_status e))].

Fixpoint ends_with (suffix s : string) : bool :=
  String.eqb s suffix ||
  match s with
  | EmptyString => false
  | String _ s' => ends_with suffix s'
  end.

Definition named (ids : list json) (e : Env) : bool :=
  existsb (fun j => match j with JNum z => Z.eqb z (env_id e) | _ => false end) ids.

(** The records a POST body describes, numbered from [next]. *)
Fixpoint parse_new (next : Z) (items : list json) : option (list Env) :=
  match items with
  | [] => Some []
  | JObj f :: rest =>
      match Json.assoc "name" f, Json.assoc "value" f, parse_new (next + 1) rest with
      | Some (JStr n), Some (JStr v), Some l =>
          Some ({| env_id := next; env_name := n; env_value := v;
                   env_remarks := match Json.assoc "remarks" f with
                                  | Some r => r | None => JStr "" end;
                   env_status := 0 |} :: l)
      | _, _, _ => None
      end
  | _ :: _ => None
  end.

Definition with_envs (s : Server) (envs : list Env) (next : Z) : Server :=
  {| ql_client_id := ql_client_id s; ql_client_secret := ql_client_secret s;
     ql_token := ql_token s; ql_envs := envs; ql_next_id := next;
     ql_faults := ql_faults s |}.

Definition authorised (s : Server) (rq : request) : bool :=
  match rq_bearer rq with
  | Some (JStr t) => String.eqb t (ql_token s)
  | _ => false
  end.

Definition refusal (message : string) : reply :=
  Reply (JObj [("code", JNum 400); ("message", JStr message)]).

Definition serve (rq : request) (s : Server) : reply * Server :=
  if ends_with "/open/envs" (rq_url rq) then
    if authorised s rq then
      match rq_method rq with
      | GET =>
          (Reply (JObj [("code", JNum 200); ("data", JArr (map render (ql_envs s)))]), s)
      | DELETE =>
          match rq_json rq with
          | Some (JArr ids) =>
              (Reply (JObj [("code", JNum 200)]),
               with_envs s (filter (fun e => negb (named ids e)) (ql_envs s))
                         (ql_next_id s))
          | _ => (refusal "ids must be an array", s)
          end
      | POST =>
          match rq_json rq with
          | Some (JArr items) =>
              match parse_new (ql_next_id s) items with
              | Some added =>
                  (Reply (JObj [("code", JNum 200); ("data", JArr (map render added))]),
                   with_envs s (ql_envs s ++ added)
                             (ql_next_id s + Z.of_nat (length added)))
              | None => (refusal "name and value are required", s)
              end
          | _ => (refusal "body must be an array", s)
          end
      end
    else (BadStatus 401 "Client error '401 Unauthorized'", s)
  else if ends_with "/open/auth/token" (rq_url rq) then
    match Json.assoc "client_id" (rq_params rq), Json.assoc "client_secret" (rq_params rq) with
    | Some (JStr i), Some (JStr k) =>
        if String.eqb i (ql_client_id s) && String.eqb k (ql_client_secret s) then
          (Reply (JObj [("code", JNum 200);
                        ("data", JObj [("token", JStr (ql_token s));
                                       ("token_type", JStr "Bearer")])]), s)
        else (refusal "client_id or client_secret error", s)
    | _, _ => (refusal "client_id or client_secret error", s)
    end
  else (BadStatus 404 "Client error '404 Not Found'", s).

Definition pop_fault (s : Server) : Server :=
  {| ql_client_id := ql_client_id s; ql_client_secret := ql_client_secret s;
     ql_token := ql_token s; ql_envs := ql_envs s; ql_next_id := ql_next_id s;
     ql_faults := tl (ql_faults s) |}.

Definition answer (rq : request) (s : Server) : reply * Server :=
  match hd Healthy (ql_faults s) with
  | Healthy => serve rq (pop_fault s)
  | Down text => (NoReply text, pop_fault s)
  | Status code text => (BadStatus code text, pop_fault s)
  | Garbled text => (Broken text, pop_fault s)
  | Refused message => (refusal message, pop_fault s)
  end.

End QL.

#[export] Instance QL_Network : Network QL.Server := QL.answer.

(** A remote side that answers from a script, one reply per attempt,
    and stays silent when the script is over. *)
Definition Scripted : Type := list reply.

#[export] Instance Scripted_Network : Network Scripted :=
  fun _ script =>
    match script with
    | [] => (NoReply "All connection attempts failed", [])
    | r :: rest => (r, rest)
    end.

(* ================================================================== *)
(** ** Concrete configurations and worlds *)
(* ================================================================== *)

Module Demo.

Definition panel1 : PanelConfig :=
  {| panel_url := "http://p1:5700/"; panel_client_id := "id1";
     panel_client_secret := "sec1"; panel_name := "面板1" |}.

Definition panel2 : PanelConfig :=
  {| panel_url := "http://p2:5700"; panel_client_id := "id2";
     panel_client_secret := "sec2"; panel_name := "面板2" |}.

Definition config (panels : list PanelConfig) (pins : list string) : Config :=
  {| TELEGRAM_TOKEN := "123:abc";
     TG_USER_IDS := [JNum 1001; JNum 1002; JNum 1003];
     TELEGRAM_PROXY_API := "https://tg.example/";
     QL_URL := "http://main:5700/"; CLIENT_ID := "mid"; CLIENT_SECRET := "msec";
     QL_PANELS := panels;
     PRESERVED_PT_PINS := pins;
     PROXY_AUTH_KEY := "k"; PROXY_API_URL := "https://proxy.example/api";
     CURRENT_IP_KEY := "current_ip" |}.

Definition env (i : Z) (value remarks : string) (status : Z) : QL.Env :=
  {| QL.env_id := i; QL.env_name := "JD_COOKIE"; QL.env_value := value;
     QL.env_remarks := JStr remarks; QL.env_status := status |}.

Definition server (cid secret tok : string) (envs : list QL.Env) (faults : list QL.fault)
    : QL.Server :=
  {| QL.ql_client_id := cid; QL.ql_client_secret := secret; QL.ql_token := tok;
     QL.ql_envs := envs; QL.ql_next_id := 100; QL.ql_faults := faults |}.

(** The primary holds A annotated "x" and B annotated "y". *)
Definition main_server : QL.Server :=
  server "mid" "msec" "tok-main"
    [env 1 "pt_key=newA;pt_pin=userA;" "x" 0; env 2 "pt_key=keyB;pt_pin=userB;" "y" 0] [].

(** A secondary holds A with a stale secret and the preserved C. *)
Definition stale_envs : list QL.Env :=
  [env 11 "pt_key=oldA;pt_pin=userA;" "old" 0; env 12 "pt_key=keyC;pt_pin=userC;" "keep" 1].

Definition secondary1 (faults : list QL.fault) : QL.Server :=
  server "id1" "sec1" "tok-1" stale_envs faults.

Definition secondary2 (faults : list QL.fault) : QL.Server :=
  server "id2" "sec2" "tok-2"
    [env 21 "pt_key=oldB;pt_pin=userB;" "" 0; env 22 "pt_key=oldD;pt_pin=userD;" "" 0]
    faults.

Definition idle : QL.Server := server "" "" "" [] [].

Definition world (main : QL.Server) (panels : list QL.Server) : World QL.Server :=
  {| primary := main; secondaries := panels; telegram := idle |}.

Definition no_files (path : string) : bool := false.

(** The cache holds 10.0.0.1; the echo service reports 10.0.0.2; the
    allowlist service accepts the addition and refuses the removal; the
    notification channel answers. *)
Definition ip_process : Process Scripted :=
  {| net := [Reply (JStr "10.0.0.2");
             Reply (JObj [("ret", JNum 200); ("msg", JStr "ok")]);
             Reply (JObj [("ret", JNum 500); ("msg", JStr "busy")]);
             Reply (JObj [("ok", JBool true)])];
     redis := [("current_ip", "10.0.0.1")] |}.

End Demo.

(* ================================================================== *)
(** ** Reading a sequence of events *)
(* ================================================================== *)

(** An exchange that was answered with a 2xx response. *)
Definition is_reply (e : event) : bool :=
  match e with
  | Http _ (Reply _) => true
  | _ => false
  end.

Definition method_eqb (a b : method) : bool :=
  match a, b with
  | GET, GET | POST, POST | DELETE, DELETE => true
  | _, _ => false
  end.

(** An exchange made with the given method. *)
Definition is_call (meth : method) (e : event) : bool :=
  match e with
  | Http rq _ => method_eqb (rq_method rq) meth
  | _ => false
  end.

(** The exception an answer makes [attempt_request] raise. *)
Definition exn_of_reply (r : reply) : option exn :=
  match r with
  | Reply _ => None
  | BadStatus code text => Some (Exn (HTTPStatusError code) text)
  | NoReply text => Some (Exn RequestError text)
  | Broken text => Some (Exn OtherException text)
  end.

(** The warning [safe_request] logs before it tries again. *)
Definition retry_warning (e : exn) (rq : request) : event :=
  Log WARNING ("⚠️ " +++ request_error_msg e (rq_url rq) +++ "，正在重试 (1/2)").

(** The error [safe_request] logs before it gives up. *)
Definition giving_up (e : exn) (rq : request) (error_detail : string) : event :=
  Log ERROR ("❌ " +++ request_error_msg e (rq_url rq) +++ " " +++ error_detail).

(** The error [notify] logs when sending to [user_id] failed. *)
Definition notify_failure (user_id : json) (text : string) : event :=
  Log ERROR ("❌ 发送通知给 " +++ Json.str user_id +++ " 失败: " +++ text).

(** The request for a token. *)
Definition token_request (api : QingLongAPI) : request :=
  {| rq_method := GET;
     rq_url := url api +++ "/open/auth/token";
     rq_bearer := None;
     rq_params := [("client_id", JStr (client_id api));
                   ("client_secret", JStr (client_secret api))];
     rq_json := None; rq_form := []; rq_file := None |}.

(** The request [_request] sends once it holds the token [tok]. *)
Definition panel_request (base : string) (meth : method) (endpoint : string)
    (tok : json) (body : option json) : request :=
  {| rq_method := meth;
     rq_url := base +++ endpoint;
     rq_bearer := Some tok;
     rq_params := []; rq_json := body; rq_form := []; rq_file := None |}.

(** The request [delete_cookies] sends. *)
Definition delete_request (api : QingLongAPI) (cookie_ids : list json) : request :=
  {| rq_method := DELETE;
     rq_url := url api +++ "/open/envs";
     rq_bearer := Some (token api);
     rq_params := []; rq_json := Some (JArr cookie_ids);
     rq_form := []; rq_file := None |}.

(** A bulk delete the panel answered with code 200. *)
Definition accepted (r : reply) : bool :=
  match r with
  | Reply body =>
      match py_get body "code" JNull with
      | Ok code => Json.eq_int code 200
      | Raised _ => false
      end
  | _ => false
  end.

Definition is_log (e : event) : bool :=
  match e with
  | Log _ _ => true
  | _ => false
  end.

(** The error [get_all_cookies] logs when it gives up. *)
Definition listing_failed (api : QingLongAPI) (e : exn) : event :=
  Log ERROR ("❌ 获取所有环境变量失败 (" +++ name api +++ "): " +++ exn_text e).

(** The error [get_enabled_cookies_with_remarks] logs when it gives up. *)
Definition fetching_failed (api : QingLongAPI) (e : exn) : event :=
  Log ERROR ("❌ 获取环境变量及备注失败 (" +++ name api +++ "): " +++ exn_text e).

(** The dictionary [clean_panel] returns after a delete that returned
    [(success, message)] for the ids [to_delete_ids]. *)
Definition clean_verdict (api : QingLongAPI) (to_delete_ids : list json)
    (success : bool) (message : string) : Clean.result :=
  if success then
    {| Clean.name := name api; Clean.success := true;
       Clean.message := "已删除 " +++ PyStr.of_nat (length to_delete_ids) +++ " 个非保留CK";
       Clean.deleted_count := length to_delete_ids |}
  else
    {| Clean.name := name api; Clean.success := false;
       Clean.message := "删除失败 - " +++ message; Clean.deleted_count := 0 |}.

(** The client of the primary panel and its task, as a pass creates
    them. *)
Definition main_task {Net : Type} (CONFIG : Config) (w : World Net) : PanelTask Net :=
  {| self := new_QingLongAPI (QL_URL CONFIG) (CLIENT_ID CONFIG) (CLIENT_SECRET CONFIG)
               "主面板";
     remote := primary w |}.

(** The clients of the secondary panels ([panel_apis]), each with the
    panel it talks to. *)
Definition panel_tasks {Net : Type} (CONFIG : Config) (w : World Net)
    : list (PanelTask Net) :=
  map (fun an => {| self := fst an; remote := snd an |})
      (combine
         (map (fun panel => new_QingLongAPI (panel_url panel) (panel_client_id panel)
                              (panel_client_secret panel) (panel_name panel))
              (QL_PANELS CONFIG))
         (secondaries w)).

(** What [get_all_cookies] makes of a decoded answer. *)
Definition listed (answer : json) : result (list CookieInfo) :=
  rbind (py_get answer "data" (JArr [])) (fun data =>
  rbind (py_iter data) (fun items => collect all_row items)).

(** What [get_enabled_cookies_with_remarks] makes of a decoded answer. *)
Definition listed_enabled (answer : json) : result (list CookieRemark) :=
  rbind (py_get answer "data" (JArr [])) (fun data =>
  rbind (py_iter data) (fun items => collect enabled_row items)).

(** The answers received, in order. *)
Fixpoint answers (evs : list event) : list reply :=
  match evs with
  | [] => []
  | Http _ r :: rest => r :: answers rest
  | _ :: rest => answers rest
  end.

(** The request [get_current_ip] sends. *)
Definition ip_request : request :=
  {| rq_method := GET; rq_url := "https://4.ipw.cn/"; rq_bearer := None;
     rq_params := []; rq_json := None; rq_form := []; rq_file := None |}.

(** The request [manage_whitelist] sends for a service and an address. *)
Definition whitelist_request (CONFIG : Config) (service : string) (ip : json) : request :=
  {| rq_method := GET; rq_url := PROXY_API_URL CONFIG; rq_bearer := None;
     rq_params := [("authkey", JStr (PROXY_AUTH_KEY CONFIG)); ("service", JStr service);
                   ("format", JStr "json")] ++ [("white", ip)];
     rq_json := None; rq_form := []; rq_file := None |}.

(** A request that asks the allowlist service to remove [ip]. *)
Definition removes (ip : string) (rq : request) : bool :=
  match Json.assoc "service" (rq_params rq), Json.assoc "white" (rq_params rq) with
  | Some service, Some white => Json.eq_str service "DelWhite" && Json.eq_str white ip
  | _, _ => false
  end.

Definition is_cache_write (e : event) : bool :=
  match e with
  | RedisSet _ _ => true
  | _ => false
  end.

(** The line [update_ip_whitelist] logs when the address has changed. *)
Definition ip_changed (old_ip : option string) (current_ip : json) : event :=
  Log INFO ("🔔 IP 变动: "
            +++ Json.str (Json.or_else (json_of_cached old_ip) (JStr "首次设置"))
            +++ " → " +++ Json.str current_ip).

(** The warning [update_ip_whitelist] logs when the old address could
    not be removed. *)
Definition removal_failed (old : json) : event :=
  Log WARNING ("⚠️ 旧IP " +++ Json.str old +++ " 删除失败，但不影响使用").

(** The requests sent, in order. *)
Fixpoint requests (evs : list event) : list request :=
  match evs with
  | [] => []
  | Http rq _ :: rest => rq :: requests rest
  | _ :: rest => requests rest
  end.

(** The bodies of the calls made with the given method, in order. *)
Definition bodies (meth : method) (evs : list event) : list (option json) :=
  map rq_json (requests (filter (is_call meth) evs)).

(** The recipient of a message to the notification channel. *)
Definition recipient (rq : request) : option json :=
  match Json.assoc "chat_id" (rq_params rq) with
  | Some u => Some u
  | None => Json.assoc "chat_id" (rq_form rq)
  end.

(* ================================================================== *)
(** ** More of the client and of the helpers *)
(* ================================================================== *)

(** [safe_request(method, url, retries=n, **kwargs)], for any number of
    attempts. *)
Definition safe_request_retrying {St : Type} `{Network St} (retries : nat)
    (rq : request) (error_detail : string) : M St json :=
  safe_request_loop rq error_detail retries (seq 0 retries).

(** The body of the loop of [get_enabled_cookies]. *)
Definition enabled_value (item : json) : result (option string) :=
  rbind (py_get item "status" JNull) (fun st =>
  rbind (if Json.eq_int st 0
         then rbind (py_get item "name" JNull) (fun nm => Ok (Json.eq_str nm "JD_COOKIE"))
         else Ok false) (fun wanted =>
  if wanted then
    rbind (py_get item "value" (JStr "")) (fun value =>
    rbind (py_split value) (fun parts =>
    let pt_key := PyStr.next_where (fun p => p) (PyStr.contains "pt_key=") parts "" in
    let pt_pin := PyStr.next_where (fun p => p) (PyStr.contains "pt_pin=") parts "" in
    if PyStr.nonempty pt_key && PyStr.nonempty pt_pin then
      Ok (Some (PyStr.strip pt_key +++ ";" +++ PyStr.strip pt_pin +++ ";"))
    else Ok None))
  else Ok None)).

Section Listing.
Context {Net : Type} `{Network Net}.

Definition get_enabled_cookies : M (PanelTask Net) (list string) :=
  api <- self_ ;;
  try_except
    (result <- _request GET "/open/envs" None ;;
     data <- lift (py_get result "data" (JArr [])) ;;
     items <- lift (py_iter data) ;;
     lift (collect enabled_value items))
    (fun e =>
       logger_error ("❌ 获取环境变量失败 (" +++ name api +++ "): " +++ exn_text e) ;;;
       ret []).

End Listing.

(** The query [manage_whitelist] sends for an operation of
    [service_map] and an address. *)
Definition whitelist_params (CONFIG : Config) (operation : string) (ip : json)
    : list (string * json) :=
  let params := [("authkey", JStr (PROXY_AUTH_KEY CONFIG));
                 ("service", match service_map operation with
                             | Some service => JStr service
                             | None => JNull
                             end);
                 ("format", JStr "json")] in
  if Json.truthy ip && (String.eqb operation "add" || String.eqb operation "del")
  then params ++ [("white", ip)] else params.

(* ------------------------------------------------------------------ *)
(** *** Reading texts, answers and events *)

(** No character of [s] is one that a strip by [p] removes. *)
Fixpoint free_of (p : ascii -> bool) (s : string) : bool :=
  match s with
  | EmptyString => true
  | String c r => negb (p c) && free_of p r
  end.

(** A pin as it is written in a credential: not empty, without ";",
    without "pt_pin=" inside, and not ending in white space. *)
Definition plain_pin (pin : string) : Prop :=
  pin <> "" /\ PyStr.mem_char ";" pin = false /\
  PyStr.contains "pt_pin=" pin = false /\ PyStr.rstrip_by PyStr.is_space pin = pin.

(** The ways an entry of [PRESERVED_PT_PINS] can name a pin. *)
Definition names_pin (pin entry : string) : Prop :=
  entry = pin \/ entry = "pt_pin=" +++ pin \/
  entry = "pt_pin=" +++ pin +++ ";" \/ entry = pin +++ ";".

Definition is_sleep (e : event) : bool :=
  match e with
  | Sleep _ => true
  | _ => false
  end.

Definition is_http (e : event) : bool :=
  match e with
  | Http _ _ => true
  | _ => false
  end.

(** An answer of the allowlist service that carries [ret == 200]. *)
Definition granted (r : reply) : bool :=
  match r with
  | Reply body =>
      match py_get body "ret" JNull with
      | Ok code => Json.eq_int code 200
      | Raised _ => false
      end
  | _ => false
  end.

(** The listed credentials [clean_panel] does not keep. *)
Definition unpreserved (CONFIG : Config) (cookies_info : list CookieInfo) : list CookieInfo :=
  filter (fun cookie =>
            negb (should_preserve_cookie CONFIG (extract_pt_pin (cookie_pt_pin cookie))))
         cookies_info.

Definition rmap {A B : Type} (f : A -> B) (r : result A) : result B :=
  match r with
  | Ok a => Ok (f a)
  | Raised e => Raised e
  end.

(** What [get_enabled_cookies] makes of a decoded answer. *)
Definition listed_values (answer : json) : result (list string) :=
  rbind (py_get answer "data" (JArr [])) (fun data =>
  rbind (py_iter data) (fun items => collect enabled_value items)).

(** The error [get_enabled_cookies] logs when it gives up. *)
Definition values_failed (api : QingLongAPI) (e : exn) : event :=
  Log ERROR ("❌ 获取环境变量失败 (" +++ name api +++ "): " +++ exn_text e).

(* ================================================================== *)
(** ** Local files and the jobs that use them: [save_cookies_to_file],
       [update_ck], [cleanup_logs], the count of [ck_status] *)
(* ================================================================== *)

(** The keys of [CONFIG] that name files and cache entries. *)
Record Storage : Type := {
  CK_FILE_PATH : string;
  CURRENT_CK_HASH_KEY : string;
  LOG_DIR : string
}.

(** The local files as the program uses them, through [os], [shutil],
    [aiofiles] and [open]; an operation that fails raises. *)
Class FileSystem (Disk : Type) : Type := {
  (** [os.path.exists(path)] *)
  path_exists : string -> Disk -> bool;
  (** [os.makedirs(path, exist_ok=True)] *)
  makedirs : string -> Disk -> result unit * Disk;
  (** [open(path, 'w')], [write(text)] and the closing of the file *)
  write_text : string -> string -> Disk -> result unit * Disk;
  (** [open(path, 'r')] and the reading of the whole file *)
  read_text : string -> Disk -> result string;
  (** [shutil.rmtree(path)] *)
  rmtree : string -> Disk -> result unit * Disk
}.

(** [p[:p.rfind('/') + 1]] *)
Fixpoint upto_last_slash (p : string) : string :=
  match p with
  | EmptyString => EmptyString
  | String c r =>
      match upto_last_slash r with
      | EmptyString => if Ascii.eqb c "/" then String c EmptyString else EmptyString
      | head => String c head
      end
  end.

Fixpoint only_slashes (s : string) : bool :=
  match s with
  | EmptyString => true
  | String c r => Ascii.eqb c "/" && only_slashes r
  end.

(** [os.path.dirname(p)] on a POSIX host. *)
Definition dirname (p : string) : string :=
  let head := upto_last_slash p in
  if PyStr.nonempty head && negb (only_slashes head)
  then PyStr.rstrip_chars "/" head else head.

(** The state of a job that also uses local files. *)
Record Host (Net Disk : Type) : Type := {
  process : Process Net;
  disk : Disk
}.
Arguments process {Net Disk} _.
Arguments disk {Net Disk} _.

#[export] Instance Host_Network {Net Disk : Type} `{Network Net} : Network (Host Net Disk) :=
  fun rq s =>
    match exchange rq (process s) with
    | (r, p) => (r, {| process := p; disk := disk s |})
    end.

(** A method of the client object [api], called from a task in state
    [St]; the object is dropped when the call is over. *)
Definition using_client {St A : Type} (api : QingLongAPI) (c : M (PanelTask St) A)
    : M St A :=
  fun s =>
    match c {| self := api; remote := s |} with
    | (r, t, ev) => (r, remote t, ev)
    end.

(** The lines a file opened in text mode yields when it is iterated:
    "\n", "\r" and "\r\n" end a line and are read as "\n". *)
Fixpoint file_lines (content : string) : list string :=
  match content with
  | EmptyString => []
  | String c rest =>
      if Ascii.eqb c "010" then newline :: file_lines rest
      else if Ascii.eqb c "013" then
        match rest with
        | String d rest' =>
            if Ascii.eqb d "010" then newline :: file_lines rest'
            else newline :: file_lines rest
        | EmptyString => [newline]
        end
      else
        match file_lines rest with
        | [] => [String c EmptyString]
        | line :: more => String c line :: more
        end
  end.

(** [sum(1 for line in ck_file if line.strip())], the count [ck_status]
    reports, from the content of the file. *)
Definition ck_count (content : string) : nat :=
  length (filter (fun line => PyStr.nonempty (PyStr.strip line)) (file_lines content)).

Section Files.
Context {Net Disk : Type} `{Network Net} `{FileSystem Disk}.

(** A call of the cache or of the allowlist from a job that also uses
    files. *)
Definition in_process {A : Type} (c : M (Process Net) A) : M (Host Net Disk) A :=
  fun s =>
    match c (process s) with
    | (r, p, ev) => (r, {| process := p; disk := disk s |}, ev)
    end.

(** An operation on the local files. *)
Definition on_disk {A : Type} (op : Disk -> result A * Disk) : M (Host Net Disk) A :=
  fun s =>
    match op (disk s) with
    | (r, d) => (r, {| process := process s; disk := d |}, [])
    end.

Definition save_cookies_to_file (STORE : Storage) (cookies : list string)
    : M (Host Net Disk) bool :=
  try_except
    (on_disk (makedirs (dirname (CK_FILE_PATH STORE))) ;;;
     on_disk (write_text (CK_FILE_PATH STORE) (String.concat newline cookies)) ;;;
     logger_info ("✅ 已保存 " +++ PyStr.of_nat (length cookies) +++ " 条 CK") ;;;
     ret true)
    (fun e =>
       logger_error ("❌ 保存 CK 失败: " +++ exn_text e) ;;;
       ret false).

(** [update_ck()].  [ck_hash cookies] stands for
    [hashlib.sha256(json.dumps(cookies, sort_keys=True).encode('utf-8')).hexdigest()]. *)
Definition update_ck (CONFIG : Config) (STORE : Storage) (ck_hash : list string -> string)
    : M (Host Net Disk) unit :=
  try_except
    (logger_info "🔄 开始执行 CK 更新" ;;;
     cookies <- using_client
                  (new_QingLongAPI (QL_URL CONFIG) (CLIENT_ID CONFIG) (CLIENT_SECRET CONFIG)
                     "主面板")
                  get_enabled_cookies ;;
     match cookies with
     | [] => logger_warning "⚠️ 未获取到有效 CK"
     | _ =>
         saved <- save_cookies_to_file STORE cookies ;;
         if (saved : bool) then
           in_process (redis_set (CURRENT_CK_HASH_KEY STORE) (JStr (ck_hash cookies))) ;;;
           logger_info ("✅ 已更新 " +++ PyStr.of_nat (length cookies) +++ " 条 CK")
         else ret tt
     end)
    (fun e => logger_error ("❌ CK 更新出错: " +++ exn_text e)).

Definition cleanup_logs (CONFIG : Config) (STORE : Storage) (readable : string -> bool)
    : M (Host Net Disk) unit :=
  try_except
    (present <- (fun s => (Ok (path_exists (LOG_DIR STORE) (disk s)), s, [])) ;;
     if (present : bool) then
       on_disk (rmtree (LOG_DIR STORE)) ;;;
       on_disk (makedirs (LOG_DIR STORE)) ;;;
       logger_info ("✅ 已清理日志目录: " +++ LOG_DIR STORE) ;;;
       notify CONFIG readable "日志清理完成" ("已清空目录: " +++ LOG_DIR STORE) None ;;;
       ret tt
     else
       logger_warning ("⚠️ 日志目录不存在: " +++ LOG_DIR STORE))
    (fun e =>
       logger_error ("❌ 清理日志失败: " +++ exn_text e) ;;;
       notify CONFIG readable "日志清理失败" (exn_text e) None ;;;
       ret tt).

End Files.

(** A small file system in memory: the files by path, the directories,
    and whether the medium refuses changes. *)
Record MemDisk : Type := {
  mem_files : list (string * string);
  mem_dirs : list string;
  mem_readonly : bool
}.

Definition mem_refusal (path : string) : exn :=
  Exn OSError ("[Errno 30] Read-only file system: '" +++ path +++ "'").

#[export] Instance MemDisk_FileSystem : FileSystem MemDisk := {|
  path_exists path d :=
    existsb (String.eqb path) (mem_dirs d) ||
    match lookup path (mem_files d) with Some _ => true | None => false end;
  makedirs path d :=
    if mem_readonly d then (Raised (mem_refusal path), d)
    else (Ok tt, {| mem_files := mem_files d; mem_dirs := path :: mem_dirs d;
                    mem_readonly := false |});
  write_text path text d :=
    if mem_readonly d then (Raised (mem_refusal path), d)
    else (Ok tt, {| mem_files := (path, text) :: mem_files d; mem_dirs := mem_dirs d;
                    mem_readonly := false |});
  read_text path d :=
    match lookup path (mem_files d) with
    | Some text => Ok text
    | None => Raised (Exn OSError ("[Errno 2] No such file or directory: '" +++ path +++ "'"))
    end;
  rmtree path d :=
    if mem_readonly d then (Raised (mem_refusal path), d)
    else (Ok tt, {| mem_files := filter (fun f => negb (String.prefix (path +++ "/") (fst f)))
                                        (mem_files d);
                    mem_dirs := filter (fun p => negb (String.eqb p path)) (mem_dirs d);
                    mem_readonly := false |})
|}.

(** A text without a line break. *)
Definition one_line (s : string) : bool :=
  negb (PyStr.mem_char "010" s) && negb (PyStr.mem_char "013" s).

(* ================================================================== *)
(** ** Command handlers: [clean_logs_command], [sync_ck_command] *)
(* ================================================================== *)

(** The conversation a handler answers in: [update.message.reply_text]
    sends a message, [msg.edit_text] replaces the text of the message
    sent; either may fail. *)
Class Chat (C : Type) : Type := {
  reply_text : string -> C -> result unit * C;
  edit_text : string -> C -> result unit * C
}.

(** The state of a handler: the state of the job it runs and the
    conversation. *)
Record Session (St C : Type) : Type := {
  task : St;
  chat : C
}.
Arguments task {St C} _.
Arguments chat {St C} _.

Section Handlers.
Context {St C : Type} `{Chat C}.

Definition in_task {A : Type} (c : M St A) : M (Session St C) A :=
  fun s =>
    match c (task s) with
    | (r, t, ev) => (r, {| task := t; chat := chat s |}, ev)
    end.

Definition say (op : C -> result unit * C) : M (Session St C) unit :=
  fun s =>
    match op (chat s) with
    | (r, c) => (r, {| task := task s; chat := c |}, [])
    end.

End Handlers.

Section CleanLogsCommand.
Context {Net Disk C : Type} `{Network Net} `{FileSystem Disk} `{Chat C}.

Definition clean_logs_command (CONFIG : Config) (STORE : Storage) (readable : string -> bool)
    : M (Session (Host Net Disk) C) unit :=
  say (reply_text "🔄 正在清理日志...") ;;;
  try_except
    (in_task (cleanup_logs CONFIG STORE readable) ;;;
     say (edit_text "✅ 日志清理完成"))
    (fun e => say (edit_text ("❌ 清理失败: " +++ exn_text e))).

End CleanLogsCommand.

Section SyncCommand.
Context {Net C : Type} `{Network Net} `{Chat C}.

(** What [sync_ck_command] gives: how it ends, the remotes and the
    conversation afterwards, the pass it ran, and the events that follow
    the pass. *)
Record CommandRun : Type := {
  ended : result unit;
  world_after : World Net;
  chat_after : C;
  pass : option (PassRun Net);
  later : list event
}.

Definition sync_ck_command (CONFIG : Config) (readable : string -> bool)
    (w : World Net) (c : C) : CommandRun :=
  match reply_text "🔄 正在执行CK同步到其他面板..." c with
  | (Raised e, c1) =>
      {| ended := Raised e; world_after := w; chat_after := c1; pass := None; later := [] |}
  | (Ok _, c1) =>
      let run := sync_ck_to_panels CONFIG readable w in
      let main_ql :=
        new_QingLongAPI (QL_URL CONFIG) (CLIENT_ID CONFIG) (CLIENT_SECRET CONFIG) "主面板" in
      let '(listed, t, ev) :=
        get_enabled_cookies {| self := main_ql; remote := primary (final run) |} in
      let w1 := {| primary := remote t; secondaries := secondaries (final run);
                   telegram := telegram (final run) |} in
      let failed (e : exn) (c2 : C) (evs : list event) : CommandRun :=
        let '(r, c3) := edit_text ("❌ 同步失败: " +++ exn_text e) c2 in
        {| ended := r; world_after := w1; chat_after := c3; pass := Some run;
           later := evs ++ [Log ERROR ("❌ 手动同步CK出错: " +++ exn_text e)] |} in
      match listed with
      | Raised e => failed e c1 ev
      | Ok main_cookies =>
          let status_text :=
            "✅ CK同步操作已完成" +++ newline +++ newline +++ "主面板CK数量: "
            +++ PyStr.of_nat (length main_cookies) +++ "个" in
          match edit_text status_text c1 with
          | (Ok _, c2) =>
              {| ended := Ok tt; world_after := w1; chat_after := c2; pass := Some run;
                 later := ev |}
          | (Raised e, c2) => failed e c2 ev
          end
      end
  end.

End SyncCommand.

Arguments CommandRun Net C : clear implicits.

Section GetCkCommand.
Context {Net Disk C : Type} `{Network Net} `{FileSystem Disk} `{Chat C}.

Definition get_ck_command (CONFIG : Config) (STORE : Storage) (ck_hash : list string -> string)
    : M (Session (Host Net Disk) C) unit :=
  say (reply_text "🔄 正在获取 CK...") ;;;
  try_except
    (cookies <- in_task
                  (using_client
                     (new_QingLongAPI (QL_URL CONFIG) (CLIENT_ID CONFIG) (CLIENT_SECRET CONFIG)
                        "主面板")
                     get_enabled_cookies) ;;
     match cookies with
     | [] => say (edit_text "⚠️ 未获取到有效的 CK")
     | _ =>
         saved <- in_task (save_cookies_to_file STORE cookies) ;;
         if (saved : bool) then
           in_task (in_process
                      (redis_set (CURRENT_CK_HASH_KEY STORE) (JStr (ck_hash cookies)))) ;;;
           say (edit_text ("✅ 已成功获取并保存 " +++ PyStr.of_nat (length cookies)
                           +++ " 条 CK"))
         else say (edit_text "❌ CK 保存失败")
     end)
    (fun e =>
       logger_error ("❌ 获取 CK 出错: " +++ exn_text e) ;;;
       say (edit_text ("❌ 获取 CK 出错: " +++ exn_text e))).

End GetCkCommand.

(** A conversation that keeps what it is shown, the latest text last,
    and refuses as scripted, one entry per call. *)
Record Outbox : Type := {
  shown : list string;
  refusals : list bool
}.

Definition deliver (text : string) (c : Outbox) : result unit * Outbox :=
  match refusals c with
  | true :: rest =>
      (Raised (Exn OtherException "Timed out"), {| shown := shown c; refusals := rest |})
  | _ => (Ok tt, {| shown := shown c ++ [text]; refusals := tl (refusals c) |})
  end.

#[export] Instance Outbox_Chat : Chat Outbox :=
  {| reply_text := deliver; edit_text := deliver |}.

(* ================================================================== *)
(** ** [load_config] *)
(* ================================================================== *)

(** [d[k]] for a text [k]; [str(KeyError(k))] is [repr(k)], and the
    text of the TypeError for a string is that of Python 3.11 and
    later. *)
Definition py_index (d : json) (k : string) : result json :=
  match d with
  | JObj f =>
      match Json.assoc k f with
      | Some v => Ok v
      | None => Raised (Exn OtherException ("'" +++ k +++ "'"))
      end
  | JArr _ => Raised (Exn TypeError "list indices must be integers or slices, not str")
  | JStr _ => Raised (Exn TypeError "string indices must be integers, not 'str'")
  | _ => Raised (Exn TypeError ("'" +++ Json.type_name d +++ "' object is not subscriptable"))
  end.

(** [d.items()] *)
Definition py_items (d : json) : result (list (string * json)) :=
  match d with
  | JObj f => Ok f
  | _ => Raised (Exn AttributeError
                   ("'" +++ Json.type_name d +++ "' object has no attribute 'items'"))
  end.

(** [for key, item in ..: config[key] = item['value']], up to the first
    entry that raises; the keys of a dict are distinct, so each
    assignment adds a key. *)
Fixpoint config_values (entries : list (string * json)) : result (list (string * json)) :=
  match entries with
  | [] => Ok []
  | (key, item) :: rest =>
      rbind (py_index item "value") (fun value =>
      rbind (config_values rest) (fun config => Ok ((key, value) :: config)))
  end.

(** The dictionary [load_config] returns when the file cannot be
    used. *)
Definition default_config : list (string * json) :=
  [("TELEGRAM_TOKEN", JStr ""); ("TG_USER_IDS", JArr []); ("TELEGRAM_PROXY_API", JStr "");
   ("QL_URL", JStr ""); ("CLIENT_ID", JStr ""); ("CLIENT_SECRET", JStr "");
   ("QL_PANELS", JArr []); ("PRESERVED_PT_PINS", JArr []);
   ("REDIS_HOST", JStr "localhost"); ("REDIS_PORT", JNum 6379); ("REDIS_DB", JNum 0);
   ("REDIS_PASSWORD", JStr "");
   ("PROXY_AUTH_KEY", JStr ""); ("PROXY_API_URL", JStr "");
   ("CK_FILE_PATH", JStr "scripts/beta/env/ck.txt"); ("CURRENT_IP_KEY", JStr "current_ip");
   ("CURRENT_CK_HASH_KEY", JStr "current_ck_hash"); ("LOG_DIR", JStr "logs/scripts");
   ("CK_UPDATE_INTERVAL", JNum 20); ("IP_UPDATE_INTERVAL", JNum 5);
   ("CK_SYNC_INTERVAL", JNum 30)].

(** [load_config()], from the path of tgbot.json and what opening and
    decoding it gave: the dictionary returned and the line printed. *)
Definition load_config (config_path : string) (loaded : result json)
    : list (string * json) * string :=
  match rbind loaded (fun config_data =>
        rbind (py_index config_data "config") (fun section =>
        rbind (py_items section) config_values)) with
  | Ok config => (config, "✅ 已从 " +++ config_path +++ " 加载配置")
  | Raised e =>
      (default_config, "❌ 加载配置文件失败: " +++ exn_text e +++ "，将使用默认配置")
  end.

(** An entry of the "config" section that carries a value. *)
Definition has_value (entry : string * json) : Prop :=
  exists fields value, snd entry = JObj fields /\ Json.assoc "value" fields = Some value.

(** The value an entry carries. *)
Definition entry_value (entry : string * json) : json :=
  match snd entry with
  | JObj fields => match Json.assoc "value" fields with Some v => v | None => JNull end
  | _ => JNull
  end.

(* ================================================================== *)
(** ** Properties of the credential extractor *)
(* ================================================================== *)

Lemma any_preserved_spec (pins : list string) (pt_pin : string) :
  any_preserved pins pt_pin = true <->
  exists preserved, In preserved pins /\ preserved_clean preserved = pt_pin.
Proof.
  induction pins as [| p rest IH]; simpl.
  - split; [discriminate | intros [x [[] _]]].
  - destruct (String.eqb_spec (preserved_clean p) pt_pin) as [E | NE].
    + split; [intros _; exists p; auto | reflexivity].
    + rewrite IH. split.
      * intros [x [Hin Hx]]. exists x; auto.
      * intros [x [[-> | Hin] Hx]]; [contradiction | exists x; auto].
Qed.

(** C4, counterexample: with the preservation set ["pt_pin=userA;"],
    [should_preserve_cookie("pt_pin=userA;")] is false: the argument is
    compared as it is given, prefix and separator included. *)
Lemma should_preserve_cookie_keeps_argument_verbatim :
  should_preserve_cookie (Demo.config [] ["pt_pin=userA;"]) (Some "pt_pin=userA;") <> true.
Proof. vm_compute. discriminate. Qed.

(** C4, as amended: [should_preserve_cookie] cleans every entry of the
    preservation set (each "pt_pin=" removed, ";" stripped at both ends)
    and compares the result with its argument as given; it is false for
    [None] and for the empty string.  The argument is cleaned by the
    callers, through [extract_pt_pin]: with the set ["pt_pin=userA;"],
    the raw "pt_pin=userA;" is preserved once extracted, "userA" is
    preserved, "userB" is not, and "pt_pin=userA;" passed directly is
    not. *)
Theorem should_preserve_cookie_cleans_entries_only :
  (forall CONFIG pt_pin,
      should_preserve_cookie CONFIG (Some pt_pin) = true <->
      pt_pin <> "" /\
      exists preserved,
        In preserved (PRESERVED_PT_PINS CONFIG) /\
        PyStr.strip_chars ";" (PyStr.replace "pt_pin=" "" preserved) = pt_pin) /\
  (forall CONFIG, should_preserve_cookie CONFIG None = false) /\
  (forall CONFIG, should_preserve_cookie CONFIG (Some "") = false) /\
  should_preserve_cookie (Demo.config [] ["pt_pin=userA;"]) (extract_pt_pin "pt_pin=userA;")
    = true /\
  should_preserve_cookie (Demo.config [] ["pt_pin=userA;"]) (Some "userA") = true /\
  should_preserve_cookie (Demo.config [] ["pt_pin=userA;"]) (Some "userB") = false /\
  should_preserve_cookie (Demo.config [] ["pt_pin=userA;"]) (Some "pt_pin=userA;") = false.
Proof.
  split; [| repeat split; reflexivity].
  intros CONFIG pt_pin. unfold should_preserve_cookie.
  destruct pt_pin as [| c rest]; simpl.
  - split; [discriminate | intros [NE _]; contradiction].
  - rewrite any_preserved_spec. unfold preserved_clean.
    split; [intros Hex; split; [discriminate | exact Hex] | intros [_ Hex]; exact Hex].
Qed.

(* ================================================================== *)
(** ** Properties of the daily scheduler *)
(* ================================================================== *)

Lemma datetime_lt_instant (a b : datetime) :
  Datetime.valid a -> Datetime.valid b ->
  (Datetime.lt a b = true <-> (Datetime.instant a < Datetime.instant b)%Z).
Proof.
  unfold Datetime.valid, Datetime.lt, Datetime.instant, Datetime.time_of_day,
    Datetime.micros_per_day, Datetime.MAXORDINAL.
  intros Va Vb.
  destruct (Z.ltb_spec (ordinal a) (ordinal b)); simpl; [split; [lia | reflexivity] |].
  destruct (Z.eqb_spec (ordinal a) (ordinal b)); simpl; [| split; [discriminate | lia]].
  destruct (Z.ltb_spec (hour a) (hour b)); simpl; [split; [lia | reflexivity] |].
  destruct (Z.eqb_spec (hour a) (hour b)); simpl; [| split; [discriminate | lia]].
  destruct (Z.ltb_spec (minute a) (minute b)); simpl; [split; [lia | reflexivity] |].
  destruct (Z.eqb_spec (minute a) (minute b)); simpl; [| split; [discriminate | lia]].
  destruct (Z.ltb_spec (second a) (second b)); simpl; [split; [lia | reflexivity] |].
  destruct (Z.eqb_spec (second a) (second b)); simpl; [| split; [discriminate | lia]].
  destruct (Z.ltb_spec (microsecond a) (microsecond b)); split;
    solve [lia | reflexivity | discriminate].
Qed.

Lemma datetime_replace_ok (now : datetime) (h m : Z) :
  (0 <= h < 24)%Z -> (0 <= m < 60)%Z ->
  Datetime.replace now h m =
  Ok {| ordinal := ordinal now; hour := h; minute := m; second := 0; microsecond := 0 |}.
Proof.
  intros Hh Hm. unfold Datetime.replace.
  destruct (Z.leb_spec 0 h); [| lia]. destruct (Z.leb_spec h 23); [| lia].
  destruct (Z.leb_spec 0 m); [| lia]. destruct (Z.leb_spec m 59); [| lia].
  reflexivity.
Qed.

(** C9: for a reading [now] of the clock and a target [h]:[m], the
    scheduler computes a next run that is not before [now], at [h]:[m]:00
    sharp; it is today's occurrence when that has not passed, and the
    occurrence of the following day when it has; the wait is never
    negative and never longer than a day.  ([now] is a day that has a
    following day in the calendar of [datetime].) *)
Theorem next_run_not_in_the_past (h m : Z) (now : datetime) :
  Datetime.valid now -> (0 <= h < 24)%Z -> (0 <= m < 60)%Z ->
  (ordinal now < Datetime.MAXORDINAL)%Z ->
  let today := {| ordinal := ordinal now; hour := h; minute := m;
                  second := 0; microsecond := 0 |} in
  exists next_run wait,
    next_run_of h m now = Ok (next_run, wait) /\
    Datetime.valid next_run /\
    Datetime.lt next_run now = false /\
    (Datetime.instant now <= Datetime.instant next_run)%Z /\
    (0 <= wait <= Datetime.micros_per_day)%Z /\
    wait = (Datetime.instant next_run - Datetime.instant now)%Z /\
    hour next_run = h /\ minute next_run = m /\
    second next_run = 0%Z /\ microsecond next_run = 0%Z /\
    (Datetime.lt today now = true -> ordinal next_run = (ordinal now + 1)%Z) /\
    (Datetime.lt today now = false -> next_run = today).
Proof.
  intros Vnow Hh Hm Hlast today.
  assert (Vtoday : Datetime.valid today).
  { unfold Datetime.valid in *; simpl; lia. }
  unfold next_run_of. rewrite (datetime_replace_ok now h m Hh Hm). simpl.
  fold today.
  destruct (Datetime.lt today now) eqn:Hpast; simpl.
  - (* today's occurrence has passed: the following day *)
    unfold Datetime.add_days. simpl.
    assert (Hin : ((1 <=? ordinal now + 1)%Z && (ordinal now + 1 <=? Datetime.MAXORDINAL)%Z)
                  = true).
    { unfold Datetime.valid in Vnow.
      apply andb_true_intro; split; apply Z.leb_le; lia. }
    rewrite Hin. simpl.
    set (next := {| ordinal := (ordinal now + 1)%Z; hour := h; minute := m;
                    second := 0; microsecond := 0 |}).
    assert (Vnext : Datetime.valid next).
    { unfold Datetime.valid in *; simpl; lia. }
    apply (datetime_lt_instant today now Vtoday Vnow) in Hpast.
    assert (Hge : (Datetime.instant now < Datetime.instant next)%Z).
    { unfold Datetime.valid, Datetime.instant, Datetime.time_of_day,
        Datetime.micros_per_day in *; simpl in *; lia. }
    assert (Hnl : Datetime.lt next now = false).
    { destruct (Datetime.lt next now) eqn:E; [| reflexivity].
      apply (datetime_lt_instant next now Vnext Vnow) in E. lia. }
    assert (Hwait : (0 <= Datetime.sub_micros next now <= Datetime.micros_per_day)%Z).
    { unfold Datetime.sub_micros.
      unfold Datetime.valid, Datetime.instant, Datetime.time_of_day,
        Datetime.micros_per_day in *; simpl in *; lia. }
    exists next, (Datetime.sub_micros next now).
    split; [reflexivity |]. split; [exact Vnext |]. split; [exact Hnl |].
    split; [lia |]. split; [exact Hwait |].
    repeat (split; [reflexivity |]).
    intros; discriminate.
  - (* today's occurrence is still to come, or is now *)
    assert (Hge : (Datetime.instant now <= Datetime.instant today)%Z).
    { destruct (Z.le_gt_cases (Datetime.instant now) (Datetime.instant today)); [assumption |].
      assert (Datetime.lt today now = true)
        by (apply (datetime_lt_instant today now Vtoday Vnow); lia).
      congruence. }
    assert (Hwait : (0 <= Datetime.sub_micros today now <= Datetime.micros_per_day)%Z).
    { unfold Datetime.sub_micros.
      unfold Datetime.valid, Datetime.instant, Datetime.time_of_day,
        Datetime.micros_per_day in *; simpl in *; lia. }
    exists today, (Datetime.sub_micros today now).
    split; [reflexivity |]. split; [exact Vtoday |]. split; [exact Hpast |].
    split; [exact Hge |]. split; [exact Hwait |].
    repeat (split; [reflexivity |]).
    split; [intros; discriminate | reflexivity].
Qed.

(** A reading of the clock at 23:59:30 with the target 23:59: the next
    run is 23:59:00 of the following day. *)
Lemma next_run_not_in_the_past_witness :
  exists next_run wait,
    next_run_of 23 59
      {| ordinal := 739000; hour := 23; minute := 59; second := 30; microsecond := 5 |}
    = Ok (next_run, wait) /\
    Datetime.lt next_run
      {| ordinal := 739000; hour := 23; minute := 59; second := 30; microsecond := 5 |}
    = false /\
    ordinal next_run = 739001%Z.
Proof.
  destruct (next_run_not_in_the_past 23 59
              {| ordinal := 739000; hour := 23; minute := 59; second := 30; microsecond := 5 |})
    as (next_run & wait & E & _ & Hlt & _ & _ & _ & _ & _ & _ & _ & Hpast & _).
  - unfold Datetime.valid, Datetime.MAXORDINAL; simpl; lia.
  - lia.
  - lia.
  - unfold Datetime.MAXORDINAL; simpl; lia.
  - exists next_run, wait. split; [exact E | split; [exact Hlt |]].
    apply Hpast. reflexivity.
Defined.

(* ================================================================== *)
(** ** Running coroutines: equations *)
(* ================================================================== *)

Section Equations.
Context {St : Type}.

Lemma bind_ok {A B : Type} (c : M St A) (k : A -> M St B) s a s1 ev1 :
  c s = (Ok a, s1, ev1) ->
  bind c k s = (value_of (k a s1), state_of (k a s1), ev1 ++ events_of (k a s1)).
Proof.
  intros E. unfold bind, value_of, state_of, events_of. rewrite E.
  destruct (k a s1) as [[r s2] ev2]. reflexivity.
Qed.

Lemma bind_to {A B : Type} (c : M St A) (k : A -> M St B) s a s1 ev1 r s2 ev2 :
  c s = (Ok a, s1, ev1) -> k a s1 = (r, s2, ev2) ->
  bind c k s = (r, s2, ev1 ++ ev2).
Proof. intros E1 E2. unfold bind. rewrite E1, E2. reflexivity. Qed.

Lemma bind_raised {A B : Type} (c : M St A) (k : A -> M St B) s e s1 ev1 :
  c s = (Raised e, s1, ev1) -> bind c k s = (Raised e, s1, ev1).
Proof. intros E. unfold bind. rewrite E. reflexivity. Qed.

Lemma try_ok {A : Type} (c : M St A) (h : exn -> M St A) s a s1 ev1 :
  c s = (Ok a, s1, ev1) -> try_except c h s = (Ok a, s1, ev1).
Proof. intros E. unfold try_except. rewrite E. reflexivity. Qed.

Lemma try_raised {A : Type} (c : M St A) (h : exn -> M St A) s e s1 ev1 :
  c s = (Raised e, s1, ev1) ->
  try_except c h s = (value_of (h e s1), state_of (h e s1), ev1 ++ events_of (h e s1)).
Proof.
  intros E. unfold try_except, value_of, state_of, events_of. rewrite E.
  destruct (h e s1) as [[r s2] ev2]. reflexivity.
Qed.

Lemma emit_then {B : Type} (e : event) (k : unit -> M St B) s :
  bind (emit e) k s = (value_of (k tt s), state_of (k tt s), e :: events_of (k tt s)).
Proof. apply (bind_ok (emit e) k s tt s [e]). reflexivity. Qed.

Lemma then_ret {A B : Type} (c : M St A) (b : B) s :
  bind c (fun _ => ret b) s =
  (match value_of (c s) with Ok _ => Ok b | Raised e => Raised e end,
   state_of (c s), events_of (c s)).
Proof.
  unfold bind, ret, value_of, state_of, events_of.
  destruct (c s) as [[[a | e] s1] ev]; simpl; rewrite ?app_nil_r; reflexivity.
Qed.

Lemma run_eta {A : Type} (o : result A * St * list event) :
  o = (value_of o, state_of o, events_of o).
Proof. destruct o as [[r s] ev]. reflexivity. Qed.

Lemma bind_events {A B : Type} (c : M St A) (k : A -> M St B) s :
  events_of (bind c k s) =
  events_of (c s) ++
  match value_of (c s) with
  | Ok a => events_of (k a (state_of (c s)))
  | Raised _ => []
  end.
Proof.
  unfold bind, events_of, value_of, state_of.
  destruct (c s) as [[[a | e] s1] ev1]; simpl.
  - destruct (k a s1) as [[r s2] ev2]. reflexivity.
  - rewrite app_nil_r. reflexivity.
Qed.

Lemma events_of_triple {A : Type} (r : result A) (s : St) (ev : list event) :
  events_of (r, s, ev) = ev.
Proof. reflexivity. Qed.

Lemma value_of_triple {A : Type} (r : result A) (s : St) (ev : list event) :
  value_of (r, s, ev) = r.
Proof. reflexivity. Qed.

Lemma state_of_triple {A : Type} (r : result A) (s : St) (ev : list event) :
  state_of (r, s, ev) = s.
Proof. reflexivity. Qed.

End Equations.

Ltac run_simpl :=
  repeat (rewrite events_of_triple || rewrite value_of_triple || rewrite state_of_triple).
Ltac run_simpl_in H :=
  repeat (rewrite events_of_triple in H || rewrite value_of_triple in H
          || rewrite state_of_triple in H).

(* ================================================================== *)
(** ** Properties of [safe_request] *)
(* ================================================================== *)

Section SafeRequestFacts.
Context {St : Type} `{Network St}.

(** One attempt is one exchange; it returns the body of a 2xx answer
    and raises on anything else. *)
Lemma attempt_request_reply (rq : request) (s s1 : St) (body : json) :
  exchange rq s = (Reply body, s1) ->
  attempt_request rq s = (Ok body, s1, [Http rq (Reply body)]).
Proof. intros E. unfold attempt_request. rewrite E. reflexivity. Qed.

Lemma attempt_request_failure (rq : request) (s s1 : St) (r : reply) (e : exn) :
  exchange rq s = (r, s1) -> exn_of_reply r = Some e ->
  attempt_request rq s = (Raised e, s1, [Http rq r]).
Proof.
  intros E He. unfold attempt_request. rewrite E.
  destruct r; simpl in He; inversion He; reflexivity.
Qed.

Lemma reply_cases (r : reply) :
  (exists body, r = Reply body) \/ (exists e, exn_of_reply r = Some e).
Proof. destruct r; simpl; eauto. Qed.

(** The three ways a [safe_request] goes: answered at once; answered at
    the second attempt, after a warning and a pause of a second; or
    failed twice, the second failure logged and raised. *)
Lemma safe_request_cases (rq : request) (detail : string) (s : St) :
  (exists body s1,
      exchange rq s = (Reply body, s1) /\
      safe_request rq detail s = (Ok body, s1, [Http rq (Reply body)])) \/
  (exists r1 e1 s1 body s2,
      exchange rq s = (r1, s1) /\ exn_of_reply r1 = Some e1 /\
      exchange rq s1 = (Reply body, s2) /\
      safe_request rq detail s =
        (Ok body, s2, [Http rq r1; retry_warning e1 rq; Sleep 1; Http rq (Reply body)])) \/
  (exists r1 e1 s1 r2 e2 s2,
      exchange rq s = (r1, s1) /\ exn_of_reply r1 = Some e1 /\
      exchange rq s1 = (r2, s2) /\ exn_of_reply r2 = Some e2 /\
      safe_request rq detail s =
        (Raised e2, s2,
         [Http rq r1; retry_warning e1 rq; Sleep 1; Http rq r2; giving_up e2 rq detail])).
Proof.
  unfold safe_request. cbn [seq safe_request_loop].
  destruct (exchange rq s) as [r1 s1] eqn:E1.
  destruct (reply_cases r1) as [[body ->] | [e1 He1]].
  - left. exists body, s1. split; [reflexivity |].
    apply try_ok. apply attempt_request_reply. exact E1.
  - right.
    rewrite (try_raised _ _ _ _ _ _ (attempt_request_failure rq s s1 r1 e1 E1 He1)).
    change (Nat.ltb 0 (2 - 1)) with true. change (Nat.ltb 1 (2 - 1)) with false. cbv iota.
    destruct (exchange rq s1) as [r2 s2] eqn:E2.
    destruct (reply_cases r2) as [[body ->] | [e2 He2]].
    + left. exists r1, e1, s1, body, s2. repeat split; try assumption.
      unfold logger_warning, asyncio_sleep. rewrite !emit_then.
      rewrite (try_ok _ _ _ _ _ _ (attempt_request_reply rq s1 s2 body E2)).
      reflexivity.
    + right. exists r1, e1, s1, r2, e2, s2. repeat split; try assumption.
      unfold logger_warning, asyncio_sleep. rewrite !emit_then.
      rewrite (try_raised _ _ _ _ _ _ (attempt_request_failure rq s1 s2 r2 e2 E2 He2)).
      unfold logger_error. rewrite emit_then.
      reflexivity.
Qed.

(** Every exchange of a [safe_request] carries its request; when it
    returns a body, that body answered the last exchange and no earlier
    exchange was answered; when it raises, none was. *)
Lemma safe_request_events (rq : request) (detail : string) (s : St) :
  let o := safe_request rq detail s in
  (forall rq' r, In (Http rq' r) (events_of o) -> rq' = rq) /\
  match value_of o with
  | Ok body =>
      exists pre, events_of o = pre ++ [Http rq (Reply body)] /\ filter is_reply pre = []
  | Raised e => filter is_reply (events_of o) = []
  end.
Proof.
  cbn zeta.
  destruct (safe_request_cases rq detail s)
    as [(body & s1 & E1 & ->)
       | [(r1 & e1 & s1 & body & s2 & E1 & He1 & E2 & ->)
         | (r1 & e1 & s1 & r2 & e2 & s2 & E1 & He1 & E2 & He2 & ->)]];
    unfold events_of, value_of; simpl.
  - split.
    + intros rq' r [Heq | []]. congruence.
    + exists []. split; reflexivity.
  - split.
    + intros rq' r [Heq | [Heq | [Heq | [Heq | []]]]]; try discriminate; congruence.
    + exists [Http rq r1; retry_warning e1 rq; Sleep 1]. split; [reflexivity |].
      destruct r1; simpl in *; [discriminate | reflexivity ..].
  - split.
    + intros rq' r [Heq | [Heq | [Heq | [Heq | [Heq | []]]]]]; try discriminate; congruence.
    + destruct r1; simpl in He1; [discriminate | ..];
        destruct r2; simpl in He2; try discriminate; reflexivity.
Qed.

End SafeRequestFacts.

(* ================================================================== *)
(** ** Properties of [notify] *)
(* ================================================================== *)

Section NotifyFacts.
Context {St : Type} `{Network St}.

(** Sending to one recipient: every exchange is addressed to that
    recipient; when the sending returns, its last exchange was answered
    and no earlier one was; when it raises, none was. *)
Lemma notify_send_events CONFIG readable title message document user_id (s : St) :
  let o := notify_send CONFIG readable title message document user_id s in
  (forall rq r, In (Http rq r) (events_of o) -> recipient rq = Some user_id) /\
  match value_of o with
  | Ok _ =>
      exists pre rq body,
        events_of o = pre ++ [Http rq (Reply body)] /\ filter is_reply pre = [] /\
        recipient rq = Some user_id
  | Raised e => filter is_reply (events_of o) = []
  end.
Proof.
  cbn zeta. unfold notify_send.
  set (msg := {| rq_method := GET; rq_url := _; rq_bearer := None; rq_params := _;
                 rq_json := None; rq_form := []; rq_file := None |}).
  assert (Hmsg : recipient msg = Some user_id).
  { unfold recipient, msg. simpl. reflexivity. }
  assert (Hsend : forall rq, recipient rq = Some user_id ->
            let o := bind (safe_request rq "") (fun _ => ret tt) s in
            (forall rq' r, In (Http rq' r) (events_of o) -> recipient rq' = Some user_id) /\
            match value_of o with
            | Ok _ =>
                exists pre rq' body,
                  events_of o = pre ++ [Http rq' (Reply body)] /\ filter is_reply pre = [] /\
                  recipient rq' = Some user_id
            | Raised e => filter is_reply (events_of o) = []
            end).
  { intros rq Hrq. cbn zeta. rewrite then_ret.
    destruct (safe_request_events rq "" s) as [Hto Hval].
    unfold events_of at 1 3 4, value_of at 1. cbn [fst snd].
    split.
    - intros rq' r Hin. rewrite (Hto _ _ Hin). exact Hrq.
    - destruct (value_of (safe_request rq "" s)) as [body | e].
      + destruct Hval as [pre [Hev Hpre]]. exists pre, rq, body. auto.
      + exact Hval. }
  destruct document as [path |]; [| apply Hsend; exact Hmsg].
  destruct (PyStr.nonempty path); [| apply Hsend; exact Hmsg].
  destruct (readable path).
  - apply Hsend. unfold recipient. simpl. reflexivity.
  - unfold raise, events_of, value_of. simpl. split; [intros rq r [] | reflexivity].
Qed.

Lemma notify_loop_outcome CONFIG readable title message document
    (user_ids : list json) (s : St) :
  let o := notify_loop CONFIG readable title message document user_ids s in
  exists b, value_of o = Ok b /\
    (b = true ->
       exists l1 u l2 pre rq body,
         user_ids = l1 ++ u :: l2 /\
         events_of o = pre ++ [Http rq (Reply body)] /\
         filter is_reply pre = [] /\
         recipient rq = Some u /\
         (forall rq' r, In (Http rq' r) (events_of o) ->
            exists v, recipient rq' = Some v /\ In v (l1 ++ [u])) /\
         Forall (fun v => exists text, In (notify_failure v text) pre) l1) /\
    (b = false ->
       filter is_reply (events_of o) = [] /\
       Forall (fun v => exists text, In (notify_failure v text) (events_of o)) user_ids).
Proof.
  revert s. induction user_ids as [| u rest IH]; intros s; cbn zeta.
  - exists false. unfold events_of, value_of; simpl.
    split; [reflexivity |]. split; [discriminate | auto].
  - cbn [notify_loop].
    destruct (notify_send_events CONFIG readable title message document u s) as [Hto Hval].
    set (send := notify_send CONFIG readable title message document u) in *.
    destruct (send s) as [[[[] | e] s1] ev1] eqn:E;
      unfold events_of, value_of in Hto, Hval; cbn [fst snd] in Hto, Hval.
    + (* sent: [return True] *)
      assert (E' : bind send (fun _ => ret true) s = (Ok true, s1, ev1)).
      { rewrite then_ret, E. reflexivity. }
      rewrite (try_ok _ _ _ _ _ _ E').
      exists true. unfold events_of, value_of; cbn [fst snd].
      split; [reflexivity |]. split; [| discriminate].
      intros _. destruct Hval as (pre & rq & body & Hev & Hpre & Hrq).
      exists [], u, rest, pre, rq, body. repeat split; auto.
      intros rq' r Hin. exists u. split; [eauto | simpl; auto].
    + (* failed: the error is logged and the next recipient is tried *)
      assert (E' : bind send (fun _ => ret true) s = (Raised e, s1, ev1)).
      { rewrite then_ret, E. reflexivity. }
      rewrite (try_raised _ _ _ _ _ _ E').
      unfold logger_error. rewrite emit_then.
      fold (notify_failure u (exn_text e)).
      destruct (IH s1) as [b [Hb [Htrue Hfalse]]].
      set (o := notify_loop CONFIG readable title message document rest s1) in *.
      exists b. run_simpl.
      split; [exact Hb |]. split.
      * intros Hbt. destruct (Htrue Hbt) as (l1 & v & l2 & pre & rq & body &
                                              Hsplit & Hev & Hpre & Hrq & Hall & Hlogs).
        exists (u :: l1), v, l2, (ev1 ++ notify_failure u (exn_text e) :: pre), rq, body.
        split; [rewrite Hsplit; reflexivity |].
        split; [rewrite Hev, <- app_assoc; reflexivity |].
        split; [rewrite filter_app, Hval; simpl; exact Hpre |].
        split; [exact Hrq |]. split.
        -- intros rq' r Hin. apply in_app_or in Hin. destruct Hin as [Hin | [Hin | Hin]].
           ++ exists u. split; [eauto | simpl; auto].
           ++ discriminate.
           ++ destruct (Hall _ _ Hin) as [w [Hw Hinw]]. exists w. split; [exact Hw |].
              simpl. right. exact Hinw.
        -- constructor.
           ++ exists (exn_text e). apply in_or_app. right. left. reflexivity.
           ++ eapply Forall_impl; [| exact Hlogs].
              intros w [text Hin]. exists text. apply in_or_app. right. right. exact Hin.
      * intros Hbf. destruct (Hfalse Hbf) as [Hno Hlogs]. split.
        -- rewrite filter_app, Hval. simpl. exact Hno.
        -- constructor.
           ++ exists (exn_text e). apply in_or_app. right. left. reflexivity.
           ++ eapply Forall_impl; [| exact Hlogs].
              intros w [text Hin]. exists text. apply in_or_app. right. right. exact Hin.
Qed.

End NotifyFacts.


(* ================================================================== *)
(** ** Properties of the panel client *)
(* ================================================================== *)

Section ClientFacts.
Context {Net : Type} `{Network Net}.

(** [get_token] never raises, and talks to the token endpoint only. *)
Lemma get_token_total (s : PanelTask Net) :
  (exists tok, value_of (get_token s) = Ok tok) /\
  (forall rq r, In (Http rq r) (events_of (get_token s)) -> rq = token_request (self s)).
Proof.
  unfold get_token.
  rewrite (bind_ok self_ _ s (self s) s []) by reflexivity.
  run_simpl. cbn [app].
  destruct (Json.truthy (token (self s))).
  - unfold ret, value_of, events_of; simpl. split; [eauto | intros rq r []].
  - fold (token_request (self s)).
    set (body := bind (safe_request (token_request (self s)) _) _).
    destruct (safe_request_events (token_request (self s))
                ("面板: " +++ name (self s)) s) as [Hto _].
    assert (Hbody : forall rq r, In (Http rq r) (events_of (body s)) ->
                                 rq = token_request (self s)).
    { unfold body. rewrite bind_events. intros rq r Hin.
      apply in_app_or in Hin. destruct Hin as [Hin | Hin]; [eauto |].
      destruct (value_of (safe_request _ _ s)) as [result |]; [| destruct Hin].
      rewrite bind_events in Hin. unfold lift at 1 2 in Hin. run_simpl_in Hin.
      simpl in Hin.
      destruct (py_get result "data" (JObj [])) as [data |]; [| destruct Hin].
      rewrite bind_events in Hin. unfold lift at 1 2 in Hin.
      unfold events_of at 1, value_of at 1, state_of at 1 in Hin. simpl in Hin.
      destruct (py_get data "token" JNull) as [tok |]; [| destruct Hin].
      unfold set_token, ret, bind, events_of in Hin. simpl in Hin. destruct Hin. }
    destruct (body s) as [[[tok | e] s1] ev1] eqn:E.
    + rewrite (try_ok _ _ _ _ _ _ E). run_simpl. split; [eauto | exact Hbody].
    + rewrite (try_raised _ _ _ _ _ _ E). unfold logger_error. rewrite emit_then.
      run_simpl. unfold ret at 1 2. run_simpl.
      split; [eauto |].
      intros rq r Hin. apply in_app_or in Hin.
      destruct Hin as [Hin | [Hin | Hin]]; [eauto | discriminate |].
      unfold ret, events_of in Hin. simpl in Hin. destruct Hin.
Qed.

End ClientFacts.

Section ClientRuns.
Context {Net : Type} `{Network Net}.

Lemma lift_bind {St A B : Type} (r : result A) (k : A -> M St B) (s : St) :
  bind (lift r) k s = match r with
                      | Ok a => k a s
                      | Raised e => (Raised e, s, [])
                      end.
Proof.
  unfold bind, lift. destruct r as [a | e]; [| reflexivity].
  destruct (k a s) as [[r2 s2] ev2]. reflexivity.
Qed.

Lemma self_bind {B : Type} (k : QingLongAPI -> M (PanelTask Net) B) (s : PanelTask Net) :
  bind self_ k s = k (self s) s.
Proof.
  unfold bind, self_. destruct (k (self s) s) as [[r2 s2] ev2]. reflexivity.
Qed.

(** Exchanges leave the client object as it is. *)
Lemma exchange_self (rq : request) (s : PanelTask Net) :
  self (snd (exchange rq s)) = self s.
Proof.
  unfold exchange, PanelTask_Network. destruct (exchange rq (remote s)). reflexivity.
Qed.

Lemma safe_request_self (rq : request) (detail : string) (s : PanelTask Net) :
  self (state_of (safe_request rq detail s)) = self s.
Proof.
  destruct (safe_request_cases rq detail s)
    as [(body & s1 & E1 & ->)
       | [(r1 & e1 & s1 & body & s2 & E1 & He1 & E2 & ->)
         | (r1 & e1 & s1 & r2 & e2 & s2 & E1 & He1 & E2 & He2 & ->)]]; run_simpl.
  - rewrite <- (exchange_self rq s), E1. reflexivity.
  - rewrite <- (exchange_self rq s), E1. simpl.
    rewrite <- (exchange_self rq s1), E2. reflexivity.
  - rewrite <- (exchange_self rq s), E1. simpl.
    rewrite <- (exchange_self rq s1), E2. reflexivity.
Qed.

(** [get_token] keeps the address and the name of the client; a token
    it returns is the token the client then holds. *)
Lemma get_token_self (s : PanelTask Net) :
  let o := get_token s in
  url (self (state_of o)) = url (self s) /\
  name (self (state_of o)) = name (self s) /\
  forall tok, value_of o = Ok tok -> Json.truthy tok = true ->
              token (self (state_of o)) = tok.
Proof.
  cbn zeta. unfold get_token. rewrite self_bind.
  destruct (Json.truthy (token (self s))) eqn:Htok.
  - unfold ret. run_simpl. repeat split; try reflexivity.
    intros tok Heq _. inversion Heq. reflexivity.
  - fold (token_request (self s)).
    set (rq := token_request (self s)). set (detail := "面板: " +++ name (self s)).
    pose proof (safe_request_self rq detail s) as Hself.
    destruct (safe_request rq detail s) as [[[result | e] s1] ev1] eqn:E;
      unfold state_of in Hself; cbn [fst snd] in Hself.
    + assert (Hbody : forall k : json -> M (PanelTask Net) json,
                bind (safe_request rq detail) k s =
                (value_of (k result s1), state_of (k result s1), ev1 ++ events_of (k result s1))).
      { intros k. apply bind_ok. exact E. }
      destruct (py_get result "data" (JObj [])) as [data | e1] eqn:Ed.
      * destruct (py_get data "token" JNull) as [tok | e2] eqn:Et.
        -- erewrite try_ok.
           2:{ rewrite Hbody, lift_bind, Ed, lift_bind, Et.
               unfold set_token, ret, bind, value_of, state_of, events_of. simpl.
               reflexivity. }
           run_simpl. simpl. rewrite Hself. repeat split; try reflexivity.
           intros tok' Heq _. inversion Heq. reflexivity.
        -- erewrite try_raised.
           2:{ rewrite Hbody, lift_bind, Ed, lift_bind, Et. run_simpl. reflexivity. }
           unfold logger_error. rewrite emit_then. unfold ret. run_simpl.
           rewrite Hself. repeat split; try reflexivity.
           intros tok' Heq Ht. inversion Heq; subst tok'. discriminate.
      * erewrite try_raised.
        2:{ rewrite Hbody, lift_bind, Ed. run_simpl. reflexivity. }
        unfold logger_error. rewrite emit_then. unfold ret. run_simpl.
        rewrite Hself. repeat split; try reflexivity.
        intros tok' Heq Ht. inversion Heq; subst tok'. discriminate.
    + erewrite try_raised.
      2:{ apply bind_raised. exact E. }
      unfold logger_error. rewrite emit_then. unfold ret. run_simpl.
      rewrite Hself. repeat split; try reflexivity.
      intros tok' Heq Ht. inversion Heq; subst tok'. discriminate.
Qed.

(** How a [_request] runs: the token first; without one it raises at
    once and nothing is sent to the endpoint; with one, the request goes
    out through [safe_request] under that token. *)
Lemma request_run (meth : method) (endpoint : string) (body : option json)
    (s : PanelTask Net) :
  let g := get_token s in
  exists tok, value_of g = Ok tok /\
    _request meth endpoint body s =
    if Json.truthy tok then
      let x := safe_request (panel_request (url (self s)) meth endpoint tok body)
                            ("面板: " +++ name (self s)) (state_of g) in
      (value_of x, state_of x, events_of g ++ events_of x)
    else
      (Raised (Exn ValueError ("无法获取" +++ name (self s) +++ "的访问令牌")),
       state_of g, events_of g).
Proof.
  cbn zeta. destruct (get_token_total s) as [[tok Htok] _].
  destruct (get_token_self s) as [Hurl [Hname _]]. cbn zeta in Hurl, Hname.
  exists tok. split; [exact Htok |].
  unfold _request.
  destruct (get_token s) as [[r s1] ev1] eqn:E.
  unfold value_of in Htok; cbn [fst snd] in Htok. subst r.
  unfold state_of in Hurl, Hname; cbn [fst snd] in Hurl, Hname.
  rewrite (bind_ok _ _ _ _ _ _ E). rewrite self_bind. run_simpl.
  rewrite Hname, Hurl.
  destruct (Json.truthy tok); cbn [negb].
  - fold (panel_request (url (self s)) meth endpoint tok body). reflexivity.
  - unfold raise. run_simpl. rewrite app_nil_r. reflexivity.
Qed.

Lemma filter_none {A : Type} (p : A -> bool) (l : list A) :
  (forall x, In x l -> p x = false) -> filter p l = [].
Proof.
  induction l as [| x l IH]; intros Hall; simpl; [reflexivity |].
  rewrite (Hall x (or_introl eq_refl)). apply IH. intros y Hy. apply Hall. right. exact Hy.
Qed.

(** The client object after a [_request]: same address, same name; and
    the exchanges of a [_request]: for the token, or the request itself
    under a token. *)
Lemma request_facts (meth : method) (endpoint : string) (body : option json)
    (s : PanelTask Net) :
  let o := _request meth endpoint body s in
  url (self (state_of o)) = url (self s) /\
  name (self (state_of o)) = name (self s) /\
  (forall answer, value_of o = Ok answer -> Json.truthy (token (self (state_of o))) = true) /\
  (forall rq r, In (Http rq r) (events_of o) ->
     rq = token_request (self s) \/
     exists tok, Json.truthy tok = true /\
                 rq = panel_request (url (self s)) meth endpoint tok body).
Proof.
  cbn zeta. destruct (request_run meth endpoint body s) as [tok [Htok ->]].
  destruct (get_token_self s) as [Hurl [Hname Hheld]]. cbn zeta in Hurl, Hname, Hheld.
  destruct (get_token_total s) as [_ Hto].
  destruct (Json.truthy tok) eqn:Ht; cbn zeta; run_simpl.
  - rewrite !safe_request_self. rewrite Hurl, Hname.
    split; [reflexivity |]. split; [reflexivity |]. split.
    + intros _ _. rewrite (Hheld tok Htok Ht). exact Ht.
    + intros rq r Hin. apply in_app_or in Hin. destruct Hin as [Hin | Hin].
      * left. eauto.
      * right. exists tok. split; [exact Ht |].
        destruct (safe_request_events (panel_request (url (self s)) meth endpoint tok body)
                    ("面板: " +++ name (self s)) (state_of (get_token s))) as [Hrq _].
        eauto.
  - split; [exact Hurl |]. split; [exact Hname |]. split; [discriminate |].
    intros rq r Hin. left. eauto.
Qed.

(** How [get_all_cookies] runs: whatever goes wrong in the request or in
    reading the answer is logged, and the list is then empty. *)
Lemma get_all_cookies_run (s : PanelTask Net) :
  let r := _request GET "/open/envs" None s in
  get_all_cookies s =
  match value_of r with
  | Ok answer =>
      match listed answer with
      | Ok infos => (Ok infos, state_of r, events_of r)
      | Raised e => (Ok [], state_of r, events_of r ++ [listing_failed (self s) e])
      end
  | Raised e => (Ok [], state_of r, events_of r ++ [listing_failed (self s) e])
  end.
Proof.
  cbn zeta. unfold get_all_cookies. rewrite self_bind.
  destruct (_request GET "/open/envs" None s) as [[[answer | e] s1] ev1] eqn:E; run_simpl.
  - unfold listed.
    destruct (py_get answer "data" (JArr [])) as [data | e1] eqn:Ed; cbn [rbind].
    + destruct (py_iter data) as [items | e2] eqn:Ei; cbn [rbind].
      * destruct (collect all_row items) as [infos | e3] eqn:Ec.
        -- apply try_ok. rewrite (bind_ok _ _ _ _ _ _ E), lift_bind, Ed, lift_bind, Ei.
           unfold lift. run_simpl. rewrite Ec, app_nil_r. reflexivity.
        -- erewrite try_raised.
           2:{ rewrite (bind_ok _ _ _ _ _ _ E), lift_bind, Ed, lift_bind, Ei.
               unfold lift. run_simpl. rewrite Ec, app_nil_r. reflexivity. }
           unfold logger_error. rewrite emit_then. unfold ret. run_simpl. reflexivity.
      * erewrite try_raised.
        2:{ rewrite (bind_ok _ _ _ _ _ _ E), lift_bind, Ed, lift_bind, Ei.
            run_simpl. rewrite app_nil_r. reflexivity. }
        unfold logger_error. rewrite emit_then. unfold ret. run_simpl. reflexivity.
    + erewrite try_raised.
      2:{ rewrite (bind_ok _ _ _ _ _ _ E), lift_bind, Ed. run_simpl.
          rewrite app_nil_r. reflexivity. }
      unfold logger_error. rewrite emit_then. unfold ret. run_simpl. reflexivity.
  - erewrite try_raised.
    2:{ apply bind_raised. exact E. }
    unfold logger_error. rewrite emit_then. unfold ret. run_simpl. reflexivity.
Qed.

(** The same for [get_enabled_cookies_with_remarks]. *)
Lemma get_enabled_cookies_with_remarks_run (s : PanelTask Net) :
  let r := _request GET "/open/envs" None s in
  get_enabled_cookies_with_remarks s =
  match value_of r with
  | Ok answer =>
      match listed_enabled answer with
      | Ok infos => (Ok infos, state_of r, events_of r)
      | Raised e => (Ok [], state_of r, events_of r ++ [fetching_failed (self s) e])
      end
  | Raised e => (Ok [], state_of r, events_of r ++ [fetching_failed (self s) e])
  end.
Proof.
  cbn zeta. unfold get_enabled_cookies_with_remarks. rewrite self_bind.
  destruct (_request GET "/open/envs" None s) as [[[answer | e] s1] ev1] eqn:E; run_simpl.
  - unfold listed_enabled.
    destruct (py_get answer "data" (JArr [])) as [data | e1] eqn:Ed; cbn [rbind].
    + destruct (py_iter data) as [items | e2] eqn:Ei; cbn [rbind].
      * destruct (collect enabled_row items) as [infos | e3] eqn:Ec.
        -- apply try_ok. rewrite (bind_ok _ _ _ _ _ _ E), lift_bind, Ed, lift_bind, Ei.
           unfold lift. run_simpl. rewrite Ec, app_nil_r. reflexivity.
        -- erewrite try_raised.
           2:{ rewrite (bind_ok _ _ _ _ _ _ E), lift_bind, Ed, lift_bind, Ei.
               unfold lift. run_simpl. rewrite Ec, app_nil_r. reflexivity. }
           unfold logger_error. rewrite emit_then. unfold ret. run_simpl. reflexivity.
      * erewrite try_raised.
        2:{ rewrite (bind_ok _ _ _ _ _ _ E), lift_bind, Ed, lift_bind, Ei.
            run_simpl. rewrite app_nil_r. reflexivity. }
        unfold logger_error. rewrite emit_then. unfold ret. run_simpl. reflexivity.
    + erewrite try_raised.
      2:{ rewrite (bind_ok _ _ _ _ _ _ E), lift_bind, Ed. run_simpl.
          rewrite app_nil_r. reflexivity. }
      unfold logger_error. rewrite emit_then. unfold ret. run_simpl. reflexivity.
  - erewrite try_raised.
    2:{ apply bind_raised. exact E. }
    unfold logger_error. rewrite emit_then. unfold ret. run_simpl. reflexivity.
Qed.

(** How [delete_cookies] runs on a list that is not empty: one exchange,
    made with the token the client holds at that moment, whatever it
    is; success exactly when the answer carries code 200; an exception
    is logged and reported in the message. *)
Lemma delete_cookies_run (cookie_id : json) (more : list json) (s : PanelTask Net) :
  let ids := cookie_id :: more in
  let rq := delete_request (self s) ids in
  exists m logs,
    delete_cookies ids s =
      (Ok (accepted (fst (exchange rq s)), m), snd (exchange rq s),
       Http rq (fst (exchange rq s)) :: logs) /\
    (forall e, In e logs -> is_log e = true) /\
    (accepted (fst (exchange rq s)) = true ->
       m = "成功删除 " +++ PyStr.of_nat (length ids) +++ " 个Cookie") /\
    (forall e, exn_of_reply (fst (exchange rq s)) = Some e ->
       m = "删除出错: " +++ exn_text e).
Proof.
  cbn zeta. unfold delete_cookies. rewrite self_bind. cbv iota.
  fold (delete_request (self s) (cookie_id :: more)).
  set (rq := delete_request (self s) (cookie_id :: more)).
  destruct (exchange rq s) as [r s1] eqn:E. cbn [fst snd].
  destruct (reply_cases r) as [[body ->] | [e He]].
  - pose proof (attempt_request_reply rq s s1 body E) as Ea. cbn [accepted].
    destruct (py_get body "code" JNull) as [code | e1] eqn:Ec.
    + destruct (Json.eq_int code 200) eqn:E200.
      * eexists _, []. split.
        -- apply try_ok. rewrite (bind_ok _ _ _ _ _ _ Ea), lift_bind, Ec, E200.
           unfold ret. run_simpl. reflexivity.
        -- split; [intros e [] |]. split; [reflexivity | discriminate].
      * destruct (py_get body "message" (JStr "未知错误")) as [msg | e2] eqn:Em.
        -- eexists _, []. split.
           ++ apply try_ok. rewrite (bind_ok _ _ _ _ _ _ Ea), lift_bind, Ec, E200.
              rewrite lift_bind, Em. unfold ret. run_simpl. reflexivity.
           ++ split; [intros e [] |]. split; discriminate.
        -- eexists _, [_]. split.
           ++ erewrite try_raised.
              2:{ rewrite (bind_ok _ _ _ _ _ _ Ea), lift_bind, Ec, E200.
                  rewrite lift_bind, Em. run_simpl. reflexivity. }
              unfold logger_error. rewrite emit_then. unfold ret. run_simpl. reflexivity.
           ++ split; [intros e [<- | []]; reflexivity |]. split; discriminate.
    + eexists _, [_]. split.
      * erewrite try_raised.
        2:{ rewrite (bind_ok _ _ _ _ _ _ Ea), lift_bind, Ec. run_simpl. reflexivity. }
        unfold logger_error. rewrite emit_then. unfold ret. run_simpl. reflexivity.
      * split; [intros e [<- | []]; reflexivity |]. split; discriminate.
  - pose proof (attempt_request_failure rq s s1 r e E He) as Ea.
    assert (Hacc : accepted r = false) by (destruct r; [discriminate | reflexivity ..]).
    rewrite Hacc.
    eexists _, [_]. split.
    + erewrite try_raised.
      2:{ apply bind_raised. exact Ea. }
      unfold logger_error. rewrite emit_then. unfold ret. run_simpl. reflexivity.
    + split; [intros e' [<- | []]; reflexivity |]. split; [discriminate |].
      intros e' He'. congruence.
Qed.

(** How [add_cookies] runs on a list that is not empty: one [_request]
    that posts the list as [envs_of] renders it; it never raises. *)
Lemma add_cookies_run (first : CookieRemark) (more : list CookieRemark)
    (s : PanelTask Net) :
  let cookies_info := first :: more in
  let r := _request POST "/open/envs" (Some (JArr (envs_of cookies_info))) s in
  exists b m logs,
    add_cookies cookies_info s = (Ok (b, m), state_of r, events_of r ++ logs) /\
    (forall e, In e logs -> is_log e = true).
Proof.
  cbn zeta. unfold add_cookies. rewrite self_bind. cbv iota.
  set (envs := envs_of (first :: more)).
  destruct (_request POST "/open/envs" (Some (JArr envs)) s)
    as [[[answer | e] s1] ev1] eqn:E; run_simpl.
  - destruct (Json.truthy answer) eqn:Ht.
    + destruct (py_get answer "code" JNull) as [code | e1] eqn:Ec.
      * destruct (Json.eq_int code 200) eqn:E200.
        -- eexists _, _, []. split.
           { apply try_ok. rewrite (bind_ok _ _ _ _ _ _ E), Ht.
             erewrite bind_ok.
             2:{ rewrite lift_bind, Ec. unfold ret. reflexivity. }
             rewrite E200. unfold ret. run_simpl. reflexivity. }
           intros e [].
        -- destruct (py_get answer "message" (JStr "未知错误")) as [msg | e2] eqn:Em.
           ++ eexists _, _, []. split.
              { apply try_ok. rewrite (bind_ok _ _ _ _ _ _ E), Ht.
                erewrite bind_ok.
                2:{ rewrite lift_bind, Ec. unfold ret. reflexivity. }
                rewrite E200, lift_bind, Em. unfold ret. run_simpl. reflexivity. }
              intros e [].
           ++ eexists _, _, [_]. split.
              { erewrite try_raised.
                2:{ rewrite (bind_ok _ _ _ _ _ _ E), Ht.
                    erewrite bind_ok.
                    2:{ rewrite lift_bind, Ec. unfold ret. reflexivity. }
                    rewrite E200, lift_bind, Em. run_simpl. reflexivity. }
                unfold logger_error. rewrite emit_then. unfold ret. run_simpl.
                rewrite !app_nil_r. reflexivity. }
              intros e [<- | []]; reflexivity.
      * eexists _, _, [_]. split.
        { erewrite try_raised.
          2:{ rewrite (bind_ok _ _ _ _ _ _ E), Ht.
              erewrite bind_raised.
              2:{ rewrite lift_bind, Ec. reflexivity. }
              run_simpl. reflexivity. }
          unfold logger_error. rewrite emit_then. unfold ret. run_simpl.
          rewrite !app_nil_r. reflexivity. }
        intros e [<- | []]; reflexivity.
    + destruct (py_get answer "message" (JStr "未知错误")) as [msg | e2] eqn:Em.
      * eexists _, _, []. split.
        { apply try_ok. rewrite (bind_ok _ _ _ _ _ _ E), Ht.
          erewrite bind_ok.
          2:{ unfold ret. reflexivity. }
          cbv beta iota. rewrite lift_bind, Em. unfold ret. run_simpl. reflexivity. }
        intros e [].
      * eexists _, _, [_]. split.
        { erewrite try_raised.
          2:{ rewrite (bind_ok _ _ _ _ _ _ E), Ht.
              erewrite bind_ok.
              2:{ unfold ret. reflexivity. }
              cbv beta iota. rewrite lift_bind, Em. run_simpl. reflexivity. }
          unfold logger_error. rewrite emit_then. unfold ret. run_simpl.
          rewrite !app_nil_r. reflexivity. }
        intros e [<- | []]; reflexivity.
  - eexists _, _, [_]. split.
    { erewrite try_raised.
      2:{ apply bind_raised. exact E. }
      unfold logger_error. rewrite emit_then. unfold ret. run_simpl. reflexivity. }
    intros e' [<- | []]; reflexivity.
Qed.

End ClientRuns.

(* ================================================================== *)
(** ** Properties of the tasks of a pass *)
(* ================================================================== *)

Section TaskRuns.
Context {Net : Type} `{Network Net}.

Lemma get_all_cookies_total (s : PanelTask Net) :
  exists infos, value_of (get_all_cookies s) = Ok infos.
Proof.
  rewrite get_all_cookies_run. cbn zeta.
  destruct (value_of (_request GET "/open/envs" None s)) as [answer | e];
    [| run_simpl; eauto].
  destruct (listed answer); run_simpl; eauto.
Qed.

(** [clean_panel] on a panel whose listing came back empty. *)
Lemma clean_panel_empty (CONFIG : Config) (s : PanelTask Net) :
  value_of (get_all_cookies s) = Ok [] ->
  clean_panel CONFIG s =
  (Ok {| Clean.name := name (self s); Clean.success := true;
         Clean.message := "未发现CK"; Clean.deleted_count := 0 |},
   state_of (get_all_cookies s), events_of (get_all_cookies s)).
Proof.
  intros Hl. unfold clean_panel. rewrite self_bind. apply try_ok.
  destruct (get_all_cookies s) as [[r s1] ev1] eqn:E.
  unfold value_of in Hl; cbn [fst snd] in Hl. subst r.
  rewrite (bind_ok _ _ _ _ _ _ E). unfold ret. run_simpl. rewrite app_nil_r. reflexivity.
Qed.

(** [clean_panel] on a panel whose listed credentials are all
    preserved. *)
Lemma clean_panel_nothing (CONFIG : Config) (s : PanelTask Net) (infos : list CookieInfo) :
  value_of (get_all_cookies s) = Ok infos -> infos <> [] ->
  fst (split_cookies CONFIG infos) = [] ->
  clean_panel CONFIG s =
  (Ok {| Clean.name := name (self s); Clean.success := true;
         Clean.message := "没有需要删除的CK"; Clean.deleted_count := 0 |},
   state_of (get_all_cookies s), events_of (get_all_cookies s)).
Proof.
  intros Hl Hne Hids. unfold clean_panel. rewrite self_bind. apply try_ok.
  destruct (get_all_cookies s) as [[r s1] ev1] eqn:E.
  unfold value_of in Hl; cbn [fst snd] in Hl. subst r.
  rewrite (bind_ok _ _ _ _ _ _ E).
  destruct infos as [| c rest]; [contradiction |].
  rewrite Hids. unfold ret. run_simpl. rewrite app_nil_r. reflexivity.
Qed.

(** [clean_panel] on a panel that lists credentials to delete: the
    listing, then one delete call that carries exactly the ids of the
    listed credentials that are not preserved. *)
Lemma clean_panel_delete (CONFIG : Config) (s : PanelTask Net) (infos : list CookieInfo)
    (cookie_id : json) (more : list json) :
  value_of (get_all_cookies s) = Ok infos ->
  fst (split_cookies CONFIG infos) = cookie_id :: more ->
  let s1 := state_of (get_all_cookies s) in
  let ids := cookie_id :: more in
  let rq := delete_request (self s1) ids in
  exists m logs,
    clean_panel CONFIG s =
      (Ok (clean_verdict (self s) ids (accepted (fst (exchange rq s1))) m),
       snd (exchange rq s1),
       events_of (get_all_cookies s) ++ Http rq (fst (exchange rq s1)) :: logs) /\
    (forall e, In e logs -> is_log e = true) /\
    (forall e, exn_of_reply (fst (exchange rq s1)) = Some e ->
       m = "删除出错: " +++ exn_text e).
Proof.
  intros Hl Hids. cbn zeta.
  destruct (get_all_cookies s) as [[r s1] ev1] eqn:E.
  unfold value_of in Hl; cbn [fst snd] in Hl. subst r. run_simpl.
  destruct (delete_cookies_run cookie_id more s1) as (m & logs & Hd & Hlogs & _ & Hexn).
  cbn zeta in Hd, Hexn.
  exists m, logs. split; [| split; assumption].
  unfold clean_panel. rewrite self_bind. apply try_ok.
  rewrite (bind_ok _ _ _ _ _ _ E).
  destruct infos as [| c rest]; [simpl in Hids; discriminate |].
  rewrite Hids. cbv iota.
  rewrite (bind_ok _ _ _ _ _ _ Hd). cbv beta iota.
  unfold clean_verdict.
  destruct (accepted (fst (exchange (delete_request (self s1) (cookie_id :: more)) s1)));
    unfold ret; run_simpl; rewrite app_nil_r; reflexivity.
Qed.

Lemma clean_panel_total (CONFIG : Config) (s : PanelTask Net) :
  exists r, value_of (clean_panel CONFIG s) = Ok r.
Proof.
  destruct (get_all_cookies_total s) as [infos Hl].
  destruct infos as [| c rest].
  - rewrite (clean_panel_empty CONFIG s Hl). run_simpl. eauto.
  - destruct (fst (split_cookies CONFIG (c :: rest))) as [| i more] eqn:Hids.
    + rewrite (clean_panel_nothing CONFIG s (c :: rest) Hl);
        [run_simpl; eauto | discriminate | exact Hids].
    + destruct (clean_panel_delete CONFIG s (c :: rest) i more Hl Hids)
        as (m & logs & -> & _). run_simpl. eauto.
Qed.

(** [add_cookies_to_panel]: one [_request] that posts the primary's list
    as [envs_of] renders it; it never raises. *)
Lemma add_cookies_to_panel_run (first : CookieRemark) (more : list CookieRemark)
    (s : PanelTask Net) :
  let main := first :: more in
  let r := _request POST "/open/envs" (Some (JArr (envs_of main))) s in
  exists b m logs,
    add_cookies_to_panel main s =
      (Ok {| Add.name := name (self s); Add.success := b; Add.message := m |},
       state_of r, events_of r ++ logs) /\
    (forall e, In e logs -> is_log e = true).
Proof.
  cbn zeta.
  destruct (add_cookies_run first more s) as (b & m & logs & Ha & Hlogs). cbn zeta in Ha.
  exists b, m, logs. split; [| exact Hlogs].
  unfold add_cookies_to_panel. rewrite self_bind. apply try_ok.
  rewrite (bind_ok _ _ _ _ _ _ Ha). cbv beta iota. unfold ret. run_simpl.
  rewrite app_nil_r. reflexivity.
Qed.

Lemma add_cookies_to_panel_total (main : list CookieRemark) (s : PanelTask Net) :
  exists r, value_of (add_cookies_to_panel main s) = Ok r.
Proof.
  destruct main as [| first more].
  - eexists. reflexivity.
  - destruct (add_cookies_to_panel_run first more s) as (b & m & logs & -> & _).
    run_simpl. eauto.
Qed.

End TaskRuns.

(* ================================================================== *)
(** ** The shape of a pass *)
(* ================================================================== *)

Lemma gathered_total {A : Type} (rs : list (result A)) :
  (forall r, In r rs -> exists a, r = Ok a) ->
  exists l, gathered rs = Ok l /\ map Ok l = rs.
Proof.
  induction rs as [| r rs IH]; intros Hall.
  - exists []. split; reflexivity.
  - destruct (Hall r (or_introl eq_refl)) as [a ->].
    destruct IH as [l [Hg Hl]]; [intros r Hr; apply Hall; right; exact Hr |].
    exists (a :: l). simpl. rewrite Hg. simpl. rewrite Hl. split; reflexivity.
Qed.

Section PassShape.
Context {Net : Type} `{Network Net}.

(** A pass whose primary lists nothing stops before it creates a single
    client for a secondary. *)
Lemma sync_aborted (CONFIG : Config) (readable : string -> bool) (w : World Net) :
  value_of (get_enabled_cookies_with_remarks (main_task CONFIG w)) = Ok [] ->
  let fetch := get_enabled_cookies_with_remarks (main_task CONFIG w) in
  sync_ck_to_panels CONFIG readable w =
  {| before := Log INFO "🔄 开始执行 CK 同步到其他面板" :: events_of fetch
               ++ [Log WARNING "⚠️ 主青龙面板未获取到有效 CK"];
     cleaning := []; between := []; adding := []; after := [];
     clean_results := []; add_results := [];
     final := {| primary := remote (state_of fetch); secondaries := secondaries w;
                 telegram := telegram w |} |}.
Proof.
  intros Hf. cbn zeta. unfold sync_ck_to_panels. fold (main_task CONFIG w).
  destruct (get_enabled_cookies_with_remarks (main_task CONFIG w)) as [[r s1] ev0].
  unfold value_of in Hf; cbn [fst snd] in Hf. subst r. reflexivity.
Qed.

(** A pass whose primary lists credentials runs one cleaning task and
    then one adding task per configured panel; each adding task starts
    from the state its panel's cleaning task left. *)
Lemma sync_completed (CONFIG : Config) (readable : string -> bool) (w : World Net)
    (first : CookieRemark) (more : list CookieRemark) :
  value_of (get_enabled_cookies_with_remarks (main_task CONFIG w)) = Ok (first :: more) ->
  let main := first :: more in
  let fetch := get_enabled_cookies_with_remarks (main_task CONFIG w) in
  let cleaned := map (clean_panel CONFIG) (panel_tasks CONFIG w) in
  let added := map (add_cookies_to_panel main) (map state_of cleaned) in
  let run := sync_ck_to_panels CONFIG readable w in
  before run = Log INFO "🔄 开始执行 CK 同步到其他面板" :: events_of fetch
               ++ [Log INFO ("✅ 从主青龙面板获取到 " +++ PyStr.of_nat (length main)
                             +++ " 条有效CK")] /\
  cleaning run = map events_of cleaned /\
  between run = [Log INFO ("✅ 已从其他面板清理 "
                           +++ PyStr.of_nat (total_deleted_of (clean_results run))
                           +++ " 条非保留CK")] /\
  adding run = map events_of added /\
  after run = [Log INFO ("✅ CK同步任务完成，成功同步到 "
                         +++ PyStr.of_nat (success_count_of (add_results run))
                         +++ "/" +++ PyStr.of_nat (length (QL_PANELS CONFIG))
                         +++ " 个面板，同步了 " +++ PyStr.of_nat (length main)
                         +++ " 条CK，清理了 "
                         +++ PyStr.of_nat (total_deleted_of (clean_results run))
                         +++ " 条非保留CK")] /\
  map Ok (clean_results run) = map value_of cleaned /\
  map Ok (add_results run) = map value_of added /\
  primary (final run) = remote (state_of fetch) /\
  secondaries (final run) =
    map (fun o => remote (state_of o)) added
    ++ skipn (length (QL_PANELS CONFIG)) (secondaries w) /\
  telegram (final run) = telegram w.
Proof.
  intros Hf. cbn zeta. unfold sync_ck_to_panels.
  fold (main_task CONFIG w). fold (panel_tasks CONFIG w).
  destruct (get_enabled_cookies_with_remarks (main_task CONFIG w)) as [[r s1] ev0].
  unfold value_of in Hf; cbn [fst snd] in Hf. subst r. cbv iota. run_simpl.
  set (cleaned := map (clean_panel CONFIG) (panel_tasks CONFIG w)).
  set (added := map (add_cookies_to_panel (first :: more)) (map state_of cleaned)).
  destruct (gathered_total (map value_of cleaned)) as [results1 [Hg1 Hr1]].
  { intros r Hr. apply in_map_iff in Hr. destruct Hr as [o [<- Ho]].
    unfold cleaned in Ho. apply in_map_iff in Ho. destruct Ho as [t [<- _]].
    apply clean_panel_total. }
  destruct (gathered_total (map value_of added)) as [results2 [Hg2 Hr2]].
  { intros r Hr. apply in_map_iff in Hr. destruct Hr as [o [<- Ho]].
    unfold added in Ho. apply in_map_iff in Ho. destruct Ho as [t [<- _]].
    apply add_cookies_to_panel_total. }
  rewrite Hg1, Hg2. cbn [before cleaning between adding after clean_results add_results
                         final primary secondaries telegram].
  rewrite !length_map.
  repeat split; auto.
Qed.

End PassShape.

Section TaskCalls.
Context {Net : Type} `{Network Net}.

(** A [_request] made with GET issues GET calls only. *)
Lemma request_get_calls (endpoint : string) (s : PanelTask Net) (e : event) :
  In e (events_of (_request GET endpoint None s)) ->
  is_call DELETE e = false /\ is_call POST e = false.
Proof.
  intros Hin. destruct e as [rq r | | |]; try (split; reflexivity).
  destruct (request_facts GET endpoint None s) as (_ & _ & _ & Hrq).
  destruct (Hrq rq r Hin) as [-> | [tok [_ ->]]]; split; reflexivity.
Qed.

Lemma get_all_cookies_calls (s : PanelTask Net) (e : event) :
  In e (events_of (get_all_cookies s)) ->
  is_call DELETE e = false /\ is_call POST e = false.
Proof.
  rewrite get_all_cookies_run. cbn zeta. intros Hin.
  assert (Hlog : forall x, In e (events_of (_request GET "/open/envs" None s)
                                 ++ [listing_failed (self s) x]) ->
                 is_call DELETE e = false /\ is_call POST e = false).
  { intros x Hx. apply in_app_or in Hx. destruct Hx as [Hx | [<- | []]].
    - apply (request_get_calls _ _ _ Hx).
    - split; reflexivity. }
  destruct (value_of (_request GET "/open/envs" None s)) as [answer | x];
    [destruct (listed answer) as [infos | x] |]; run_simpl_in Hin; eauto.
  apply (request_get_calls _ _ _ Hin).
Qed.

Lemma get_enabled_cookies_with_remarks_calls (s : PanelTask Net) (e : event) :
  In e (events_of (get_enabled_cookies_with_remarks s)) ->
  is_call DELETE e = false /\ is_call POST e = false.
Proof.
  rewrite get_enabled_cookies_with_remarks_run. cbn zeta. intros Hin.
  assert (Hlog : forall x, In e (events_of (_request GET "/open/envs" None s)
                                 ++ [fetching_failed (self s) x]) ->
                 is_call DELETE e = false /\ is_call POST e = false).
  { intros x Hx. apply in_app_or in Hx. destruct Hx as [Hx | [<- | []]].
    - apply (request_get_calls _ _ _ Hx).
    - split; reflexivity. }
  destruct (value_of (_request GET "/open/envs" None s)) as [answer | x];
    [destruct (listed_enabled answer) as [infos | x] |]; run_simpl_in Hin; eauto.
  apply (request_get_calls _ _ _ Hin).
Qed.

(** A listing that returned credentials leaves the client with a
    token. *)
Lemma get_all_cookies_token (s : PanelTask Net) (c : CookieInfo) (rest : list CookieInfo) :
  value_of (get_all_cookies s) = Ok (c :: rest) ->
  Json.truthy (token (self (state_of (get_all_cookies s)))) = true /\
  url (self (state_of (get_all_cookies s))) = url (self s) /\
  name (self (state_of (get_all_cookies s))) = name (self s).
Proof.
  rewrite get_all_cookies_run. cbn zeta.
  destruct (request_facts GET "/open/envs" None s) as (Hurl & Hname & Htok & _).
  cbn zeta in Hurl, Hname, Htok.
  destruct (value_of (_request GET "/open/envs" None s)) as [answer | x] eqn:E.
  - destruct (listed answer) as [infos | x]; run_simpl; intros Hv.
    + split; [apply (Htok answer eq_refl) | split; assumption].
    + discriminate.
  - run_simpl. discriminate.
Qed.

(** A client that holds a token uses it without asking again. *)
Lemma get_token_held (s : PanelTask Net) :
  Json.truthy (token (self s)) = true ->
  get_token s = (Ok (token (self s)), s, []).
Proof.
  intros Ht. unfold get_token. rewrite self_bind, Ht. reflexivity.
Qed.

(** The calls of a [safe_request], by method. *)
Lemma safe_request_bodies (rq : request) (detail : string) (s : PanelTask Net)
    (meth : method) :
  let evs := events_of (safe_request rq detail s) in
  (method_eqb (rq_method rq) meth = false -> bodies meth evs = []) /\
  (method_eqb (rq_method rq) meth = true ->
     bodies meth evs = [rq_json rq] \/ bodies meth evs = [rq_json rq; rq_json rq]).
Proof.
  cbn zeta.
  destruct (safe_request_cases rq detail s)
    as [(body & s1 & E1 & ->)
       | [(r1 & e1 & s1 & body & s2 & E1 & He1 & E2 & ->)
         | (r1 & e1 & s1 & r2 & e2 & s2 & E1 & He1 & E2 & He2 & ->)]];
    run_simpl; unfold bodies; cbn [filter retry_warning giving_up is_call];
    split; intros Hc; rewrite Hc; cbn [requests map]; auto.
Qed.

End TaskCalls.

Section PassPanels.
Context {Net : Type} `{Network Net}.

Lemma nth_error_map_Ok {A : Type} (l : list A) (rs : list (result A)) (i : nat)
    (r : result A) :
  map Ok l = rs -> nth_error rs i = Some r ->
  exists a, r = Ok a /\ nth_error l i = Some a.
Proof.
  intros <- Hn. rewrite nth_error_map in Hn.
  destruct (nth_error l i) as [a |]; simpl in Hn; [| discriminate].
  inversion Hn. eauto.
Qed.

(** What a completed pass holds for the panel at position [i]: the
    result and the events of its cleaning task and of its adding task,
    each as the task produces them when run on that panel alone. *)
Lemma sync_panel (CONFIG : Config) (readable : string -> bool) (w : World Net)
    (first : CookieRemark) (more : list CookieRemark) (i : nat) (t : PanelTask Net) :
  value_of (get_enabled_cookies_with_remarks (main_task CONFIG w)) = Ok (first :: more) ->
  nth_error (panel_tasks CONFIG w) i = Some t ->
  let main := first :: more in
  let run := sync_ck_to_panels CONFIG readable w in
  let c := clean_panel CONFIG t in
  let a := add_cookies_to_panel main (state_of c) in
  exists r ar,
    value_of c = Ok r /\ nth_error (clean_results run) i = Some r /\
    nth_error (cleaning run) i = Some (events_of c) /\
    value_of a = Ok ar /\ nth_error (add_results run) i = Some ar /\
    nth_error (adding run) i = Some (events_of a) /\
    nth_error (secondaries (final run)) i = Some (remote (state_of a)).
Proof.
  intros Hf Ht. cbn zeta.
  destruct (sync_completed CONFIG readable w first more Hf)
    as (_ & Hcl & _ & Had & _ & Hr1 & Hr2 & _ & Hsec & _).
  cbn zeta in Hcl, Had, Hr1, Hr2, Hsec.
  set (run := sync_ck_to_panels CONFIG readable w) in *.
  set (cleaned := map (clean_panel CONFIG) (panel_tasks CONFIG w)) in *.
  set (added := map (add_cookies_to_panel (first :: more)) (map state_of cleaned)) in *.
  assert (Hc : nth_error cleaned i = Some (clean_panel CONFIG t)).
  { unfold cleaned. rewrite nth_error_map, Ht. reflexivity. }
  assert (Ha : nth_error added i =
               Some (add_cookies_to_panel (first :: more) (state_of (clean_panel CONFIG t)))).
  { unfold added. rewrite !nth_error_map, Hc. reflexivity. }
  destruct (nth_error_map_Ok (clean_results run) (map value_of cleaned) i
              (value_of (clean_panel CONFIG t)) Hr1) as [r [Hr Hnr]].
  { rewrite nth_error_map, Hc. reflexivity. }
  destruct (nth_error_map_Ok (add_results run) (map value_of added) i
              (value_of (add_cookies_to_panel (first :: more)
                           (state_of (clean_panel CONFIG t)))) Hr2) as [ar [Har Hnar]].
  { rewrite nth_error_map, Ha. reflexivity. }
  exists r, ar.
  split; [exact Hr |]. split; [exact Hnr |].
  split; [rewrite Hcl, nth_error_map, Hc; reflexivity |].
  split; [exact Har |]. split; [exact Hnar |].
  split; [rewrite Had, nth_error_map, Ha; reflexivity |].
  rewrite Hsec, nth_error_app1.
  - rewrite nth_error_map, Ha. reflexivity.
  - rewrite length_map. apply nth_error_Some. rewrite Ha. discriminate.
Qed.

Lemma sync_lengths (CONFIG : Config) (readable : string -> bool) (w : World Net)
    (first : CookieRemark) (more : list CookieRemark) :
  value_of (get_enabled_cookies_with_remarks (main_task CONFIG w)) = Ok (first :: more) ->
  let run := sync_ck_to_panels CONFIG readable w in
  length (clean_results run) = length (panel_tasks CONFIG w) /\
  length (add_results run) = length (panel_tasks CONFIG w) /\
  length (cleaning run) = length (panel_tasks CONFIG w) /\
  length (adding run) = length (panel_tasks CONFIG w).
Proof.
  intros Hf. cbn zeta.
  destruct (sync_completed CONFIG readable w first more Hf)
    as (_ & Hcl & _ & Had & _ & Hr1 & Hr2 & _).
  cbn zeta in Hcl, Had, Hr1, Hr2.
  apply (f_equal (@length _)) in Hr1, Hr2. rewrite !length_map in Hr1, Hr2.
  rewrite Hcl, Had, Hr1, Hr2, !length_map. repeat split; reflexivity.
Qed.

End PassPanels.

Lemma Interleaving_nil {A : Type} (tr : list A) : Interleaving [] tr -> tr = [].
Proof.
  intros Hi. inversion Hi as [ls Hall Els | ls1 x l ls2 tr' Hrest Els Etr]; [reflexivity |].
  destruct ls1; discriminate.
Qed.

(* ================================================================== *)
(** ** An empty primary (C3) *)
(* ================================================================== *)

(** C3: when the primary yields an empty list of enabled credentials,
    the pass logs the warning and returns: it starts no task for any
    secondary, so no delete and no add is issued, in whatever order the
    events are observed, and every secondary is left as it was. *)
Theorem sync_aborts_on_empty_primary {Net : Type} `{Network Net}
    (CONFIG : Config) (readable : string -> bool) (w : World Net) :
  value_of (get_enabled_cookies_with_remarks (main_task CONFIG w)) = Ok [] ->
  let run := sync_ck_to_panels CONFIG readable w in
  cleaning run = [] /\ adding run = [] /\
  clean_results run = [] /\ add_results run = [] /\
  secondaries (final run) = secondaries w /\
  (forall tr, pass_trace run tr ->
     tr = tag FromPass (before run) /\
     last tr (FromPass, Sleep 0) = (FromPass, Log WARNING "⚠️ 主青龙面板未获取到有效 CK") /\
     forall o e, In (o, e) tr ->
       o = FromPass /\ is_call DELETE e = false /\ is_call POST e = false).
Proof.
  intros Hf. cbn zeta. rewrite (sync_aborted CONFIG readable w Hf). cbn zeta.
  cbn [cleaning adding clean_results add_results final secondaries before between after].
  repeat (split; [reflexivity |]).
  intros tr (t1 & t2 & H1 & H2 & ->). simpl in H1, H2.
  apply Interleaving_nil in H1, H2. subst t1 t2.
  cbn [before between after tag map app]. rewrite !app_nil_r.
  split; [reflexivity |]. split.
  - rewrite map_app. cbn [map]. rewrite app_comm_cons. apply last_last.
  - intros o e [Heq | Hin].
    + inversion Heq. repeat split.
    + apply in_map_iff in Hin. destruct Hin as [e' [Heq Hin]]. inversion Heq; subst.
      split; [reflexivity |]. apply in_app_or in Hin. destruct Hin as [Hin | [<- | []]].
      * apply (get_enabled_cookies_with_remarks_calls _ _ Hin).
      * split; reflexivity.
Qed.

(** A primary that holds no credential, and one secondary. *)
Lemma sync_aborts_on_empty_primary_witness :
  let run := sync_ck_to_panels (Demo.config [Demo.panel1] ["pt_pin=userC;"]) Demo.no_files
               (Demo.world (Demo.server "mid" "msec" "tok-main" [] [])
                           [Demo.secondary1 []]) in
  cleaning run = [] /\ adding run = [] /\
  secondaries (final run) = [Demo.secondary1 []].
Proof.
  destruct (sync_aborts_on_empty_primary
              (Demo.config [Demo.panel1] ["pt_pin=userC;"]) Demo.no_files
              (Demo.world (Demo.server "mid" "msec" "tok-main" [] [])
                          [Demo.secondary1 []]))
    as (Hc & Ha & _ & _ & Hs & _).
  - vm_compute. reflexivity.
  - cbn zeta. auto.
Defined.

(* ================================================================== *)
(** ** A secondary whose listing fails (C6) *)
(* ================================================================== *)

(** C6, counterexample: the listing of the secondary fails twice with a
    transport error (after the token was issued); the pass records that
    panel's cleaning as a success with nothing found. *)
Lemma listing_failure_is_recorded_as_success :
  let run := sync_ck_to_panels (Demo.config [Demo.panel1] ["pt_pin=userC;"]) Demo.no_files
               (Demo.world Demo.main_server
                  [Demo.secondary1 [QL.Healthy; QL.Down "timed out"; QL.Down "timed out"]]) in
  map (fun evs => map exn_of_reply (answers evs)) (cleaning run) =
    [[None; Some (Exn RequestError "timed out"); Some (Exn RequestError "timed out")]] /\
  clean_results run =
    [{| Clean.name := "面板1"; Clean.success := true;
        Clean.message := "未发现CK"; Clean.deleted_count := 0 |}] /\
  ~ (exists r, In r (clean_results run) /\ Clean.success r = false).
Proof.
  vm_compute. split; [reflexivity |]. split; [reflexivity |].
  intros [r [[<- | []] Hr]]. discriminate.
Qed.

(** C6, as amended: when the listing request of a secondary raises (a
    transport error after the retries, or any other exception), the
    client logs the error and the listing is empty; the pass then
    records the cleaning of that panel as a success with the message
    for "nothing found" and a deleted count of 0, its cleaning task
    consists of the failed request and that log, without any delete
    call, and the adding task of the panel still runs and is recorded. *)
Theorem listing_failure_yields_empty_listing {Net : Type} `{Network Net}
    (CONFIG : Config) (readable : string -> bool) (w : World Net)
    (first : CookieRemark) (more : list CookieRemark)
    (i : nat) (t : PanelTask Net) (e : exn) :
  value_of (get_enabled_cookies_with_remarks (main_task CONFIG w)) = Ok (first :: more) ->
  nth_error (panel_tasks CONFIG w) i = Some t ->
  value_of (_request GET "/open/envs" None t) = Raised e ->
  let run := sync_ck_to_panels CONFIG readable w in
  let listing := _request GET "/open/envs" None t in
  nth_error (clean_results run) i =
    Some {| Clean.name := name (self t); Clean.success := true;
            Clean.message := "未发现CK"; Clean.deleted_count := 0 |} /\
  nth_error (cleaning run) i = Some (events_of listing ++ [listing_failed (self t) e]) /\
  bodies DELETE (events_of listing ++ [listing_failed (self t) e]) = [] /\
  exists ar,
    nth_error (add_results run) i = Some ar /\
    value_of (add_cookies_to_panel (first :: more) (state_of (clean_panel CONFIG t)))
      = Ok ar.
Proof.
  intros Hf Ht Hl. cbn zeta.
  destruct (sync_panel CONFIG readable w first more i t Hf Ht)
    as (r & ar & Hr & Hnr & Hnc & Har & Hnar & _).
  assert (Hlist : get_all_cookies t =
                  (Ok [], state_of (_request GET "/open/envs" None t),
                   events_of (_request GET "/open/envs" None t)
                   ++ [listing_failed (self t) e])).
  { rewrite get_all_cookies_run. cbn zeta. rewrite Hl. reflexivity. }
  assert (Hclean : clean_panel CONFIG t =
                   (Ok {| Clean.name := name (self t); Clean.success := true;
                          Clean.message := "未发现CK"; Clean.deleted_count := 0 |},
                    state_of (_request GET "/open/envs" None t),
                    events_of (_request GET "/open/envs" None t)
                    ++ [listing_failed (self t) e])).
  { rewrite (clean_panel_empty CONFIG t); rewrite Hlist; reflexivity. }
  rewrite Hclean in Hr, Hnc. run_simpl_in Hr. run_simpl_in Hnc. inversion Hr; subst r.
  split; [exact Hnr |]. split; [exact Hnc |]. split.
  - unfold bodies. rewrite filter_none; [reflexivity |].
    intros ev Hin. apply in_app_or in Hin. destruct Hin as [Hin | [<- | []]].
    + apply (request_get_calls _ _ _ Hin).
    + reflexivity.
  - exists ar. split; assumption.
Qed.

(** The secondary of the counterexample, with its listing failing
    twice. *)
Lemma listing_failure_yields_empty_listing_witness :
  let run := sync_ck_to_panels (Demo.config [Demo.panel1] ["pt_pin=userC;"]) Demo.no_files
               (Demo.world Demo.main_server
                  [Demo.secondary1 [QL.Healthy; QL.Down "timed out"; QL.Down "timed out"]]) in
  nth_error (clean_results run) 0 =
    Some {| Clean.name := "面板1"; Clean.success := true;
            Clean.message := "未发现CK"; Clean.deleted_count := 0 |}.
Proof.
  set (w := Demo.world Demo.main_server
              [Demo.secondary1 [QL.Healthy; QL.Down "timed out"; QL.Down "timed out"]]).
  set (CONFIG := Demo.config [Demo.panel1] ["pt_pin=userC;"]).
  destruct (listing_failure_yields_empty_listing CONFIG Demo.no_files w
              {| ck_value := "pt_key=newA;pt_pin=userA;"; ck_remarks := JStr "x" |}
              [{| ck_value := "pt_key=keyB;pt_pin=userB;"; ck_remarks := JStr "y" |}]
              0
              {| self := new_QingLongAPI "http://p1:5700/" "id1" "sec1" "面板1";
                 remote := Demo.secondary1
                             [QL.Healthy; QL.Down "timed out"; QL.Down "timed out"] |}
              (Exn RequestError "timed out"))
    as (Hr & _).
  - vm_compute. reflexivity.
  - vm_compute. reflexivity.
  - vm_compute. reflexivity.
  - exact Hr.
Defined.

Section CallArguments.
Context {Net : Type} `{Network Net}.

Lemma bodies_app (meth : method) (l1 l2 : list event) :
  bodies meth (l1 ++ l2) = bodies meth l1 ++ bodies meth l2.
Proof.
  unfold bodies. rewrite filter_app.
  assert (Hreq : forall a b, requests (a ++ b) = requests a ++ requests b).
  { induction a as [| e a IH]; intros b; [reflexivity |].
    destruct e; simpl; rewrite IH; reflexivity. }
  rewrite Hreq, map_app. reflexivity.
Qed.

Lemma bodies_none (meth : method) (l : list event) :
  (forall e, In e l -> is_call meth e = false) -> bodies meth l = [].
Proof. intros Hl. unfold bodies. rewrite (filter_none _ _ Hl). reflexivity. Qed.

Lemma bodies_logs (meth : method) (l : list event) :
  (forall e, In e l -> is_log e = true) -> bodies meth l = [].
Proof.
  intros Hl. apply bodies_none. intros e He. specialize (Hl e He).
  destruct e; simpl in *; congruence.
Qed.

(** A client that holds a token sends its [_request] at once. *)
Lemma request_held (meth : method) (endpoint : string) (body : option json)
    (s : PanelTask Net) :
  Json.truthy (token (self s)) = true ->
  _request meth endpoint body s =
  safe_request (panel_request (url (self s)) meth endpoint (token (self s)) body)
               ("面板: " +++ name (self s)) s.
Proof.
  intros Ht. destruct (request_run meth endpoint body s) as [tok [Htok ->]].
  rewrite (get_token_held s Ht) in *. run_simpl_in Htok. inversion Htok; subst tok.
  rewrite Ht. cbn zeta. run_simpl. cbn [app]. symmetry. apply run_eta.
Qed.

(** The calls of a cleaning task that lists credentials to delete: one
    delete, with the ids of the listed credentials that are not
    preserved, and no add. *)
Lemma clean_panel_bodies (CONFIG : Config) (s : PanelTask Net) (infos : list CookieInfo)
    (cookie_id : json) (more : list json) :
  value_of (get_all_cookies s) = Ok infos ->
  fst (split_cookies CONFIG infos) = cookie_id :: more ->
  bodies DELETE (events_of (clean_panel CONFIG s)) = [Some (JArr (cookie_id :: more))] /\
  bodies POST (events_of (clean_panel CONFIG s)) = [].
Proof.
  intros Hl Hids.
  destruct (clean_panel_delete CONFIG s infos cookie_id more Hl Hids)
    as (m & logs & -> & Hlogs & _).
  run_simpl. rewrite !bodies_app.
  change (?a :: logs) with ([a] ++ logs). rewrite !bodies_app.
  rewrite !(bodies_logs _ logs Hlogs).
  rewrite (bodies_none DELETE (events_of (get_all_cookies s)))
    by (intros e He; apply (get_all_cookies_calls _ _ He)).
  rewrite (bodies_none POST (events_of (get_all_cookies s)))
    by (intros e He; apply (get_all_cookies_calls _ _ He)).
  split; reflexivity.
Qed.

(** The calls of an adding task of a client that holds a token: the
    primary's list as [envs_of] renders it, once, or twice when the
    first attempt fails; and no delete. *)
Lemma add_cookies_to_panel_bodies (first : CookieRemark) (more : list CookieRemark)
    (s : PanelTask Net) :
  Json.truthy (token (self s)) = true ->
  let envs := Some (JArr (envs_of (first :: more))) in
  let evs := events_of (add_cookies_to_panel (first :: more) s) in
  (bodies POST evs = [envs] \/ bodies POST evs = [envs; envs]) /\
  bodies DELETE evs = [].
Proof.
  intros Ht. cbn zeta.
  destruct (add_cookies_to_panel_run first more s) as (b & m & logs & -> & Hlogs).
  run_simpl. rewrite !bodies_app, !(bodies_logs _ logs Hlogs), !app_nil_r.
  rewrite (request_held POST "/open/envs" _ s Ht).
  set (rq := panel_request (url (self s)) POST "/open/envs" (token (self s))
               (Some (JArr (envs_of (first :: more))))).
  destruct (safe_request_bodies rq ("面板: " +++ name (self s)) s POST) as [_ Hpost].
  destruct (safe_request_bodies rq ("面板: " +++ name (self s)) s DELETE) as [Hdel _].
  cbn zeta in Hpost, Hdel. split; [apply Hpost | apply Hdel]; reflexivity.
Qed.

End CallArguments.

(* ================================================================== *)
(** ** The arguments of the delete and of the add (C1) *)
(* ================================================================== *)

(** C1: in a pass where the primary yields A annotated "x" and B
    annotated "y", and the listing of a secondary yields A' (A's record
    there, whatever its secret) and C, with C's pin preserved and A's
    not: the cleaning task of that secondary issues exactly one delete
    call, whose argument is the list with just the remote id of A', and
    no add; its adding task issues no delete, and each of its add calls
    (one, or two when the first attempt fails) carries exactly A and B,
    with their values and the annotations "x" and "y". *)
Theorem sync_call_arguments {Net : Type} `{Network Net}
    (CONFIG : Config) (readable : string -> bool) (w : World Net)
    (A B : CookieRemark) (A' C : CookieInfo) (i : nat) (t : PanelTask Net) :
  value_of (get_enabled_cookies_with_remarks (main_task CONFIG w)) = Ok [A; B] ->
  ck_remarks A = JStr "x" -> ck_remarks B = JStr "y" ->
  nth_error (panel_tasks CONFIG w) i = Some t ->
  value_of (get_all_cookies t) = Ok [A'; C] ->
  should_preserve_cookie CONFIG (extract_pt_pin (cookie_pt_pin A')) = false ->
  should_preserve_cookie CONFIG (extract_pt_pin (cookie_pt_pin C)) = true ->
  let run := sync_ck_to_panels CONFIG readable w in
  let envs :=
    Some (JArr [JObj [("name", JStr "JD_COOKIE"); ("value", JStr (ck_value A));
                      ("remarks", JStr "x")];
                JObj [("name", JStr "JD_COOKIE"); ("value", JStr (ck_value B));
                      ("remarks", JStr "y")]]) in
  exists cl ad,
    nth_error (cleaning run) i = Some cl /\ nth_error (adding run) i = Some ad /\
    bodies DELETE cl = [Some (JArr [cookie_id A'])] /\ bodies POST cl = [] /\
    bodies DELETE ad = [] /\
    (bodies POST ad = [envs] \/ bodies POST ad = [envs; envs]).
Proof.
  intros Hf Hx Hy Ht Hl HA HC. cbn zeta.
  destruct (sync_panel CONFIG readable w A [B] i t Hf Ht)
    as (r & ar & _ & _ & Hnc & _ & _ & Hna & _).
  assert (Hids : fst (split_cookies CONFIG [A'; C]) = [cookie_id A']).
  { simpl. rewrite HC, HA. reflexivity. }
  destruct (clean_panel_bodies CONFIG t [A'; C] (cookie_id A') [] Hl Hids) as [Hdel Hpost].
  (* the client holds its token when the adding task starts *)
  assert (Htok : Json.truthy (token (self (state_of (clean_panel CONFIG t)))) = true).
  { destruct (clean_panel_delete CONFIG t [A'; C] (cookie_id A') [] Hl Hids)
      as (m & logs & -> & _).
    run_simpl. rewrite exchange_self.
    apply (get_all_cookies_token t A' [C] Hl). }
  destruct (add_cookies_to_panel_bodies A [B] (state_of (clean_panel CONFIG t)) Htok)
    as [Hadd Hnodel].
  cbn zeta in Hadd. unfold envs_of in Hadd. cbn [map] in Hadd. rewrite Hx, Hy in Hadd.
  eexists _, _. split; [exact Hnc |]. split; [exact Hna |].
  split; [exact Hdel |]. split; [exact Hpost |]. split; [exact Hnodel | exact Hadd].
Qed.

(** The primary holds A annotated "x" and B annotated "y"; the secondary
    holds A with a stale secret, under the remote id 11, and the
    preserved C under 12. *)
Lemma sync_call_arguments_witness :
  let run := sync_ck_to_panels (Demo.config [Demo.panel1] ["pt_pin=userC;"]) Demo.no_files
               (Demo.world Demo.main_server [Demo.secondary1 []]) in
  exists cl ad,
    nth_error (cleaning run) 0 = Some cl /\ nth_error (adding run) 0 = Some ad /\
    bodies DELETE cl = [Some (JArr [JNum 11])] /\ bodies POST cl = [] /\
    bodies DELETE ad = [] /\
    bodies POST ad =
      [Some (JArr [JObj [("name", JStr "JD_COOKIE");
                         ("value", JStr "pt_key=newA;pt_pin=userA;");
                         ("remarks", JStr "x")];
                   JObj [("name", JStr "JD_COOKIE");
                         ("value", JStr "pt_key=keyB;pt_pin=userB;");
                         ("remarks", JStr "y")]])].
Proof.
  set (CONFIG := Demo.config [Demo.panel1] ["pt_pin=userC;"]).
  set (w := Demo.world Demo.main_server [Demo.secondary1 []]).
  destruct (sync_call_arguments CONFIG Demo.no_files w
              {| ck_value := "pt_key=newA;pt_pin=userA;"; ck_remarks := JStr "x" |}
              {| ck_value := "pt_key=keyB;pt_pin=userB;"; ck_remarks := JStr "y" |}
              {| cookie_id := JNum 11; cookie_value := JStr "pt_key=oldA;pt_pin=userA;";
                 cookie_pt_pin := "pt_pin=userA"; cookie_status := JNum 0 |}
              {| cookie_id := JNum 12; cookie_value := JStr "pt_key=keyC;pt_pin=userC;";
                 cookie_pt_pin := "pt_pin=userC"; cookie_status := JNum 1 |}
              0
              {| self := new_QingLongAPI "http://p1:5700/" "id1" "sec1" "面板1";
                 remote := Demo.secondary1 [] |})
    as (cl & ad & Hcl & Had & Hd & Hp & Hnd & Hadd).
  - vm_compute. reflexivity.
  - reflexivity.
  - reflexivity.
  - vm_compute. reflexivity.
  - vm_compute. reflexivity.
  - vm_compute. reflexivity.
  - vm_compute. reflexivity.
  - exists cl, ad. cbn zeta in *. cbn [ck_value cookie_id] in *.
    split; [exact Hcl |]. split; [exact Had |]. split; [exact Hd |].
    split; [exact Hp |]. split; [exact Hnd |].
    fold CONFIG w in Had |- *.
    assert (Hev : nth_error (adding (sync_ck_to_panels CONFIG Demo.no_files w)) 0
                  = Some ad) by exact Had.
    vm_compute in Hev. inversion Hev. vm_compute. reflexivity.
Defined.

(* ================================================================== *)
(** ** A secondary whose delete fails (C5) *)
(* ================================================================== *)



(* ================================================================== *)
(** ** A client without a token (C7) *)
(* ================================================================== *)

(** C7, on the code: a client that was just created holds no token.
    Its [delete_cookies], given ids, sends the DELETE call at once,
    under the header value built from the missing token
    ("Bearer None"), and reports whatever comes back; it never asks for
    a token and never raises.  The operations that go through
    [_request] (the listings and the add) do fail fast: when no token
    can be obtained, [_request] raises [ValueError] and the only
    exchanges made are those with the token endpoint. *)
Theorem delete_cookies_sends_without_token {Net : Type} `{Network Net}
    (u cid secret nm : string) (panel : Net) (cookie_id : json) (more : list json) :
  let s := {| self := new_QingLongAPI u cid secret nm; remote := panel |} in
  let rq := delete_request (self s) (cookie_id :: more) in
  token (self s) = JNull /\
  rq_method rq = DELETE /\ rq_bearer rq = Some JNull /\
  (exists m logs,
     delete_cookies (cookie_id :: more) s =
       (Ok (accepted (fst (exchange rq s)), m), snd (exchange rq s),
        Http rq (fst (exchange rq s)) :: logs) /\
     forall e, In e logs -> is_log e = true) /\
  (forall meth endpoint body tok,
     value_of (get_token s) = Ok tok -> Json.truthy tok = false ->
     value_of (_request meth endpoint body s) =
       Raised (Exn ValueError ("无法获取" +++ nm +++ "的访问令牌")) /\
     events_of (_request meth endpoint body s) = events_of (get_token s) /\
     forall rq' r, In (Http rq' r) (events_of (_request meth endpoint body s)) ->
                   rq' = token_request (self s)).
Proof.
  cbn zeta. split; [reflexivity |]. split; [reflexivity |]. split; [reflexivity |]. split.
  - destruct (delete_cookies_run cookie_id more
                {| self := new_QingLongAPI u cid secret nm; remote := panel |})
      as (m & logs & Hd & Hlogs & _).
    exists m, logs. split; assumption.
  - intros meth endpoint body tok Htok Hfalsy.
    set (s := {| self := new_QingLongAPI u cid secret nm; remote := panel |}) in *.
    destruct (request_run meth endpoint body s) as [tok' [Htok' Hrun]].
    rewrite Htok in Htok'. inversion Htok'; subst tok'. rewrite Hfalsy in Hrun.
    rewrite Hrun. run_simpl. split; [reflexivity |]. split; [reflexivity |].
    apply (get_token_total s).
Qed.

(** The failing input against the reference panel: the delete goes out
    under "Bearer None" and the panel answers 401. *)
Example delete_cookies_without_token_run :
  let s := {| self := new_QingLongAPI "http://p1:5700/" "id1" "sec1" "面板1";
              remote := Demo.secondary1 [] |} in
  map (fun rq => (rq_method rq, rq_url rq, rq_bearer rq, rq_json rq))
      (requests (events_of (delete_cookies [JNum 11] s))) =
    [(DELETE, "http://p1:5700/open/envs", Some JNull, Some (JArr [JNum 11]))] /\
  answers (events_of (delete_cookies [JNum 11] s)) =
    [BadStatus 401 "Client error '401 Unauthorized'"] /\
  value_of (delete_cookies [JNum 11] s) =
    Ok (false, "删除出错: Client error '401 Unauthorized'").
Proof. vm_compute. repeat split; reflexivity. Qed.

(* ================================================================== *)
(** ** Properties of the IP allowlist job *)
(* ================================================================== *)

Section WhitelistRuns.
Context {Net : Type} `{Network Net}.

Lemma exchange_redis (rq : request) (s : Process Net) :
  redis (snd (exchange rq s)) = redis s.
Proof.
  unfold exchange, Process_Network. destruct (exchange rq (net s)). reflexivity.
Qed.

Lemma safe_request_redis (rq : request) (detail : string) (s : Process Net) :
  redis (state_of (safe_request rq detail s)) = redis s.
Proof.
  destruct (safe_request_cases rq detail s)
    as [(body & s1 & E1 & ->)
       | [(r1 & e1 & s1 & body & s2 & E1 & He1 & E2 & ->)
         | (r1 & e1 & s1 & r2 & e2 & s2 & E1 & He1 & E2 & He2 & ->)]]; run_simpl.
  - rewrite <- (exchange_redis rq s), E1. reflexivity.
  - rewrite <- (exchange_redis rq s), E1. simpl.
    rewrite <- (exchange_redis rq s1), E2. reflexivity.
  - rewrite <- (exchange_redis rq s), E1. simpl.
    rewrite <- (exchange_redis rq s1), E2. reflexivity.
Qed.

(** [get_current_ip] never raises, leaves the cache alone and talks to
    the echo service only. *)
Lemma get_current_ip_facts (s : Process Net) :
  let o := get_current_ip s in
  (exists ip, value_of o = Ok ip) /\
  redis (state_of o) = redis s /\
  (forall e, In e (events_of o) -> is_cache_write e = false) /\
  (forall rq r, In (Http rq r) (events_of o) -> rq = ip_request).
Proof.
  cbn zeta. unfold get_current_ip. fold ip_request.
  pose proof (safe_request_redis ip_request "" s) as Hredis.
  destruct (safe_request_events ip_request "" s) as [Hto _].
  assert (Hnw : forall e, In e (events_of (safe_request ip_request "" s)) ->
                          is_cache_write e = false).
  { intros e He.
    destruct (safe_request_cases ip_request "" s)
      as [(body & s1 & E1 & Es)
         | [(r1 & e1 & s1 & body & s2 & E1 & He1 & E2 & Es)
           | (r1 & e1 & s1 & r2 & e2 & s2 & E1 & He1 & E2 & He2 & Es)]];
      rewrite Es in He; run_simpl_in He; simpl in He;
      repeat (destruct He as [<- | He]; [reflexivity |]); destruct He. }
  destruct (safe_request ip_request "" s) as [[[ip | e] s1] ev1] eqn:E;
    unfold state_of, events_of in Hredis, Hto, Hnw; cbn [fst snd] in Hredis, Hto, Hnw.
  - rewrite (try_ok _ _ _ _ _ _ E). run_simpl. eauto.
  - rewrite (try_raised _ _ _ _ _ _ E). unfold logger_error. rewrite emit_then.
    unfold ret. run_simpl. split; [eauto |]. split; [exact Hredis |]. split.
    + intros x Hx. apply in_app_or in Hx. destruct Hx as [Hx | [<- | []]]; auto.
    + intros rq r Hin. apply in_app_or in Hin.
      destruct Hin as [Hin | [Hin | []]]; [eauto | discriminate].
Qed.

(** [manage_whitelist] for "add" or "del" with an address: one
    [safe_request] to the allowlist service, then logs; it returns
    [True] or [False], never raises and leaves the cache alone. *)
Lemma manage_whitelist_run (CONFIG : Config) (operation service : string) (ip : json)
    (s : Process Net) :
  service_map operation = Some service ->
  String.eqb operation "list" = false ->
  (String.eqb operation "add" || String.eqb operation "del") = true ->
  Json.truthy ip = true ->
  let x := safe_request (whitelist_request CONFIG service ip) "" s in
  exists b logs,
    manage_whitelist CONFIG operation ip s =
      (Ok (JBool b), state_of x, events_of x ++ logs) /\
    (forall e, In e logs -> is_log e = true).
Proof.
  intros Hmap Hlist Hop Hip. cbn zeta. unfold manage_whitelist, whitelist_failure.
  rewrite Hmap, Hlist, Hip, Hop. cbn [andb].
  fold (whitelist_request CONFIG service ip).
  set (rq := whitelist_request CONFIG service ip).
  destruct (safe_request rq "" s) as [[[result | e] s1] ev1] eqn:E; run_simpl.
  - destruct (py_get result "ret" JNull) as [code | e1] eqn:Ec.
    + destruct (Json.eq_int code 200) eqn:E200.
      * eexists true, [_]. split.
        { apply try_ok. rewrite (bind_ok _ _ _ _ _ _ E), lift_bind, Ec, E200.
          unfold logger_info. rewrite emit_then. unfold ret. run_simpl. reflexivity. }
        intros e [<- | []]; reflexivity.
      * destruct (py_get result "msg" (JStr "未知错误")) as [msg | e2] eqn:Em.
        -- eexists false, [_]. split.
           { apply try_ok. rewrite (bind_ok _ _ _ _ _ _ E), lift_bind, Ec, E200.
             rewrite lift_bind, Em. unfold logger_error. rewrite emit_then.
             unfold ret. run_simpl. reflexivity. }
           intros e [<- | []]; reflexivity.
        -- eexists false, [_]. split.
           { erewrite try_raised.
             2:{ rewrite (bind_ok _ _ _ _ _ _ E), lift_bind, Ec, E200.
                 rewrite lift_bind, Em. run_simpl. reflexivity. }
             unfold logger_error. rewrite emit_then. unfold ret. run_simpl.
             rewrite !app_nil_r. reflexivity. }
           intros e [<- | []]; reflexivity.
    + eexists false, [_]. split.
      { erewrite try_raised.
        2:{ rewrite (bind_ok _ _ _ _ _ _ E), lift_bind, Ec. run_simpl. reflexivity. }
        unfold logger_error. rewrite emit_then. unfold ret. run_simpl.
        rewrite !app_nil_r. reflexivity. }
      intros e [<- | []]; reflexivity.
  - eexists false, [_]. split.
    { erewrite try_raised.
      2:{ apply bind_raised. exact E. }
      unfold logger_error. rewrite emit_then. unfold ret. run_simpl. reflexivity. }
    intros e' [<- | []]; reflexivity.
Qed.

Lemma manage_whitelist_facts (CONFIG : Config) (operation service : string) (ip : json)
    (s : Process Net) :
  service_map operation = Some service ->
  String.eqb operation "list" = false ->
  (String.eqb operation "add" || String.eqb operation "del") = true ->
  Json.truthy ip = true ->
  let o := manage_whitelist CONFIG operation ip s in
  (exists b, value_of o = Ok (JBool b)) /\
  redis (state_of o) = redis s /\
  (forall e, In e (events_of o) -> is_cache_write e = false) /\
  (forall rq r, In (Http rq r) (events_of o) -> rq = whitelist_request CONFIG service ip).
Proof.
  intros Hmap Hlist Hop Hip. cbn zeta.
  destruct (manage_whitelist_run CONFIG operation service ip s Hmap Hlist Hop Hip)
    as (b & logs & -> & Hlogs).
  run_simpl. split; [eauto |]. split; [apply safe_request_redis |].
  set (rq := whitelist_request CONFIG service ip).
  destruct (safe_request_events rq "" s) as [Hto _].
  split.
  - intros e He. apply in_app_or in He. destruct He as [He | He].
    + destruct (safe_request_cases rq "" s)
        as [(body & s1 & E1 & Es)
           | [(r1 & e1 & s1 & body & s2 & E1 & He1 & E2 & Es)
             | (r1 & e1 & s1 & r2 & e2 & s2 & E1 & He1 & E2 & He2 & Es)]];
        rewrite Es in He; run_simpl_in He; simpl in He;
        repeat (destruct He as [<- | He]; [reflexivity |]); destruct He.
    + specialize (Hlogs e He). destruct e; simpl in *; congruence.
  - intros rq' r Hin. apply in_app_or in Hin. destruct Hin as [Hin | Hin]; [eauto |].
    specialize (Hlogs _ Hin). discriminate.
Qed.

End WhitelistRuns.

Lemma safe_request_no_writes {St : Type} `{Network St} (rq : request) (detail : string)
    (s : St) (e : event) :
  In e (events_of (safe_request rq detail s)) -> is_cache_write e = false.
Proof.
  intros He.
  destruct (safe_request_cases rq detail s)
    as [(body & s1 & E1 & Es)
       | [(r1 & e1 & s1 & body & s2 & E1 & He1 & E2 & Es)
         | (r1 & e1 & s1 & r2 & e2 & s2 & E1 & He1 & E2 & He2 & Es)]];
    rewrite Es in He; run_simpl_in He; simpl in He;
    repeat (destruct He as [<- | He]; [reflexivity |]); destruct He.
Qed.

Section NotifyProcess.
Context {Net : Type} `{Network Net}.

(** [notify] leaves the cache alone and sends nothing to the allowlist
    service. *)
Lemma notify_send_process CONFIG readable title message document user_id
    (s : Process Net) :
  let o := notify_send CONFIG readable title message document user_id s in
  redis (state_of o) = redis s /\
  (forall e, In e (events_of o) -> is_cache_write e = false) /\
  (forall rq r, In (Http rq r) (events_of o) -> Json.assoc "service" (rq_params rq) = None).
Proof.
  cbn zeta. unfold notify_send.
  set (msg := {| rq_method := GET; rq_url := _; rq_bearer := None; rq_params := _;
                 rq_json := None; rq_form := []; rq_file := None |}).
  assert (Hsend : forall rq, Json.assoc "service" (rq_params rq) = None ->
            let o := bind (safe_request rq "") (fun _ => ret tt) s in
            redis (state_of o) = redis s /\
            (forall e, In e (events_of o) -> is_cache_write e = false) /\
            (forall rq' r, In (Http rq' r) (events_of o) ->
                           Json.assoc "service" (rq_params rq') = None)).
  { intros rq Hrq. cbn zeta. rewrite then_ret. run_simpl.
    split; [apply safe_request_redis |]. split.
    - intros e He. apply (safe_request_no_writes _ _ _ _ He).
    - intros rq' r Hin. destruct (safe_request_events rq "" s) as [Hto _].
      rewrite (Hto _ _ Hin). exact Hrq. }
  destruct document as [path |]; [| apply Hsend; reflexivity].
  destruct (PyStr.nonempty path); [| apply Hsend; reflexivity].
  destruct (readable path).
  - apply Hsend. reflexivity.
  - unfold raise. run_simpl. split; [reflexivity |]. split; [intros ? [] | intros ? ? []].
Qed.

Lemma notify_process CONFIG readable title message document (s : Process Net) :
  let o := notify CONFIG readable title message document s in
  (exists b, value_of o = Ok b) /\
  redis (state_of o) = redis s /\
  (forall e, In e (events_of o) -> is_cache_write e = false) /\
  (forall rq r, In (Http rq r) (events_of o) -> Json.assoc "service" (rq_params rq) = None).
Proof.
  cbn zeta. unfold notify. generalize (TG_USER_IDS CONFIG) as user_ids.
  intros user_ids. revert s. induction user_ids as [| u rest IH]; intros s.
  - cbn [notify_loop]. unfold ret. run_simpl.
    split; [eauto |]. split; [reflexivity |]. split; [intros ? [] | intros ? ? []].
  - cbn [notify_loop].
    destruct (notify_send_process CONFIG readable title message document u s)
      as (Hredis & Hnw & Hrq).
    set (send := notify_send CONFIG readable title message document u) in *.
    destruct (send s) as [[[[] | e] s1] ev1] eqn:E;
      unfold state_of, events_of in Hredis, Hnw, Hrq; cbn [fst snd] in Hredis, Hnw, Hrq.
    + assert (E' : bind send (fun _ => ret true) s = (Ok true, s1, ev1)).
      { rewrite then_ret, E. reflexivity. }
      rewrite (try_ok _ _ _ _ _ _ E'). run_simpl. eauto.
    + assert (E' : bind send (fun _ => ret true) s = (Raised e, s1, ev1)).
      { rewrite then_ret, E. reflexivity. }
      rewrite (try_raised _ _ _ _ _ _ E'). unfold logger_error. rewrite emit_then.
      destruct (IH s1) as (Hb & Hr2 & Hnw2 & Hrq2).
      run_simpl. split; [exact Hb |]. split; [congruence |]. split.
      * intros x Hx. apply in_app_or in Hx. destruct Hx as [Hx | [<- | Hx]]; auto.
      * intros rq r Hin. apply in_app_or in Hin.
        destruct Hin as [Hin | [Hin | Hin]]; [eauto | discriminate | eauto].
Qed.

End NotifyProcess.

Section ChangeDetection.
Context {Net : Type} `{Network Net}.

Lemma nonempty_true (t : string) : t <> "" -> PyStr.nonempty t = true.
Proof. destruct t; [contradiction | reflexivity]. Qed.

(** What [update_ip_whitelist] does once the addition has succeeded:
    the removal of the old address when there is one, the update of the
    cache, the notification and a last log.  It never raises and writes
    the cache exactly once. *)
Lemma after_addition_run (CONFIG : Config) (readable : string -> bool)
    (key ip text : string) (old : json) (s2 : Process Net) :
  let tail :=
    bind (if Json.truthy old then
            bind (manage_whitelist CONFIG "del" old)
                 (fun del_success =>
                    if negb (Json.truthy del_success)
                    then logger_warning ("⚠️ 旧IP " +++ Json.str old
                                         +++ " 删除失败，但不影响使用")
                    else ret tt)
          else ret tt)
         (fun _ => bind (redis_set key (JStr ip))
                     (fun _ => bind (notify CONFIG readable "IP 白名单已更新" text None)
                                 (fun _ => logger_info ("✅ IP白名单已更新为: "
                                                        +++ Json.str (JStr ip))))) in
  exists evd evn sf,
    tail s2 = (Ok tt, sf, evd ++ RedisSet key ip :: evn) /\
    redis sf = (key, ip) :: redis s2 /\
    filter is_cache_write evd = [] /\ filter is_cache_write evn = [] /\
    (forall rq r, In (Http rq r) evn -> Json.assoc "service" (rq_params rq) = None) /\
    (forall rq r, In (Http rq r) evd -> rq = whitelist_request CONFIG "DelWhite" old) /\
    (forall t, old = JStr t -> t <> "" ->
       exists removed,
         value_of (manage_whitelist CONFIG "del" old s2) = Ok (JBool removed) /\
         evd = events_of (manage_whitelist CONFIG "del" old s2)
               ++ if removed then [] else [removal_failed old]).
Proof.
  cbn zeta.
  (* the removal step *)
  assert (Hstep : exists evd s3,
            (if Json.truthy old then
               bind (manage_whitelist CONFIG "del" old)
                    (fun del_success =>
                       if negb (Json.truthy del_success)
                       then logger_warning ("⚠️ 旧IP " +++ Json.str old
                                            +++ " 删除失败，但不影响使用")
                       else ret tt)
             else ret tt) s2 = (Ok tt, s3, evd) /\
            redis s3 = redis s2 /\ filter is_cache_write evd = [] /\
            (forall rq r, In (Http rq r) evd ->
                          rq = whitelist_request CONFIG "DelWhite" old) /\
            (forall t, old = JStr t -> t <> "" ->
               exists removed,
                 value_of (manage_whitelist CONFIG "del" old s2) = Ok (JBool removed) /\
                 evd = events_of (manage_whitelist CONFIG "del" old s2)
                       ++ if removed then [] else [removal_failed old])).
  { destruct (Json.truthy old) eqn:Hold.
    - destruct (manage_whitelist_run CONFIG "del" "DelWhite" old s2)
        as (removed & logs & Hd & Hlogs); try reflexivity; try exact Hold.
      destruct (manage_whitelist_facts CONFIG "del" "DelWhite" old s2)
        as (_ & Hredis3 & Hnw3 & Hrq3); try reflexivity; try exact Hold.
      cbn zeta in Hd, Hredis3, Hnw3, Hrq3.
      set (del := manage_whitelist CONFIG "del" old s2) in *.
      exists (events_of del ++ if removed then [] else [removal_failed old]), (state_of del).
      split; [| split; [exact Hredis3 | split; [| split]]].
      + pose proof Hd as Hd'. unfold del in Hd'. rewrite Hd. run_simpl.
        rewrite (bind_ok _ _ _ _ _ _ Hd'). cbn [Json.truthy].
        destruct removed; cbn [negb]; unfold logger_warning, emit, ret; run_simpl;
          reflexivity.
      + apply filter_none. intros e He. apply in_app_or in He. destruct He as [He | He]; auto.
        destruct removed; [destruct He | destruct He as [<- | []]; reflexivity].
      + intros rq r Hin. apply in_app_or in Hin. destruct Hin as [Hin | Hin]; [eauto |].
        destruct removed; [destruct Hin | destruct Hin as [Hin | []]; discriminate].
      + intros t -> Ht. exists removed. rewrite Hd. run_simpl. split; reflexivity.
    - exists [], s2. split; [reflexivity |]. split; [reflexivity |]. split; [reflexivity |].
      split; [intros rq r [] |].
      intros t -> Ht. simpl in Hold. rewrite (nonempty_true t Ht) in Hold. discriminate. }
  destruct Hstep as (evd & s3 & Hstep & Hredis3 & Hnwd & Hrqd & Hdel).
  set (s3' := {| net := net s3; redis := (key, ip) :: redis s3 |}).
  destruct (notify_process CONFIG readable "IP 白名单已更新" text None s3')
    as ([nb Hnb] & Hnr & Hnnw & Hnrq).
  cbn zeta in Hnr, Hnnw, Hnrq.
  destruct (notify CONFIG readable "IP 白名单已更新" text None s3') as [[rn s4] evn] eqn:En.
  unfold value_of in Hnb; cbn [fst snd] in Hnb. subst rn.
  unfold state_of in Hnr; unfold events_of in Hnnw, Hnrq; cbn [fst snd] in Hnr, Hnnw, Hnrq.
  exists evd, (evn ++ [Log INFO ("✅ IP白名单已更新为: " +++ Json.str (JStr ip))]), s4.
  split; [| split; [| split; [exact Hnwd | split; [| split; [| split; assumption]]]]].
  - eapply bind_to; [exact Hstep |]. cbv beta.
    change (RedisSet key ip :: ?l) with ([RedisSet key ip] ++ l).
    eapply bind_to; [reflexivity |]. cbv beta.
    eapply bind_to; [exact En |]. reflexivity.
  - rewrite Hnr. unfold s3'. cbn [redis]. rewrite Hredis3. reflexivity.
  - apply filter_none. intros e He. apply in_app_or in He.
    destruct He as [He | [<- | []]]; auto.
  - intros rq r Hin. apply in_app_or in Hin.
    destruct Hin as [Hin | [Hin | []]]; [eauto | discriminate].
Qed.


End ChangeDetection.


(* ================================================================== *)
(** ** Deletions before additions (C2) *)
(* ================================================================== *)

Section TaskMethods.
Context {Net : Type} `{Network Net}.

Lemma get_enabled_cookies_with_remarks_total (s : PanelTask Net) :
  exists main, value_of (get_enabled_cookies_with_remarks s) = Ok main.
Proof.
  rewrite get_enabled_cookies_with_remarks_run. cbn zeta.
  destruct (value_of (_request GET "/open/envs" None s)) as [answer | e];
    [| run_simpl; eauto].
  destruct (listed_enabled answer); run_simpl; eauto.
Qed.

(** A cleaning task issues no add. *)
Lemma clean_panel_calls (CONFIG : Config) (s : PanelTask Net) (e : event) :
  In e (events_of (clean_panel CONFIG s)) -> is_call POST e = false.
Proof.
  destruct (get_all_cookies_total s) as [infos Hl].
  assert (Hlist : forall x, In x (events_of (get_all_cookies s)) -> is_call POST x = false)
    by (intros x Hx; apply (get_all_cookies_calls _ _ Hx)).
  destruct infos as [| c rest].
  - rewrite (clean_panel_empty CONFIG s Hl). run_simpl. apply Hlist.
  - destruct (fst (split_cookies CONFIG (c :: rest))) as [| i more] eqn:Hids.
    + rewrite (clean_panel_nothing CONFIG s (c :: rest) Hl); [| discriminate | exact Hids].
      run_simpl. apply Hlist.
    + destruct (clean_panel_delete CONFIG s (c :: rest) i more Hl Hids)
        as (m & logs & -> & Hlogs & _).
      run_simpl. intros Hin. apply in_app_or in Hin. destruct Hin as [Hin | [<- | Hin]].
      * apply Hlist. exact Hin.
      * reflexivity.
      * specialize (Hlogs e Hin). destruct e; simpl in *; congruence.
Qed.

(** An adding task issues no delete. *)
Lemma add_cookies_to_panel_calls (main : list CookieRemark) (s : PanelTask Net) (e : event) :
  In e (events_of (add_cookies_to_panel main s)) -> is_call DELETE e = false.
Proof.
  destruct main as [| first more].
  - intros [].
  - destruct (add_cookies_to_panel_run first more s) as (b & m & logs & -> & Hlogs).
    run_simpl. intros Hin. apply in_app_or in Hin. destruct Hin as [Hin | Hin].
    + destruct e as [rq r | | |]; try reflexivity.
      destruct (request_facts POST "/open/envs"
                  (Some (JArr (envs_of (first :: more)))) s) as (_ & _ & _ & Hrq).
      destruct (Hrq rq r Hin) as [-> | [tok [_ ->]]]; reflexivity.
    + specialize (Hlogs e Hin). destruct e; simpl in *; congruence.
Qed.

End TaskMethods.

Lemma Interleaving_In {A : Type} (ls : list (list A)) (tr : list A) :
  Interleaving ls tr ->
  forall x, In x tr <-> exists l, In l ls /\ In x l.
Proof.
  induction 1 as [ls Hall | ls1 y l ls2 tr Hi IH]; intros x.
  - split; [intros [] |].
    intros [l [Hl Hx]]. rewrite Forall_forall in Hall. rewrite (Hall l Hl) in Hx. exact Hx.
  - split.
    + intros [<- | Hx].
      * exists (y :: l). split; [apply in_or_app; right; left; reflexivity | left; reflexivity].
      * apply IH in Hx. destruct Hx as [l' [Hl' Hx]].
        apply in_app_or in Hl'. destruct Hl' as [Hl' | [<- | Hl']].
        -- exists l'. split; [apply in_or_app; left; exact Hl' | exact Hx].
        -- exists (y :: l). split; [apply in_or_app; right; left; reflexivity |
                                     right; exact Hx].
        -- exists l'. split; [apply in_or_app; right; right; exact Hl' | exact Hx].
    + intros [l' [Hl' Hx]].
      apply in_app_or in Hl'. destruct Hl' as [Hl' | [<- | Hl']].
      * right. apply IH. exists l'. split; [apply in_or_app; left; exact Hl' | exact Hx].
      * destruct Hx as [<- | Hx]; [left; reflexivity |].
        right. apply IH. exists l. split; [apply in_or_app; right; left; reflexivity | exact Hx].
      * right. apply IH. exists l'.
        split; [apply in_or_app; right; right; exact Hl' | exact Hx].
Qed.

Lemma tag_panels_In (k : nat) (evss : list (list event)) (l : list (origin * event)) :
  In l (tag_panels k evss) <->
  exists i evs, nth_error evss i = Some evs /\ l = tag (FromPanel (k + i)) evs.
Proof.
  revert k. induction evss as [| evs rest IH]; intros k; simpl.
  - split; [intros [] | intros (i & evs & Hn & _); destruct i; discriminate].
  - split.
    + intros [<- | Hin].
      * exists 0, evs. rewrite Nat.add_0_r. split; reflexivity.
      * apply IH in Hin. destruct Hin as (i & evs' & Hn & ->).
        exists (S i), evs'. rewrite Nat.add_succ_r. split; [exact Hn | reflexivity].
    + intros (i & evs' & Hn & ->). destruct i as [| i]; simpl in Hn.
      * inversion Hn. left. rewrite Nat.add_0_r. reflexivity.
      * right. apply IH. exists i, evs'. rewrite Nat.add_succ_r. split; [exact Hn | reflexivity].
Qed.

Lemma tag_In (o o' : origin) (evs : list event) (e : event) :
  In (o', e) (tag o evs) <-> o' = o /\ In e evs.
Proof.
  unfold tag. rewrite in_map_iff. split.
  - intros [x [Heq Hx]]. inversion Heq; subst. auto.
  - intros [-> He]. exists e. auto.
Qed.

(** The events of the tasks of one [gather], however interleaved, are
    the events of its tasks, each under its panel. *)
Lemma gather_In (evss : list (list event)) (tr : list (origin * event)) :
  Interleaving (tag_panels 0 evss) tr ->
  forall o e, In (o, e) tr <->
    exists i evs, nth_error evss i = Some evs /\ o = FromPanel i /\ In e evs.
Proof.
  intros Hi o e. rewrite (Interleaving_In _ _ Hi). split.
  - intros [l [Hl Hin]]. apply tag_panels_In in Hl. destruct Hl as (i & evs & Hn & ->).
    apply tag_In in Hin. destruct Hin as [-> He]. exists i, evs. auto.
  - intros (i & evs & Hn & -> & He). exists (tag (FromPanel i) evs). split.
    + apply tag_panels_In. exists i, evs. auto.
    + apply tag_In. auto.
Qed.

Section Barrier.
Context {Net : Type} `{Network Net}.

(** In every order in which the events of a pass can be observed, the
    pass splits in two: a first part that holds every event of every
    cleaning task and not a single add call, and a second part that
    holds every event of every adding task and not a single delete
    call. *)
Lemma sync_barrier (CONFIG : Config) (readable : string -> bool) (w : World Net)
    (tr : list (origin * event)) :
  let run := sync_ck_to_panels CONFIG readable w in
  pass_trace run tr ->
  exists head tail,
    tr = head ++ tail /\
    (forall o e, In (o, e) head -> is_call POST e = false) /\
    (forall o e, In (o, e) tail -> is_call DELETE e = false) /\
    (forall i evs e, nth_error (cleaning run) i = Some evs -> In e evs ->
                     In (FromPanel i, e) head) /\
    (forall i evs e, nth_error (adding run) i = Some evs -> In e evs ->
                     In (FromPanel i, e) tail).
Proof.
  cbn zeta. intros (t1 & t2 & H1 & H2 & ->).
  destruct (get_enabled_cookies_with_remarks_total (main_task CONFIG w)) as [main Hf].
  assert (Hfetch : forall e, In e (events_of (get_enabled_cookies_with_remarks
                                               (main_task CONFIG w))) ->
                             is_call DELETE e = false /\ is_call POST e = false)
    by (intros e He; apply (get_enabled_cookies_with_remarks_calls _ _ He)).
  destruct main as [| first more].
  - (* the pass stopped at once *)
    rewrite (sync_aborted CONFIG readable w Hf) in *. cbn zeta in *.
    cbn [cleaning adding before between after tag_panels] in *.
    apply Interleaving_nil in H1, H2. subst t1 t2.
    exists (tag FromPass
              (Log INFO "🔄 开始执行 CK 同步到其他面板"
               :: events_of (get_enabled_cookies_with_remarks (main_task CONFIG w))
               ++ [Log WARNING "⚠️ 主青龙面板未获取到有效 CK"])), [].
    split; [reflexivity |]. split.
    + intros o e Hin. apply tag_In in Hin. destruct Hin as [_ [<- | Hin]]; [reflexivity |].
      apply in_app_or in Hin. destruct Hin as [Hin | [<- | []]]; [| reflexivity].
      apply (Hfetch e Hin).
    + split; [intros o e [] |]. split; intros i evs e Hn; destruct i; discriminate.
  - (* the two phases *)
    destruct (sync_completed CONFIG readable w first more Hf)
      as (Hb & Hcl & Hbt & Had & Haf & _). cbn zeta in Hb, Hcl, Hbt, Had, Haf.
    set (run := sync_ck_to_panels CONFIG readable w) in *.
    exists (tag FromPass (before run) ++ t1),
           (tag FromPass (between run) ++ t2 ++ tag FromPass (after run)).
    split; [rewrite <- app_assoc; reflexivity |]. split; [| split; [| split]].
    + intros o e Hin. apply in_app_or in Hin. destruct Hin as [Hin | Hin].
      * apply tag_In in Hin. destruct Hin as [_ Hin]. rewrite Hb in Hin.
        destruct Hin as [<- | Hin]; [reflexivity |].
        apply in_app_or in Hin. destruct Hin as [Hin | [<- | []]]; [| reflexivity].
        apply (Hfetch e Hin).
      * apply (gather_In _ _ H1) in Hin. destruct Hin as (i & evs & Hn & _ & He).
        rewrite Hcl in Hn. rewrite !nth_error_map in Hn.
        destruct (nth_error (panel_tasks CONFIG w) i) as [t |]; [| discriminate].
        simpl in Hn. inversion Hn; subst evs.
        apply (clean_panel_calls CONFIG t e He).
    + intros o e Hin. apply in_app_or in Hin. destruct Hin as [Hin | Hin].
      * apply tag_In in Hin. destruct Hin as [_ Hin]. rewrite Hbt in Hin.
        destruct Hin as [<- | []]. reflexivity.
      * apply in_app_or in Hin. destruct Hin as [Hin | Hin].
        -- apply (gather_In _ _ H2) in Hin. destruct Hin as (i & evs & Hn & _ & He).
           rewrite Had in Hn. rewrite !nth_error_map in Hn.
           destruct (nth_error (panel_tasks CONFIG w) i) as [t |]; [| discriminate].
           simpl in Hn. inversion Hn; subst evs.
           apply (add_cookies_to_panel_calls _ _ e He).
        -- apply tag_In in Hin. destruct Hin as [_ Hin]. rewrite Haf in Hin.
           destruct Hin as [<- | []]. reflexivity.
    + intros i evs e Hn He. apply in_or_app. right.
      apply (gather_In _ _ H1). exists i, evs. auto.
    + intros i evs e Hn He. apply in_or_app. right. apply in_or_app. left.
      apply (gather_In _ _ H2). exists i, evs. auto.
Qed.

End Barrier.

(** The id [all_row] records is the id [item_id] reads. *)
Lemma all_row_id (item : json) (cookie : CookieInfo) :
  all_row item = Ok (Some cookie) -> item_id item = Ok (cookie_id cookie).
Proof.
  unfold all_row.
  destruct (py_get item "name" JNull) as [nm |]; cbn [rbind]; [| discriminate].
  destruct (Json.eq_str nm "JD_COOKIE"); [| discriminate].
  destruct (py_get item "value" (JStr "")) as [value |]; cbn [rbind]; [| discriminate].
  destruct (py_split value) as [parts |]; cbn [rbind]; [| discriminate].
  destruct (PyStr.nonempty _ && PyStr.nonempty _); [| discriminate].
  destruct (item_id item) as [id |]; cbn [rbind]; [| discriminate].
  destruct (py_get item "status" (JNum 1)) as [st |]; cbn [rbind]; [| discriminate].
  intros Heq. inversion Heq. reflexivity.
Qed.

(** Every listed record whose pin is not preserved has its id among the
    ids to delete. *)
Lemma split_cookies_covers (CONFIG : Config) (items : list json) (infos : list CookieInfo) :
  collect all_row items = Ok infos ->
  forall item cookie,
    In item items -> all_row item = Ok (Some cookie) ->
    should_preserve_cookie CONFIG (extract_pt_pin (cookie_pt_pin cookie)) = false ->
    In (cookie_id cookie) (fst (split_cookies CONFIG infos)).
Proof.
  revert infos. induction items as [| it rest IH]; intros infos Hc item cookie Hin Hrow Hnp.
  - destruct Hin.
  - cbn [collect] in Hc.
    destruct (all_row it) as [o |] eqn:Hit; cbn [rbind] in Hc; [| discriminate].
    destruct (collect all_row rest) as [l |] eqn:Hrest; cbn [rbind] in Hc; [| discriminate].
    inversion Hc; subst infos. clear Hc.
    assert (Htail : In item rest -> In (cookie_id cookie) (fst (split_cookies CONFIG l)))
      by (intros Hr; apply (IH l eq_refl item cookie Hr Hrow Hnp)).
    destruct Hin as [<- | Hin].
    + rewrite Hrow in Hit. inversion Hit; subst o. cbn [split_cookies].
      destruct (split_cookies CONFIG l) as [ids pins]. rewrite Hnp. left. reflexivity.
    + specialize (Htail Hin). destruct o as [a |]; [| exact Htail].
      cbn [split_cookies]. destruct (split_cookies CONFIG l) as [ids pins].
      destruct (should_preserve_cookie CONFIG (extract_pt_pin (cookie_pt_pin a)));
        [exact Htail | right; exact Htail].
Qed.

Section Contract.
Context {Net : Type} `{Network Net} `{!PanelContract Net}.

Lemma exchange_remote (rq : request) (s : PanelTask Net) :
  exchange rq s =
  (fst (exchange rq (remote s)),
   {| self := self s; remote := snd (exchange rq (remote s)) |}).
Proof.
  unfold exchange at 1, PanelTask_Network. destruct (exchange rq (remote s)). reflexivity.
Qed.

Lemma exchange_get_records (rq : request) (s : PanelTask Net) :
  rq_method rq = GET -> records (remote (snd (exchange rq s))) = records (remote s).
Proof. intros Hm. rewrite exchange_remote. cbn [snd remote]. apply contract_get. exact Hm. Qed.

Lemma safe_request_get_records (rq : request) (detail : string) (s : PanelTask Net) :
  rq_method rq = GET ->
  records (remote (state_of (safe_request rq detail s))) = records (remote s).
Proof.
  intros Hm.
  destruct (safe_request_cases rq detail s)
    as [(body & s1 & E1 & ->)
       | [(r1 & e1 & s1 & body & s2 & E1 & He1 & E2 & ->)
         | (r1 & e1 & s1 & r2 & e2 & s2 & E1 & He1 & E2 & He2 & ->)]]; run_simpl.
  - rewrite <- (exchange_get_records rq s Hm), E1. reflexivity.
  - rewrite <- (exchange_get_records rq s Hm), E1. cbn [snd].
    rewrite <- (exchange_get_records rq s1 Hm), E2. reflexivity.
  - rewrite <- (exchange_get_records rq s Hm), E1. cbn [snd].
    rewrite <- (exchange_get_records rq s1 Hm), E2. reflexivity.
Qed.

(** A [safe_request] made with GET that returns an answer got it from a
    panel that held the same records as at the start. *)
Lemma safe_request_get_answer (rq : request) (detail : string) (s : PanelTask Net)
    (answer : json) :
  rq_method rq = GET ->
  value_of (safe_request rq detail s) = Ok answer ->
  exists n n', exchange rq n = (Reply answer, n') /\ records n = records (remote s).
Proof.
  intros Hm.
  assert (Hnet : forall (s0 s0' : PanelTask Net) body,
            exchange rq s0 = (Reply body, s0') ->
            exchange rq (remote s0) = (Reply body, snd (exchange rq (remote s0)))).
  { intros s0 s0' body E. rewrite exchange_remote in E.
    rewrite (surjective_pairing (exchange rq (remote s0))) at 1.
    inversion E as [[Hfst Hsnd]]. rewrite Hfst. reflexivity. }
  destruct (safe_request_cases rq detail s)
    as [(body & s1 & E1 & ->)
       | [(r1 & e1 & s1 & body & s2 & E1 & He1 & E2 & ->)
         | (r1 & e1 & s1 & r2 & e2 & s2 & E1 & He1 & E2 & He2 & ->)]]; run_simpl;
    intros Hv; inversion Hv; subst.
  - exists (remote s), (snd (exchange rq (remote s))).
    split; [apply (Hnet s s1 answer E1) | reflexivity].
  - pose proof (exchange_get_records rq s Hm) as Hr. rewrite E1 in Hr. cbn [snd] in Hr.
    exists (remote s1), (snd (exchange rq (remote s1))).
    split; [apply (Hnet s1 s2 answer E2) | exact Hr].
Qed.

Lemma get_token_records (s : PanelTask Net) :
  records (remote (state_of (get_token s))) = records (remote s).
Proof.
  unfold get_token. rewrite self_bind.
  destruct (Json.truthy (token (self s))); [reflexivity |].
  fold (token_request (self s)).
  set (rq := token_request (self s)). set (detail := "面板: " +++ name (self s)).
  pose proof (safe_request_get_records rq detail s eq_refl) as Hrec.
  destruct (safe_request rq detail s) as [[[result | e] s1] ev1] eqn:E;
    unfold state_of in Hrec; cbn [fst snd] in Hrec.
  - destruct (py_get result "data" (JObj [])) as [data | e1] eqn:Ed.
    + destruct (py_get data "token" JNull) as [tok | e2] eqn:Et.
      * erewrite try_ok.
        2:{ eapply bind_to; [exact E |]. cbv beta. rewrite lift_bind, Ed, lift_bind, Et.
            reflexivity. }
        run_simpl. exact Hrec.
      * erewrite try_raised.
        2:{ rewrite (bind_ok _ _ _ _ _ _ E), lift_bind, Ed, lift_bind, Et.
            run_simpl. reflexivity. }
        unfold logger_error. rewrite emit_then. unfold ret. run_simpl. exact Hrec.
    + erewrite try_raised.
      2:{ rewrite (bind_ok _ _ _ _ _ _ E), lift_bind, Ed. run_simpl. reflexivity. }
      unfold logger_error. rewrite emit_then. unfold ret. run_simpl. exact Hrec.
  - erewrite try_raised.
    2:{ apply bind_raised. exact E. }
    unfold logger_error. rewrite emit_then. unfold ret. run_simpl. exact Hrec.
Qed.

(** A listing that returns credentials returns what [get_all_cookies]
    makes of the records the panel holds, and leaves them in place. *)
Lemma get_all_cookies_honest (s : PanelTask Net) (c : CookieInfo) (rest : list CookieInfo) :
  value_of (get_all_cookies s) = Ok (c :: rest) ->
  collect all_row (records (remote s)) = Ok (c :: rest) /\
  records (remote (state_of (get_all_cookies s))) = records (remote s).
Proof.
  rewrite get_all_cookies_run. cbn zeta.
  destruct (request_run GET "/open/envs" None s) as [tok [Htok Hrun]].
  pose proof (get_token_records s) as Hg.
  set (g := get_token s) in *.
  destruct (Json.truthy tok).
  - cbn zeta in Hrun.
    set (rq := panel_request (url (self s)) GET "/open/envs" tok None) in *.
    set (x := safe_request rq ("面板: " +++ name (self s)) (state_of g)) in *.
    pose proof (safe_request_get_records rq ("面板: " +++ name (self s)) (state_of g) eq_refl)
      as Hx. fold x in Hx.
    rewrite Hrun. run_simpl.
    destruct (value_of x) as [answer | e] eqn:Ex; [| run_simpl; discriminate].
    destruct (listed answer) as [infos | e] eqn:El; run_simpl; [| discriminate].
    intros Hv. inversion Hv; subst infos. split; [| congruence].
    destruct (safe_request_get_answer rq _ (state_of g) answer eq_refl Ex)
      as (n & n' & En & Hn).
    unfold listed in El.
    destruct answer as [| | | | | fields]; try discriminate.
    cbn [py_get rbind] in El.
    destruct (Json.assoc "data" fields) as [d |] eqn:Hd.
    + rewrite (contract_list rq n (url (self s)) fields n' d eq_refl eq_refl En Hd) in El.
      cbn [py_iter rbind] in El. rewrite Hn, Hg in El. exact El.
    + cbn [py_iter rbind collect] in El. discriminate.
  - rewrite Hrun. run_simpl. discriminate.
Qed.

(** A delete the panel answered with code 200 leaves only records it
    held before and whose id was not in the request. *)
Lemma delete_accepted_records (s : PanelTask Net) (ids : list json) :
  accepted (fst (exchange (delete_request (self s) ids) s)) = true ->
  forall it, In it (records (remote (snd (exchange (delete_request (self s) ids) s)))) ->
    In it (records (remote s)) /\ (forall v, item_id it = Ok v -> ~ In v ids).
Proof.
  set (rq := delete_request (self s) ids).
  rewrite exchange_remote. cbn [fst snd remote]. intros Hacc it Hin.
  destruct (exchange rq (remote s)) as [r n'] eqn:E. cbn [fst snd] in *.
  destruct r as [body | | |]; try discriminate. cbn [accepted] in Hacc.
  destruct (py_get body "code" JNull) as [code |] eqn:Hc; [| discriminate].
  apply (contract_delete rq (remote s) (url (self s)) ids body n' code
           eq_refl eq_refl eq_refl E Hc Hacc it Hin).
Qed.

(** A [_request] made with POST only appends. *)
Lemma request_post_records (endpoint : string) (body : option json) (s : PanelTask Net) :
  exists appended,
    records (remote (state_of (_request POST endpoint body s)))
    = records (remote s) ++ appended.
Proof.
  destruct (request_run POST endpoint body s) as [tok [Htok ->]].
  pose proof (get_token_records s) as Hg.
  destruct (Json.truthy tok); cbn zeta; run_simpl.
  - set (rq := panel_request (url (self s)) POST endpoint tok body).
    assert (Hpost : forall s0 : PanelTask Net,
              exists added, records (remote (snd (exchange rq s0)))
                            = records (remote s0) ++ added).
    { intros s0. rewrite exchange_remote. cbn [snd remote].
      apply contract_post. reflexivity. }
    destruct (safe_request_cases rq ("面板: " +++ name (self s)) (state_of (get_token s)))
      as [(b & s1 & E1 & ->)
         | [(r1 & e1 & s1 & b & s2 & E1 & He1 & E2 & ->)
           | (r1 & e1 & s1 & r2 & e2 & s2 & E1 & He1 & E2 & He2 & ->)]]; run_simpl.
    + destruct (Hpost (state_of (get_token s))) as [added Ha]. rewrite E1 in Ha.
      cbn [snd] in Ha. exists added. rewrite Ha, Hg. reflexivity.
    + destruct (Hpost (state_of (get_token s))) as [added1 Ha1]. rewrite E1 in Ha1.
      destruct (Hpost s1) as [added2 Ha2]. rewrite E2 in Ha2. cbn [snd] in Ha1, Ha2.
      exists (added1 ++ added2). rewrite Ha2, Ha1, Hg, app_assoc. reflexivity.
    + destruct (Hpost (state_of (get_token s))) as [added1 Ha1]. rewrite E1 in Ha1.
      destruct (Hpost s1) as [added2 Ha2]. rewrite E2 in Ha2. cbn [snd] in Ha1, Ha2.
      exists (added1 ++ added2). rewrite Ha2, Ha1, Hg, app_assoc. reflexivity.
  - exists []. rewrite app_nil_r. exact Hg.
Qed.

Lemma add_cookies_to_panel_records (main : list CookieRemark) (s : PanelTask Net) :
  exists appended,
    records (remote (state_of (add_cookies_to_panel main s)))
    = records (remote s) ++ appended.
Proof.
  destruct main as [| first more].
  - exists []. rewrite app_nil_r. reflexivity.
  - destruct (add_cookies_to_panel_run first more s) as (b & m & logs & -> & _).
    run_simpl. apply request_post_records.
Qed.

(** A panel whose cleaning is recorded with a positive deleted count
    ends the pass with records it held before, none of them one that
    the cleaning deletes, followed by what the adding appended. *)
Lemma cleaned_panel_records (CONFIG : Config) (main : list CookieRemark)
    (t : PanelTask Net) (r : Clean.result) :
  value_of (clean_panel CONFIG t) = Ok r -> 0 < Clean.deleted_count r ->
  exists kept appended,
    records (remote (state_of (add_cookies_to_panel main (state_of (clean_panel CONFIG t)))))
    = kept ++ appended /\
    incl kept (records (remote t)) /\
    forall it, In it kept -> ~ deletable CONFIG it.
Proof.
  intros Hr Hpos.
  destruct (add_cookies_to_panel_records main (state_of (clean_panel CONFIG t)))
    as [appended Happ].
  exists (records (remote (state_of (clean_panel CONFIG t)))), appended.
  split; [exact Happ |].
  destruct (get_all_cookies_total t) as [infos Hl].
  destruct infos as [| c rest].
  { rewrite (clean_panel_empty CONFIG t Hl) in Hr. run_simpl_in Hr. inversion Hr; subst r.
    simpl in Hpos. lia. }
  destruct (fst (split_cookies CONFIG (c :: rest))) as [| i more] eqn:Hids.
  { rewrite (clean_panel_nothing CONFIG t (c :: rest) Hl) in Hr;
      [| discriminate | exact Hids].
    run_simpl_in Hr. inversion Hr; subst r. simpl in Hpos. lia. }
  destruct (clean_panel_delete CONFIG t (c :: rest) i more Hl Hids)
    as (m & logs & Hc & _). cbn zeta in Hc.
  destruct (get_all_cookies_honest t c rest Hl) as [Hlisted Hsame].
  set (s1 := state_of (get_all_cookies t)) in *.
  set (rq := delete_request (self s1) (i :: more)) in *.
  rewrite Hc in Hr |- *. run_simpl_in Hr. run_simpl.
  destruct (accepted (fst (exchange rq s1))) eqn:Hacc.
  2:{ inversion Hr; subst r. simpl in Hpos. lia. }
  pose proof (delete_accepted_records s1 (i :: more) Hacc) as Hdel. fold rq in Hdel.
  split.
  - intros it Hin. rewrite <- Hsame. apply (Hdel it Hin).
  - intros it Hin [cookie [Hrow Hnp]].
    destruct (Hdel it Hin) as [Hheld Hnot]. rewrite Hsame in Hheld.
    apply (Hnot (cookie_id cookie) (all_row_id it cookie Hrow)).
    rewrite <- Hids.
    apply (split_cookies_covers CONFIG (records (remote t)) (c :: rest) Hlisted
             it cookie Hheld Hrow Hnp).
Qed.

End Contract.

(* ------------------------------------------------------------------ *)
(** *** The reference panel honours the contract *)

Lemma ends_with_append (base suffix : string) :
  QL.ends_with suffix (base +++ suffix) = true.
Proof.
  induction base as [| c base IH]; simpl.
  - destruct suffix; simpl; [reflexivity |].
    rewrite Ascii.eqb_refl, String.eqb_refl. reflexivity.
  - rewrite IH. apply orb_true_r.
Qed.

Lemma QL_answer_envs (rq : request) (s : QL.Server) :
  QL.ql_envs (snd (QL.answer rq s)) = QL.ql_envs (snd (QL.serve rq (QL.pop_fault s))) \/
  QL.ql_envs (snd (QL.answer rq s)) = QL.ql_envs s.
Proof.
  unfold QL.answer. destruct (hd QL.Healthy (QL.ql_faults s)); auto.
Qed.

Lemma QL_contract_get (rq : request) (s : QL.Server) :
  rq_method rq = GET ->
  map QL.render (QL.ql_envs (snd (QL.answer rq s))) = map QL.render (QL.ql_envs s).
Proof.
  intros Hm. destruct (QL_answer_envs rq s) as [-> | ->]; [| reflexivity].
  unfold QL.serve. rewrite Hm.
  destruct (QL.ends_with "/open/envs" (rq_url rq)).
  - destruct (QL.authorised (QL.pop_fault s) rq); reflexivity.
  - destruct (QL.ends_with "/open/auth/token" (rq_url rq)); [| reflexivity].
    destruct (Json.assoc "client_id" (rq_params rq)) as [[] |]; try reflexivity.
    destruct (Json.assoc "client_secret" (rq_params rq)) as [[] |]; try reflexivity.
    destruct (_ && _); reflexivity.
Qed.

Lemma QL_contract_list (rq : request) (s : QL.Server) (base : string)
    (fields : list (string * json)) (s' : QL.Server) (d : json) :
  rq_method rq = GET -> rq_url rq = base +++ "/open/envs" ->
  QL.answer rq s = (Reply (JObj fields), s') ->
  Json.assoc "data" fields = Some d ->
  d = JArr (map QL.render (QL.ql_envs s)).
Proof.
  intros Hm Hu. unfold QL.answer.
  destruct (hd QL.Healthy (QL.ql_faults s)); try discriminate.
  - unfold QL.serve. rewrite Hm, Hu, ends_with_append.
    destruct (QL.authorised (QL.pop_fault s) rq); [| discriminate].
    intros Heq Hd. inversion Heq; subst fields. simpl in Hd. inversion Hd. reflexivity.
  - unfold QL.refusal. intros Heq Hd. inversion Heq; subst fields. discriminate.
Qed.

Lemma QL_item_id (e : QL.Env) : item_id (QL.render e) = Ok (JNum (QL.env_id e)).
Proof. reflexivity. Qed.

Lemma QL_named_In (ids : list json) (e : QL.Env) :
  In (JNum (QL.env_id e)) ids -> QL.named ids e = true.
Proof.
  intros Hin. unfold QL.named. apply existsb_exists.
  exists (JNum (QL.env_id e)). split; [exact Hin | apply Z.eqb_refl].
Qed.

Lemma QL_contract_delete (rq : request) (s : QL.Server) (base : string)
    (ids : list json) (body : json) (s' : QL.Server) (code : json) :
  rq_method rq = DELETE -> rq_url rq = base +++ "/open/envs" ->
  rq_json rq = Some (JArr ids) ->
  QL.answer rq s = (Reply body, s') ->
  py_get body "code" JNull = Ok code -> Json.eq_int code 200 = true ->
  forall it, In it (map QL.render (QL.ql_envs s')) ->
    In it (map QL.render (QL.ql_envs s)) /\ (forall v, item_id it = Ok v -> ~ In v ids).
Proof.
  intros Hm Hu Hj. unfold QL.answer.
  destruct (hd QL.Healthy (QL.ql_faults s)); try discriminate.
  - unfold QL.serve. rewrite Hm, Hu, Hj, ends_with_append.
    destruct (QL.authorised (QL.pop_fault s) rq); [| discriminate].
    intros Heq _ _ it Hin. inversion Heq; subst body s'. clear Heq.
    cbn [QL.with_envs QL.ql_envs QL.pop_fault] in Hin.
    apply in_map_iff in Hin. destruct Hin as [e [<- He]].
    apply filter_In in He. destruct He as [He Hnamed]. split.
    + apply in_map. exact He.
    + intros v Hv Hin. rewrite QL_item_id in Hv. inversion Hv; subst v.
      rewrite (QL_named_In ids e Hin) in Hnamed. discriminate.
  - unfold QL.refusal. intros Heq Hc H200. inversion Heq; subst body.
    simpl in Hc. inversion Hc; subst code. discriminate.
Qed.

Lemma QL_contract_post (rq : request) (s : QL.Server) :
  rq_method rq = POST ->
  exists added,
    map QL.render (QL.ql_envs (snd (QL.answer rq s)))
    = map QL.render (QL.ql_envs s) ++ added.
Proof.
  intros Hm. destruct (QL_answer_envs rq s) as [-> | ->];
    [| exists []; rewrite app_nil_r; reflexivity].
  unfold QL.serve. rewrite Hm.
  assert (Hsame : exists added : list json,
            map QL.render (QL.ql_envs (QL.pop_fault s))
            = map QL.render (QL.ql_envs s) ++ added)
    by (exists []; rewrite app_nil_r; reflexivity).
  destruct (QL.ends_with "/open/envs" (rq_url rq)).
  - destruct (QL.authorised (QL.pop_fault s) rq); [| exact Hsame].
    destruct (rq_json rq) as [[| | | | items |] |]; try exact Hsame.
    destruct (QL.parse_new (QL.ql_next_id (QL.pop_fault s)) items) as [added |];
      [| exact Hsame].
    exists (map QL.render added). cbn [snd QL.with_envs QL.ql_envs QL.pop_fault].
    apply map_app.
  - destruct (QL.ends_with "/open/auth/token" (rq_url rq)); [| exact Hsame].
    destruct (Json.assoc "client_id" (rq_params rq)) as [[] |]; try exact Hsame.
    destruct (Json.assoc "client_secret" (rq_params rq)) as [[] |]; try exact Hsame.
    destruct (_ && _); exact Hsame.
Qed.

#[export] Instance QL_Contract : PanelContract QL.Server :=
  {| records := fun s => map QL.render (QL.ql_envs s);
     contract_get := QL_contract_get;
     contract_list := QL_contract_list;
     contract_delete := QL_contract_delete;
     contract_post := QL_contract_post |}.

(* ------------------------------------------------------------------ *)
(** *** Every pass has an order of events *)

Lemma Interleaving_skip {A : Type} (ls : list (list A)) (tr : list A) :
  Interleaving ls tr -> Interleaving ([] :: ls) tr.
Proof.
  induction 1 as [ls Hall | ls1 x l ls2 tr Hi IH].
  - apply Interleaving_done. constructor; [reflexivity | exact Hall].
  - apply (Interleaving_step ([] :: ls1) x l ls2 tr). exact IH.
Qed.

Lemma Interleaving_concat {A : Type} (ls : list (list A)) : Interleaving ls (concat ls).
Proof.
  induction ls as [| l ls IH]; simpl.
  - apply Interleaving_done. constructor.
  - induction l as [| x l IHl]; simpl.
    + apply Interleaving_skip. exact IH.
    + apply (Interleaving_step [] x l ls). exact IHl.
Qed.

(** The schedule that runs the tasks of each [gather] one after the
    other is one of the orders of the pass. *)
Lemma sequential_trace_is_pass_trace {Net : Type} (run : PassRun Net) :
  pass_trace run (sequential_trace run).
Proof.
  exists (concat (tag_panels 0 (cleaning run))), (concat (tag_panels 0 (adding run))).
  split; [apply Interleaving_concat |]. split; [apply Interleaving_concat | reflexivity].
Qed.

(* ------------------------------------------------------------------ *)
(** *** The claim and its limits *)

Lemma nth_error_combine_snd {A B : Type} (l1 : list A) (l2 : list B) (i : nat) (a : A) (b : B) :
  nth_error (combine l1 l2) i = Some (a, b) -> nth_error l2 i = Some b.
Proof.
  revert l2 i. induction l1 as [| x l1 IH]; intros l2 i; [destruct i; discriminate |].
  destruct l2 as [| y l2]; [destruct i; discriminate |].
  destruct i as [| i]; simpl.
  - intros Heq. inversion Heq. reflexivity.
  - apply IH.
Qed.

Lemma panel_tasks_remote {Net : Type} (CONFIG : Config) (w : World Net) (i : nat)
    (t : PanelTask Net) :
  nth_error (panel_tasks CONFIG w) i = Some t ->
  nth_error (secondaries w) i = Some (remote t).
Proof.
  unfold panel_tasks. rewrite nth_error_map.
  destruct (nth_error (combine _ (secondaries w)) i) as [[api n] |] eqn:E; [| discriminate].
  simpl. intros Heq. inversion Heq. simpl.
  apply (nth_error_combine_snd _ _ _ _ _ E).
Qed.




(* ================================================================== *)
(** ** Runs on concrete inputs *)
(* ================================================================== *)

(** Three recipients; the channel is silent for both attempts to the
    first and answers the second: [notify] returns [True], and nothing
    is sent to the third. *)
Example notify_run :
  let o := notify (Demo.config [] []) Demo.no_files "title" "message" None
             ([NoReply "timed out"; NoReply "timed out"; Reply (JObj [("ok", JBool true)])]
              : Scripted) in
  value_of o = Ok true /\
  map recipient (requests (events_of o)) = [Some (JNum 1001); Some (JNum 1001); Some (JNum 1002)] /\
  state_of o = [].
Proof. vm_compute. repeat split; reflexivity. Qed.

(** The extraction of a pin from a raw cookie and from a part of it. *)
Example extract_pt_pin_run :
  extract_pt_pin "pt_key=abc; pt_pin=userA ;" = Some "userA" /\
  extract_pt_pin "pt_pin=userA" = Some "userA" /\
  extract_pt_pin "userB" = None.
Proof. repeat split; reflexivity. Qed.

(** The whole pass on the world of the first claim, in the order in
    which each task runs to its end: the methods called, by origin. *)
Example sync_run :
  let run := sync_ck_to_panels (Demo.config [Demo.panel1] ["pt_pin=userC;"]) Demo.no_files
               (Demo.world Demo.main_server [Demo.secondary1 []]) in
  map (fun oe => (fst oe, match snd oe with Http rq _ => Some (rq_method rq) | _ => None end))
      (filter (fun oe => negb (is_log (snd oe))) (sequential_trace run)) =
    [(FromPass, Some GET); (FromPass, Some GET);
     (FromPanel 0, Some GET); (FromPanel 0, Some GET); (FromPanel 0, Some DELETE);
     (FromPanel 0, Some POST)].
Proof. vm_compute. reflexivity. Qed.

(* ================================================================== *)
(** * Further properties of the program *)
(* ================================================================== *)

(* ================================================================== *)
(** ** Facts about Python strings *)
(* ================================================================== *)

Section StringFacts.

Lemma prefix_empty (s : string) : String.prefix "" s = true.
Proof. destruct s; reflexivity. Qed.

Lemma prefix_cons (a b : ascii) (sub s : string) :
  String.prefix (String a sub) (String b s) = Ascii.eqb a b && String.prefix sub s.
Proof.
  simpl. destruct (ascii_dec a b) as [-> | NE].
  - rewrite Ascii.eqb_refl. reflexivity.
  - apply Ascii.eqb_neq in NE. rewrite NE. reflexivity.
Qed.

Lemma prefix_append (sub s : string) : String.prefix sub (sub +++ s) = true.
Proof.
  induction sub as [| c sub IH]; [apply prefix_empty |].
  cbn [String.append]. rewrite prefix_cons, Ascii.eqb_refl. exact IH.
Qed.

Lemma contains_nil (sub : string) :
  PyStr.contains sub "" = match sub with EmptyString => true | _ => false end.
Proof. destruct sub; reflexivity. Qed.

Lemma contains_cons (sub : string) (c : ascii) (s : string) :
  PyStr.contains sub (String c s) = String.prefix sub (String c s) || PyStr.contains sub s.
Proof. reflexivity. Qed.

Lemma split_cons (sep c : ascii) (s : string) :
  PyStr.split sep (String c s) =
  if Ascii.eqb c sep then EmptyString :: PyStr.split sep s
  else String c (hd EmptyString (PyStr.split sep s)) :: tl (PyStr.split sep s).
Proof.
  cbn [PyStr.split]. destruct (Ascii.eqb c sep); [reflexivity |].
  destruct (PyStr.split sep s) as [| h t] eqn:E; [| reflexivity].
  exfalso. destruct s; cbn [PyStr.split] in E; [discriminate |].
  destruct (Ascii.eqb a sep); [discriminate |].
  destruct (PyStr.split sep s); discriminate.
Qed.

Lemma split_shape (sep : ascii) (s : string) :
  PyStr.split sep s = hd EmptyString (PyStr.split sep s) :: tl (PyStr.split sep s).
Proof.
  destruct s as [| c s]; [reflexivity |].
  rewrite split_cons. destruct (Ascii.eqb c sep); reflexivity.
Qed.

(** A text without the separator is met whole in the first part. *)
Lemma prefix_first_part (sep : ascii) (sub s : string) :
  PyStr.mem_char sep sub = false ->
  String.prefix sub (hd EmptyString (PyStr.split sep s)) = String.prefix sub s.
Proof.
  revert s. induction sub as [| a sub IH]; intros s Hsep.
  - rewrite !prefix_empty. reflexivity.
  - cbn [PyStr.mem_char] in Hsep. apply orb_false_elim in Hsep as [Ha Hsub].
    destruct s as [| c s]; [reflexivity |].
    rewrite split_cons. destruct (Ascii.eqb c sep) eqn:Ec.
    + apply Ascii.eqb_eq in Ec. subst c. cbn [hd].
      rewrite prefix_cons. rewrite Ascii.eqb_sym, Ha. reflexivity.
    + cbn [hd]. rewrite !prefix_cons, (IH s Hsub). reflexivity.
Qed.

(** [sub in s] is decided part by part when [sub] holds no separator. *)
Lemma contains_split (sep : ascii) (sub s : string) :
  PyStr.mem_char sep sub = false ->
  existsb (PyStr.contains sub) (PyStr.split sep s) = PyStr.contains sub s.
Proof.
  intros Hsep. induction s as [| c s IH].
  - cbn [PyStr.split existsb]. apply orb_false_r.
  - rewrite split_cons, contains_cons. destruct (Ascii.eqb c sep) eqn:Ec.
    + apply Ascii.eqb_eq in Ec. subst c. cbn [existsb]. rewrite IH, contains_nil.
      f_equal. destruct sub as [| a sub]; [reflexivity |].
      cbn [PyStr.mem_char] in Hsep. apply orb_false_elim in Hsep as [Ha _].
      rewrite prefix_cons, Ascii.eqb_sym, Ha. reflexivity.
    + rewrite split_shape in IH. cbn [existsb] in IH |- *.
      rewrite contains_cons, <- orb_assoc, IH.
      f_equal. destruct sub as [| a sub]; [reflexivity |].
      cbn [PyStr.mem_char] in Hsep. apply orb_false_elim in Hsep as [_ Hsub].
      rewrite !prefix_cons, (prefix_first_part sep sub s Hsub). reflexivity.
Qed.

(** No part of a split holds the separator. *)
Lemma split_parts (sep : ascii) (s part : string) :
  In part (PyStr.split sep s) -> PyStr.mem_char sep part = false.
Proof.
  revert part. induction s as [| c s IH]; intros part Hin.
  - destruct Hin as [<- | []]. reflexivity.
  - rewrite split_cons in Hin. destruct (Ascii.eqb c sep) eqn:Ec.
    + destruct Hin as [<- | Hin]; [reflexivity | exact (IH _ Hin)].
    + rewrite split_shape in IH. destruct Hin as [<- | Hin].
      * cbn [PyStr.mem_char]. rewrite Ascii.eqb_sym, Ec.
        apply IH. left. reflexivity.
      * apply IH. right. exact Hin.
Qed.

Lemma split_whole (sep : ascii) (s : string) :
  PyStr.mem_char sep s = false -> PyStr.split sep s = [s].
Proof.
  induction s as [| c s IH]; intros Hs; [reflexivity |].
  cbn [PyStr.mem_char] in Hs. apply orb_false_elim in Hs as [Hc Hs].
  rewrite split_cons, Ascii.eqb_sym, Hc, (IH Hs). reflexivity.
Qed.

Lemma split_append (sep : ascii) (a b : string) :
  PyStr.mem_char sep a = false ->
  PyStr.split sep (a +++ String sep b) = a :: PyStr.split sep b.
Proof.
  induction a as [| c a IH]; intros Ha.
  - cbn [String.append]. rewrite split_cons, Ascii.eqb_refl. reflexivity.
  - cbn [PyStr.mem_char] in Ha. apply orb_false_elim in Ha as [Hc Ha].
    cbn [String.append]. rewrite split_cons, Ascii.eqb_sym, Hc, (IH Ha). reflexivity.
Qed.

End StringFacts.

Section StripFacts.
Variable p : ascii -> bool.

Lemma rstrip_by_cons (c : ascii) (s : string) :
  p c = false -> PyStr.rstrip_by p (String c s) = String c (PyStr.rstrip_by p s).
Proof.
  intros Hc. cbn [PyStr.rstrip_by]. rewrite Hc.
  destruct (PyStr.rstrip_by p s); reflexivity.
Qed.

Lemma rstrip_by_idem (s : string) :
  PyStr.rstrip_by p (PyStr.rstrip_by p s) = PyStr.rstrip_by p s.
Proof.
  induction s as [| c s IH]; [reflexivity |].
  cbn [PyStr.rstrip_by]. destruct (PyStr.rstrip_by p s) as [| d r] eqn:E.
  - destruct (p c) eqn:Hc; [reflexivity |].
    cbn [PyStr.rstrip_by]. rewrite Hc. reflexivity.
  - cbn [PyStr.rstrip_by] in IH |- *.
    destruct (PyStr.rstrip_by p r) as [| d' r'] eqn:E'.
    + destruct (p d); [discriminate |]. rewrite IH. reflexivity.
    + rewrite IH. reflexivity.
Qed.

Lemma lstrip_by_head (s : string) :
  match PyStr.lstrip_by p s with
  | EmptyString => True
  | String c _ => p c = false
  end.
Proof.
  induction s as [| c s IH]; [exact I |].
  cbn [PyStr.lstrip_by]. destruct (p c) eqn:Hc; [exact IH | exact Hc].
Qed.

Lemma lstrip_by_fixed (s : string) :
  match s with EmptyString => True | String c _ => p c = false end ->
  PyStr.lstrip_by p s = s.
Proof. destruct s as [| c s]; [reflexivity |]. intros Hc. cbn. rewrite Hc. reflexivity. Qed.

Lemma rstrip_by_head (s : string) :
  match s with EmptyString => True | String c _ => p c = false end ->
  match PyStr.rstrip_by p s with EmptyString => True | String c _ => p c = false end.
Proof.
  destruct s as [| c s]; [intros _; exact I |].
  intros Hc. rewrite (rstrip_by_cons c s Hc). exact Hc.
Qed.

(** [s.strip().strip() == s.strip()] *)
Lemma strip_by_idem (s : string) :
  PyStr.strip_by p (PyStr.strip_by p s) = PyStr.strip_by p s.
Proof.
  unfold PyStr.strip_by.
  rewrite (lstrip_by_fixed (PyStr.rstrip_by p (PyStr.lstrip_by p s))).
  - apply rstrip_by_idem.
  - apply rstrip_by_head, lstrip_by_head.
Qed.

Lemma strip_by_kept (s : string) :
  free_of p s = true -> PyStr.strip_by p s = s.
Proof.
  unfold PyStr.strip_by. intros Hs.
  assert (Hr : forall t, free_of p t = true -> PyStr.rstrip_by p t = t).
  { induction t as [| c t IH]; [reflexivity |].
    cbn [free_of]. intros H. apply andb_prop in H as [Hc Ht].
    apply negb_true_iff in Hc. rewrite (rstrip_by_cons c t Hc), (IH Ht). reflexivity. }
  rewrite lstrip_by_fixed; [exact (Hr s Hs) |].
  destruct s as [| c s]; [exact I |].
  cbn [free_of] in Hs. apply andb_prop in Hs as [Hc _]. apply negb_true_iff. exact Hc.
Qed.

(** Stripping only removes characters. *)
Lemma lstrip_by_mem (c : ascii) (s : string) :
  PyStr.mem_char c s = false -> PyStr.mem_char c (PyStr.lstrip_by p s) = false.
Proof.
  induction s as [| d s IH]; [reflexivity |].
  intros H. cbn [PyStr.lstrip_by]. destruct (p d); [| exact H].
  cbn [PyStr.mem_char] in H. apply orb_false_elim in H as [_ H]. exact (IH H).
Qed.

Lemma rstrip_by_mem (c : ascii) (s : string) :
  PyStr.mem_char c s = false -> PyStr.mem_char c (PyStr.rstrip_by p s) = false.
Proof.
  induction s as [| d s IH]; [reflexivity |].
  intros H. cbn [PyStr.mem_char] in H. apply orb_false_elim in H as [Hd H].
  specialize (IH H). cbn [PyStr.rstrip_by].
  destruct (PyStr.rstrip_by p s) as [| e r].
  - destruct (p d); [reflexivity |]. cbn [PyStr.mem_char]. rewrite Hd. reflexivity.
  - cbn [PyStr.mem_char] in IH |- *. rewrite Hd. exact IH.
Qed.

Lemma strip_by_mem (c : ascii) (s : string) :
  PyStr.mem_char c s = false -> PyStr.mem_char c (PyStr.strip_by p s) = false.
Proof. intros H. apply rstrip_by_mem, lstrip_by_mem, H. Qed.

(** A text none of whose characters is stripped stays where it is. *)
Lemma prefix_rstrip_by (sub s : string) :
  free_of p sub = true -> String.prefix sub s = true ->
  String.prefix sub (PyStr.rstrip_by p s) = true.
Proof.
  revert s. induction sub as [| a sub IH]; intros s Hk Hp; [apply prefix_empty |].
  destruct s as [| c s]; [discriminate |].
  rewrite prefix_cons in Hp. apply andb_prop in Hp as [Hac Hp].
  apply Ascii.eqb_eq in Hac. subst c.
  cbn [free_of] in Hk. apply andb_prop in Hk as [Ha Hk]. apply negb_true_iff in Ha.
  rewrite (rstrip_by_cons a s Ha), prefix_cons, Ascii.eqb_refl. exact (IH s Hk Hp).
Qed.

Lemma contains_rstrip_by (sub s : string) :
  sub <> "" -> free_of p sub = true -> PyStr.contains sub s = true ->
  PyStr.contains sub (PyStr.rstrip_by p s) = true.
Proof.
  intros Hne Hk. induction s as [| c s IH]; intros Hc.
  - rewrite contains_nil in Hc. destruct sub; [contradiction | discriminate].
  - rewrite contains_cons in Hc. apply orb_prop in Hc as [Hp | Hc].
    + pose proof (prefix_rstrip_by sub (String c s) Hk Hp) as H.
      destruct (PyStr.rstrip_by p (String c s)) as [| d r].
      * destruct sub; [contradiction | discriminate].
      * rewrite contains_cons, H. reflexivity.
    + specialize (IH Hc). cbn [PyStr.rstrip_by].
      destruct (PyStr.rstrip_by p s) as [| d r].
      * rewrite contains_nil in IH. destruct sub; [contradiction | discriminate].
      * rewrite contains_cons, IH. apply orb_true_r.
Qed.

Lemma contains_lstrip_by (sub s : string) :
  sub <> "" -> free_of p sub = true -> PyStr.contains sub s = true ->
  PyStr.contains sub (PyStr.lstrip_by p s) = true.
Proof.
  intros Hne Hk. induction s as [| c s IH]; intros Hc; [exact Hc |].
  cbn [PyStr.lstrip_by]. destruct (p c) eqn:Hpc; [| exact Hc].
  rewrite contains_cons in Hc. apply orb_prop in Hc as [Hp | Hc]; [| exact (IH Hc)].
  destruct sub as [| a sub]; [contradiction |].
  rewrite prefix_cons in Hp. apply andb_prop in Hp as [Hac _].
  apply Ascii.eqb_eq in Hac. subst a.
  cbn [free_of] in Hk. rewrite Hpc in Hk. discriminate.
Qed.

Lemma contains_strip_by (sub s : string) :
  sub <> "" -> free_of p sub = true -> PyStr.contains sub s = true ->
  PyStr.contains sub (PyStr.strip_by p s) = true.
Proof.
  intros Hne Hk Hc. apply contains_rstrip_by; [exact Hne | exact Hk |].
  apply contains_lstrip_by; assumption.
Qed.

Lemma rstrip_by_append (a b : string) :
  free_of p a = true ->
  PyStr.rstrip_by p (a +++ b) = a +++ PyStr.rstrip_by p b.
Proof.
  induction a as [| c a IH]; intros Hk; [reflexivity |].
  cbn [free_of] in Hk. apply andb_prop in Hk as [Hc Hk]. apply negb_true_iff in Hc.
  cbn [String.append]. rewrite (rstrip_by_cons c _ Hc), (IH Hk). reflexivity.
Qed.

End StripFacts.

Section ReplaceFacts.

Lemma replace_from_absent (old new s : string) :
  PyStr.contains old s = false -> PyStr.replace_from old new 0 s = s.
Proof.
  induction s as [| c s IH]; [reflexivity |].
  rewrite contains_cons. intros H. apply orb_false_elim in H as [Hp Hc].
  cbn [PyStr.replace_from]. rewrite Hp, (IH Hc). reflexivity.
Qed.

Lemma replace_from_skip (old new a s : string) :
  PyStr.replace_from old new (String.length a) (a +++ s) = PyStr.replace_from old new 0 s.
Proof.
  induction a as [| c a IH]; [reflexivity |].
  cbn [String.length String.append PyStr.replace_from]. exact IH.
Qed.

(** [(old + s).replace(old, new) == new + s.replace(old, new)] *)
Lemma replace_head (old new s : string) :
  old <> "" ->
  PyStr.replace old new (old +++ s) = new +++ PyStr.replace old new s.
Proof.
  intros Hne. unfold PyStr.replace.
  destruct old as [| c old]; [contradiction |].
  cbn [String.append]. cbn [PyStr.replace_from].
  pose proof (prefix_append (String c old) s) as Hp. cbn [String.append] in Hp.
  rewrite Hp.
  replace (String.length (String c old) - 1) with (String.length old)
    by (cbn [String.length]; lia).
  rewrite replace_from_skip. reflexivity.
Qed.

End ReplaceFacts.

(* ================================================================== *)
(** ** Identity keys and the preservation set *)
(* ================================================================== *)

Lemma replace_from_mem (c : ascii) (old : string) (k : nat) (s : string) :
  PyStr.mem_char c s = false -> PyStr.mem_char c (PyStr.replace_from old "" k s) = false.
Proof.
  revert k. induction s as [| d s IH]; intros k Hs; [reflexivity |].
  cbn [PyStr.mem_char] in Hs. apply orb_false_elim in Hs as [Hd Hs].
  cbn [PyStr.replace_from]. destruct k as [| k]; [| exact (IH _ Hs)].
  destruct (String.prefix old (String d s)).
  - cbn [String.append]. exact (IH _ Hs).
  - cbn [PyStr.mem_char]. rewrite Hd. exact (IH _ Hs).
Qed.

Lemma first_pt_pin_find (parts : list string) :
  first_pt_pin parts =
  match find (PyStr.contains "pt_pin=") parts with
  | Some part => Some (PyStr.replace "pt_pin=" "" (PyStr.strip part))
  | None => None
  end.
Proof.
  induction parts as [| part rest IH]; [reflexivity |].
  cbn [first_pt_pin find]. destruct (PyStr.contains "pt_pin=" part); [reflexivity | exact IH].
Qed.

Lemma next_where_find {B : Type} (f : string -> B) (p : string -> bool)
    (parts : list string) (default : B) :
  PyStr.next_where f p parts default =
  match find p parts with
  | Some part => f part
  | None => default
  end.
Proof.
  induction parts as [| part rest IH]; [reflexivity |].
  cbn [PyStr.next_where find]. destruct (p part); [reflexivity | exact IH].
Qed.

Lemma find_none_existsb {A : Type} (p : A -> bool) (l : list A) :
  find p l = None <-> existsb p l = false.
Proof.
  induction l as [| x l IH]; [split; reflexivity |].
  cbn [find existsb]. destruct (p x); [split; discriminate | exact IH].
Qed.

(** X1: [extract_pt_pin] returns [None]
    exactly when the text does not hold "pt_pin=" anywhere, whatever the
    separators; a key it returns never holds a ";". *)
Theorem extract_pt_pin_none_iff_absent (cookie_str : string) :
  (extract_pt_pin cookie_str = None <-> PyStr.contains "pt_pin=" cookie_str = false) /\
  (forall pt_pin, extract_pt_pin cookie_str = Some pt_pin ->
                  PyStr.mem_char ";" pt_pin = false).
Proof.
  unfold extract_pt_pin. rewrite first_pt_pin_find. split.
  - rewrite <- (contains_split ";" "pt_pin=" cookie_str eq_refl), <- find_none_existsb.
    destruct (find _ _); split; congruence.
  - intros pt_pin Hsome.
    destruct (find _ _) as [part |] eqn:Ef; [| discriminate].
    injection Hsome as <-. apply find_some in Ef as [Hin _].
    apply replace_from_mem. apply strip_by_mem. exact (split_parts _ _ _ Hin).
Qed.

Lemma append_assoc (a b c : string) : (a +++ b) +++ c = a +++ b +++ c.
Proof. induction a as [| x a IH]; [reflexivity |]. cbn [String.append]. rewrite IH. reflexivity. Qed.

Lemma append_nil_r (a : string) : a +++ "" = a.
Proof. induction a as [| x a IH]; [reflexivity |]. cbn [String.append]. rewrite IH. reflexivity. Qed.

Lemma free_of_sep (sep : ascii) (s : string) :
  PyStr.mem_char sep s = false ->
  free_of (fun c => PyStr.mem_char c (String sep "")) s = true.
Proof.
  induction s as [| c s IH]; [reflexivity |].
  intros H. cbn [PyStr.mem_char] in H. apply orb_false_elim in H as [Hc Hs].
  cbn [free_of]. rewrite (IH Hs). cbn [PyStr.mem_char].
  rewrite orb_false_r, Ascii.eqb_sym, Hc. reflexivity.
Qed.

Lemma contains_before_sep (sep : ascii) (sub s : string) :
  sub <> "" -> PyStr.mem_char sep sub = false -> PyStr.mem_char sep s = false ->
  PyStr.contains sub (s +++ String sep "") = PyStr.contains sub s.
Proof.
  intros Hne Hsub Hs.
  rewrite <- (contains_split sep sub (s +++ String sep "") Hsub).
  rewrite (split_append sep s "" Hs). cbn [PyStr.split existsb].
  rewrite contains_nil. destruct sub; [contradiction |].
  rewrite !orb_false_r. reflexivity.
Qed.

Lemma strip_semicolons (s : string) :
  PyStr.mem_char ";" s = false -> PyStr.strip_chars ";" s = s.
Proof. intros Hs. apply strip_by_kept, free_of_sep, Hs. Qed.

Lemma strip_semicolons_after (s : string) :
  s <> "" -> PyStr.mem_char ";" s = false -> PyStr.strip_chars ";" (s +++ ";") = s.
Proof.
  intros Hne Hs. unfold PyStr.strip_chars, PyStr.strip_by.
  rewrite lstrip_by_fixed.
  - rewrite (rstrip_by_append _ s ";" (free_of_sep ";" s Hs)). cbn. apply append_nil_r.
  - destruct s as [| c s]; [contradiction |]. cbn [String.append].
    cbn [PyStr.mem_char] in Hs |- *. apply orb_false_elim in Hs as [Hc _].
    rewrite orb_false_r, Ascii.eqb_sym. exact Hc.
Qed.

(** The cleaned form of an entry that names a pin is the pin. *)
Lemma preserved_clean_names (pin entry : string) :
  plain_pin pin -> names_pin pin entry -> preserved_clean entry = pin.
Proof.
  intros (Hne & Hsep & Habs & _) Hn. unfold preserved_clean.
  assert (Habs' : PyStr.contains "pt_pin=" (pin +++ ";") = false).
  { rewrite (contains_before_sep ";" "pt_pin=" pin); [exact Habs | discriminate
                                                       | reflexivity | exact Hsep]. }
  destruct Hn as [-> | [-> | [-> | ->]]].
  - unfold PyStr.replace. rewrite (replace_from_absent _ _ _ Habs).
    exact (strip_semicolons pin Hsep).
  - rewrite replace_head by discriminate. cbn [String.append].
    unfold PyStr.replace. rewrite (replace_from_absent _ _ _ Habs).
    exact (strip_semicolons pin Hsep).
  - rewrite replace_head by discriminate. cbn [String.append].
    unfold PyStr.replace. rewrite (replace_from_absent _ _ _ Habs').
    exact (strip_semicolons_after pin Hne Hsep).
  - unfold PyStr.replace. rewrite (replace_from_absent _ _ _ Habs').
    exact (strip_semicolons_after pin Hne Hsep).
Qed.



(** X3: an entry of [PRESERVED_PT_PINS] may
    spell a pin P as "P", "pt_pin=P", "pt_pin=P;" or "P;".  When every
    entry is such a spelling of a plain pin, [should_preserve_cookie] is
    true of the plain pin P exactly when some entry spells P. *)
Theorem preserved_by_any_spelling (CONFIG : Config) (pin : string) :
  (forall entry, In entry (PRESERVED_PT_PINS CONFIG) ->
                 exists named, plain_pin named /\ names_pin named entry) ->
  plain_pin pin ->
  (should_preserve_cookie CONFIG (Some pin) = true <->
   exists entry, In entry (PRESERVED_PT_PINS CONFIG) /\ names_pin pin entry).
Proof.
  intros Hentries Hpin. pose proof Hpin as (Hne & _).
  unfold should_preserve_cookie.
  destruct pin as [| c pin]; [contradiction |]. cbn [PyStr.nonempty negb].
  rewrite any_preserved_spec. split.
  - intros (entry & Hin & Hclean). exists entry. split; [exact Hin |].
    destruct (Hentries entry Hin) as (named & Hnamed & Hn).
    rewrite (preserved_clean_names named entry Hnamed Hn) in Hclean. subst named. exact Hn.
  - intros (entry & Hin & Hn). exists entry. split; [exact Hin |].
    exact (preserved_clean_names _ entry Hpin Hn).
Qed.

Lemma preserved_by_any_spelling_witness :
  should_preserve_cookie (Demo.config [] ["pt_pin=userA;"; "userC"]) (Some "userC") = true <->
  exists entry, In entry ["pt_pin=userA;"; "userC"] /\ names_pin "userC" entry.
Proof.
  apply (preserved_by_any_spelling (Demo.config [] ["pt_pin=userA;"; "userC"]) "userC").
  - intros entry [<- | [<- | []]].
    + exists "userA". split; [repeat split; (discriminate || reflexivity) |].
      right. right. left. reflexivity.
    + exists "userC". split; [repeat split; (discriminate || reflexivity) |].
      left. reflexivity.
  - repeat split; (discriminate || reflexivity).
Defined.

Lemma py_split_text (value : json) (parts : list string) :
  py_split value = Ok parts -> exists v, value = JStr v /\ parts = PyStr.split ";" v.
Proof.
  destruct value; cbn [py_split]; intros Heq; try discriminate.
  injection Heq as <-. eauto.
Qed.

(** What a record listed by [get_all_cookies] is made of. *)
Lemma all_row_parts (item : json) (cookie : CookieInfo) :
  all_row item = Ok (Some cookie) ->
  exists v part,
    cookie_value cookie = JStr v /\
    find (PyStr.contains "pt_pin=") (PyStr.split ";" v) = Some part /\
    cookie_pt_pin cookie = PyStr.strip part.
Proof.
  unfold all_row. intros Hrow.
  destruct (py_get item "name" JNull) as [nm |]; cbn [rbind] in Hrow; [| discriminate].
  destruct (Json.eq_str nm "JD_COOKIE"); [| discriminate].
  destruct (py_get item "value" (JStr "")) as [value |]; cbn [rbind] in Hrow; [| discriminate].
  destruct (py_split value) as [parts |] eqn:Es; cbn [rbind] in Hrow; [| discriminate].
  apply py_split_text in Es as (v & -> & ->).
  rewrite (next_where_find PyStr.strip) in Hrow.
  destruct (PyStr.nonempty _ && PyStr.nonempty _) eqn:Hne; [| discriminate].
  apply andb_prop in Hne as [_ Hpin].
  destruct (item_id item) as [id |]; cbn [rbind] in Hrow; [| discriminate].
  destruct (py_get item "status" (JNum 1)) as [st |]; cbn [rbind] in Hrow; [| discriminate].
  injection Hrow as <-. cbn [cookie_value cookie_pt_pin].
  destruct (find (PyStr.contains "pt_pin=") (PyStr.split ";" v)) as [part |] eqn:Ef.
  - exists v, part. auto.
  - discriminate.
Qed.

(** The part ['pt_pin'] of a record listed by [get_all_cookies] and the
    whole value of the record give the same identity key. *)
Lemma all_row_pin (item : json) (cookie : CookieInfo) :
  all_row item = Ok (Some cookie) ->
  exists v pt_pin,
    cookie_value cookie = JStr v /\
    extract_pt_pin v = Some pt_pin /\
    extract_pt_pin (cookie_pt_pin cookie) = Some pt_pin.
Proof.
  intros Hrow. destruct (all_row_parts item cookie Hrow) as (v & part & Hv & Hf & Hp).
  exists v, (PyStr.replace "pt_pin=" "" (PyStr.strip part)).
  split; [exact Hv |]. split.
  - unfold extract_pt_pin. rewrite first_pt_pin_find, Hf. reflexivity.
  - apply find_some in Hf as [Hin Hc].
    rewrite Hp. unfold extract_pt_pin.
    rewrite split_whole by (apply strip_by_mem; exact (split_parts _ _ _ Hin)).
    cbn [first_pt_pin]. unfold PyStr.strip.
    rewrite (contains_strip_by PyStr.is_space "pt_pin=" part) by (discriminate || auto).
    rewrite strip_by_idem. reflexivity.
Qed.

(** X4: for every record that
    [get_all_cookies] lists, the identity key that [clean_panel] tests
    ([extract_pt_pin] of the stripped part kept under ['pt_pin']) is the
    identity key of the whole value the panel holds, and it is never
    [None]; the preservation test therefore decides as it would on the
    value. *)
Theorem listed_pin_is_the_pin_of_the_value (item : json) (cookie : CookieInfo) :
  all_row item = Ok (Some cookie) ->
  exists v pt_pin,
    cookie_value cookie = JStr v /\
    extract_pt_pin v = Some pt_pin /\
    extract_pt_pin (cookie_pt_pin cookie) = Some pt_pin /\
    forall CONFIG,
      should_preserve_cookie CONFIG (extract_pt_pin (cookie_pt_pin cookie)) =
      should_preserve_cookie CONFIG (extract_pt_pin v).
Proof.
  intros Hrow. destruct (all_row_pin item cookie Hrow) as (v & pt_pin & Hv & Hwhole & Hpart).
  exists v, pt_pin. split; [exact Hv |]. split; [exact Hwhole |]. split; [exact Hpart |].
  intros CONFIG. rewrite Hwhole, Hpart. reflexivity.
Qed.

Lemma listed_pin_is_the_pin_of_the_value_witness :
  exists v pt_pin,
    cookie_value {| cookie_id := JNum 7; cookie_value := JStr "pt_key=k; pt_pin=userA ;";
                    cookie_pt_pin := "pt_pin=userA"; cookie_status := JNum 1 |} = JStr v /\
    extract_pt_pin v = Some pt_pin /\
    extract_pt_pin "pt_pin=userA" = Some pt_pin /\
    forall CONFIG,
      should_preserve_cookie CONFIG (extract_pt_pin "pt_pin=userA") =
      should_preserve_cookie CONFIG (extract_pt_pin v).
Proof.
  apply (listed_pin_is_the_pin_of_the_value
           (JObj [("id", JNum 7); ("name", JStr "JD_COOKIE");
                  ("value", JStr "pt_key=k; pt_pin=userA ;")])).
  reflexivity.
Defined.

(* ================================================================== *)
(** ** The retries of [safe_request] *)
(* ================================================================== *)

Section Retrying.
Context {St : Type} `{Network St}.

Lemma safe_request_loop_cons (rq : request) (detail : string) (retries attempt : nat)
    (rest : list nat) :
  safe_request_loop rq detail retries (attempt :: rest) =
  try_except (attempt_request rq)
    (fun e =>
       let error_msg := request_error_msg e (rq_url rq) in
       if Nat.ltb attempt (retries - 1) then
         logger_warning ("⚠️ " +++ error_msg +++ "，正在重试 ("
                         +++ PyStr.of_nat (attempt + 1) +++ "/"
                         +++ PyStr.of_nat retries +++ ")") ;;;
         asyncio_sleep 1 ;;;
         safe_request_loop rq detail retries rest
       else
         logger_error ("❌ " +++ error_msg +++ " " +++ detail) ;;;
         raise e).
Proof. reflexivity. Qed.

(** What the rounds [k], [k+1], .. of the loop of [safe_request] do when
    at least one is left. *)
Lemma safe_request_loop_rounds (rq : request) (detail : string) (retries : nat) :
  forall left k (s : St), k + S left = retries ->
  let o := safe_request_loop rq detail retries (seq k (S left)) s in
  let evs := events_of o in
  1 <= length (filter is_http evs) <= S left /\
  length (filter is_sleep evs) + 1 = length (filter is_http evs) /\
  (forall e, In e evs -> e = Sleep 1 \/ is_log e = true \/ exists r, e = Http rq r) /\
  match value_of o with
  | Ok body =>
      exists pre, evs = pre ++ [Http rq (Reply body)] /\ filter is_reply pre = []
  | Raised e =>
      length (filter is_http evs) = S left /\ filter is_reply evs = [] /\
      exists pre r, evs = pre ++ [Http rq r; giving_up e rq detail] /\
                    exn_of_reply r = Some e
  end.
Proof.
  induction left as [| left IH]; intros k s Hk; cbn zeta.
  - (* the last round *)
    cbn [seq safe_request_loop].
    destruct (exchange rq s) as [r s1] eqn:Ex.
    destruct (reply_cases r) as [[body ->] | [e He]].
    + rewrite (try_ok _ _ _ _ _ _ (attempt_request_reply rq s s1 body Ex)). run_simpl.
      cbn. repeat split; try lia.
      * intros e [<- | []]. right. right. eauto.
      * exists []. split; reflexivity.
    + rewrite (try_raised _ _ _ _ _ _ (attempt_request_failure rq s s1 r e Ex He)).
      replace (Nat.ltb k (retries - 1)) with false
        by (symmetry; apply Nat.ltb_ge; lia).
      unfold logger_error. rewrite emit_then. unfold raise. run_simpl.
      fold (giving_up e rq detail).
      assert (Hr : is_reply (Http rq r) = false).
      { destruct r; try reflexivity. discriminate. }
      cbn [app filter is_http is_sleep giving_up length]. rewrite Hr.
      repeat split; try lia.
      * intros e' [<- | [<- | []]]; [right; right; eauto | right; left; reflexivity].
      * exists [], r. split; [reflexivity | exact He].
  - (* a round with more to come *)
    change (seq k (S (S left))) with (k :: seq (S k) (S left)).
    rewrite safe_request_loop_cons. cbn zeta.
    destruct (exchange rq s) as [r s1] eqn:Ex.
    destruct (reply_cases r) as [[body ->] | [e He]].
    + rewrite (try_ok _ _ _ _ _ _ (attempt_request_reply rq s s1 body Ex)). run_simpl.
      cbn. repeat split; try lia.
      * intros e [<- | []]. right. right. eauto.
      * exists []. split; reflexivity.
    + rewrite (try_raised _ _ _ _ _ _ (attempt_request_failure rq s s1 r e Ex He)).
      replace (Nat.ltb k (retries - 1)) with true
        by (symmetry; apply Nat.ltb_lt; lia).
      unfold logger_warning, asyncio_sleep. rewrite emit_then, emit_then. run_simpl.
      specialize (IH (S k) s1 ltac:(lia)). cbn zeta in IH.
      set (o := safe_request_loop rq detail retries (seq (S k) (S left)) s1) in *.
      destruct IH as (Hn & Hsl & Hall & Hval).
      assert (Hhttp : forall w l,
                 filter is_http (Http rq r :: Log WARNING w :: Sleep 1 :: l)
                 = Http rq r :: filter is_http l) by reflexivity.
      assert (Hsleep : forall w l,
                 filter is_sleep (Http rq r :: Log WARNING w :: Sleep 1 :: l)
                 = Sleep 1 :: filter is_sleep l) by reflexivity.
      assert (Hrep : forall w l,
                 filter is_reply (Http rq r :: Log WARNING w :: Sleep 1 :: l)
                 = filter is_reply l).
      { intros w l. destruct r; try reflexivity. discriminate. }
      cbn [app]. rewrite Hhttp, Hsleep. cbn [length].
      split; [lia |]. split; [lia |]. split.
      * intros e' [<- | [<- | [<- | Hin]]];
          [right; right; eauto | right; left; reflexivity | left; reflexivity | eauto].
      * destruct (value_of o) as [body | e2].
        -- destruct Hval as (pre & Hev & Hpre).
           eexists (Http rq r :: Log WARNING _ :: Sleep 1 :: pre).
           split; [rewrite Hev; reflexivity |]. rewrite Hrep. exact Hpre.
        -- destruct Hval as (Hlen & Hnone & pre & r2 & Hev & He2).
           split; [lia |]. split.
           ++ rewrite Hrep. exact Hnone.
           ++ eexists (Http rq r :: Log WARNING _ :: Sleep 1 :: pre), r2.
              split; [rewrite Hev; reflexivity | exact He2].
Qed.

End Retrying.

(** X5: [safe_request] with [retries=n].  With
    [n = 0] it returns [None] without sending anything.  With [n > 0] it
    makes between 1 and [n] attempts of the same request, sleeps one
    second between two attempts and not after the last, and emits
    nothing but these, warnings and one error.  It returns the body of
    the first attempt that is answered, which is then its last event;
    it raises only after [n] failed attempts, and what it raises is the
    exception of the last attempt, logged just before.  The
    [safe_request] of the callers is the case [n = 2]. *)
Theorem safe_request_attempts {St : Type} `{Network St} (retries : nat)
    (rq : request) (detail : string) (s : St) :
  let o := safe_request_retrying retries rq detail s in
  let evs := events_of o in
  (retries = 0 -> o = (Ok JNull, s, [])) /\
  (0 < retries ->
   1 <= length (filter is_http evs) <= retries /\
   length (filter is_sleep evs) + 1 = length (filter is_http evs) /\
   (forall e, In e evs -> e = Sleep 1 \/ is_log e = true \/ exists r, e = Http rq r) /\
   match value_of o with
   | Ok body =>
       exists pre, evs = pre ++ [Http rq (Reply body)] /\ filter is_reply pre = []
   | Raised e =>
       length (filter is_http evs) = retries /\ filter is_reply evs = [] /\
       exists pre r, evs = pre ++ [Http rq r; giving_up e rq detail] /\
                     exn_of_reply r = Some e
   end) /\
  safe_request rq detail = safe_request_retrying 2 rq detail.
Proof.
  cbn zeta. split; [| split].
  - intros ->. reflexivity.
  - intros Hpos. destruct retries as [| left]; [lia |].
    exact (safe_request_loop_rounds rq detail (S left) left 0 s eq_refl).
  - reflexivity.
Qed.

(* ================================================================== *)
(** ** More on the panel client *)
(* ================================================================== *)

Section TokenReuse.
Context {Net : Type} `{Network Net}.

Lemma safe_request_count (rq : request) (detail : string) (s : PanelTask Net) :
  1 <= length (filter is_http (events_of (safe_request rq detail s))) <= 2.
Proof.
  destruct (safe_request_cases rq detail s)
    as [(body & s1 & E1 & ->)
       | [(r1 & e1 & s1 & body & s2 & E1 & He1 & E2 & ->)
         | (r1 & e1 & s1 & r2 & e2 & s2 & E1 & He1 & E2 & He2 & ->)]];
    run_simpl; cbn; lia.
Qed.

Lemma safe_request_token (rq : request) (detail : string) (s : PanelTask Net) :
  token (self (state_of (safe_request rq detail s))) = token (self s).
Proof. rewrite safe_request_self. reflexivity. Qed.

(** X6: once a [_request] has returned, the
    client holds a token, and the next [_request] of the same object,
    whatever its method, endpoint and body, sends that request only (one
    or two attempts, under the token held): it does not ask for a token
    again, and the token stays the one held whatever the panel answers,
    a 401 included. *)
Theorem token_is_requested_once (meth1 meth2 : method) (endpoint1 endpoint2 : string)
    (body1 body2 : option json) (s : PanelTask Net) (answer : json) :
  value_of (_request meth1 endpoint1 body1 s) = Ok answer ->
  let s1 := state_of (_request meth1 endpoint1 body1 s) in
  let o := _request meth2 endpoint2 body2 s1 in
  Json.truthy (token (self s1)) = true /\
  token (self (state_of o)) = token (self s1) /\
  1 <= length (filter is_http (events_of o)) <= 2 /\
  forall rq r, In (Http rq r) (events_of o) ->
    rq = panel_request (url (self s)) meth2 endpoint2 (token (self s1)) body2.
Proof.
  intros Hok. cbn zeta.
  destruct (request_facts meth1 endpoint1 body1 s) as (Hurl & _ & Hheld & _).
  cbn zeta in Hurl, Hheld. specialize (Hheld answer Hok).
  set (s1 := state_of (_request meth1 endpoint1 body1 s)) in *.
  rewrite (request_held meth2 endpoint2 body2 s1 Hheld), Hurl.
  split; [exact Hheld |]. split; [apply safe_request_token |].
  split; [apply safe_request_count |].
  intros rq r Hin.
  destruct (safe_request_events
              (panel_request (url (self s)) meth2 endpoint2 (token (self s1)) body2)
              ("面板: " +++ name (self s1)) s1) as [Hrq _].
  exact (Hrq rq r Hin).
Qed.

End TokenReuse.

Lemma token_is_requested_once_witness :
  let s := {| self := new_QingLongAPI "http://p1:5700/" "id1" "sec1" "面板1";
              remote := Demo.secondary1 [QL.Healthy; QL.Healthy; QL.Status 401 "expired";
                                         QL.Status 401 "expired"] |} in
  let s1 := state_of (_request GET "/open/envs" None s) in
  let o := _request POST "/open/envs" (Some (JArr [])) s1 in
  Json.truthy (token (self s1)) = true /\
  token (self (state_of o)) = token (self s1) /\
  1 <= length (filter is_http (events_of o)) <= 2 /\
  forall rq r, In (Http rq r) (events_of o) ->
    rq = panel_request "http://p1:5700" POST "/open/envs" (token (self s1)) (Some (JArr [])).
Proof.
  eapply (token_is_requested_once GET POST "/open/envs" "/open/envs" None (Some (JArr []))
            {| self := new_QingLongAPI "http://p1:5700/" "id1" "sec1" "面板1";
               remote := Demo.secondary1 [QL.Healthy; QL.Healthy; QL.Status 401 "expired";
                                          QL.Status 401 "expired"] |}).
  vm_compute. reflexivity.
Defined.

Lemma envs_of_length (cookies_info : list CookieRemark) :
  length (envs_of cookies_info) = length cookies_info.
Proof. apply length_map. Qed.

Section AddOutcome.
Context {Net : Type} `{Network Net}.

(** X7: [add_cookies] never raises.  On an empty
    list it returns [(True, ..)] without sending anything, token or not.
    Otherwise it makes one [_request] that posts the list, and returns
    success exactly when that request returned an answer carrying
    [code == 200]; the message then counts the credentials posted; when
    the request raised (no token, transport failure after the retries),
    the message carries the text of the exception. *)
Theorem add_cookies_outcome (cookies_info : list CookieRemark) (s : PanelTask Net) :
  let r := _request POST "/open/envs" (Some (JArr (envs_of cookies_info))) s in
  (cookies_info = [] -> add_cookies cookies_info s = (Ok (true, "没有需要添加的Cookie"), s, [])) /\
  (cookies_info <> [] ->
   exists success message logs,
     add_cookies cookies_info s = (Ok (success, message), state_of r, events_of r ++ logs) /\
     (forall e, In e logs -> is_log e = true) /\
     success = match value_of r with
               | Ok answer => accepted (Reply answer)
               | Raised _ => false
               end /\
     (success = true ->
        message = "成功添加 " +++ PyStr.of_nat (length cookies_info) +++ " 个Cookie") /\
     (forall e, value_of r = Raised e -> message = "添加出错: " +++ exn_text e)).
Proof.
  cbn zeta. split; [intros ->; reflexivity |].
  intros Hne. destruct cookies_info as [| first more]; [contradiction |]. clear Hne.
  unfold add_cookies. rewrite self_bind. cbv iota.
  rewrite <- (envs_of_length (first :: more)).
  set (envs := envs_of (first :: more)).
  destruct (_request POST "/open/envs" (Some (JArr envs)) s)
    as [[[answer | e] s1] ev1] eqn:E; run_simpl; cbn [accepted].
  - destruct (Json.truthy answer) eqn:Ht.
    + destruct (py_get answer "code" JNull) as [code | e1] eqn:Ec.
      * destruct (Json.eq_int code 200) eqn:E200.
        -- eexists _, _, []. split.
           { apply try_ok. rewrite (bind_ok _ _ _ _ _ _ E), Ht.
             erewrite bind_ok.
             2:{ rewrite lift_bind, Ec. unfold ret. reflexivity. }
             rewrite E200. unfold ret. run_simpl. reflexivity. }
           split; [intros e [] |]. split; [reflexivity |].
           split; [reflexivity | discriminate].
        -- destruct (py_get answer "message" (JStr "未知错误")) as [msg | e2] eqn:Em.
           ++ eexists _, _, []. split.
              { apply try_ok. rewrite (bind_ok _ _ _ _ _ _ E), Ht.
                erewrite bind_ok.
                2:{ rewrite lift_bind, Ec. unfold ret. reflexivity. }
                rewrite E200, lift_bind, Em. unfold ret. run_simpl. reflexivity. }
              split; [intros e [] |]. split; [reflexivity |]. split; discriminate.
           ++ eexists _, _, [_]. split.
              { erewrite try_raised.
                2:{ rewrite (bind_ok _ _ _ _ _ _ E), Ht.
                    erewrite bind_ok.
                    2:{ rewrite lift_bind, Ec. unfold ret. reflexivity. }
                    rewrite E200, lift_bind, Em. run_simpl. reflexivity. }
                unfold logger_error. rewrite emit_then. unfold ret. run_simpl.
                rewrite !app_nil_r. reflexivity. }
              split; [intros e [<- | []]; reflexivity |].
              split; [reflexivity |]. split; discriminate.
      * eexists _, _, [_]. split.
        { erewrite try_raised.
          2:{ rewrite (bind_ok _ _ _ _ _ _ E), Ht.
              erewrite bind_raised.
              2:{ rewrite lift_bind, Ec. reflexivity. }
              run_simpl. reflexivity. }
          unfold logger_error. rewrite emit_then. unfold ret. run_simpl.
          rewrite !app_nil_r. reflexivity. }
        split; [intros e [<- | []]; reflexivity |].
        split; [reflexivity |]. split; discriminate.
    + assert (Hacc : match py_get answer "code" JNull with
                     | Ok code => Json.eq_int code 200
                     | Raised _ => false
                     end = false).
      { destruct answer as [| b | z | t | l | f]; try reflexivity.
        destruct f; [reflexivity | discriminate]. }
      rewrite Hacc.
      destruct (py_get answer "message" (JStr "未知错误")) as [msg | e2] eqn:Em.
      * eexists _, _, []. split.
        { apply try_ok. rewrite (bind_ok _ _ _ _ _ _ E), Ht.
          erewrite bind_ok.
          2:{ unfold ret. reflexivity. }
          cbv beta iota. rewrite lift_bind, Em. unfold ret. run_simpl. reflexivity. }
        split; [intros e [] |]. split; [reflexivity |]. split; discriminate.
      * eexists _, _, [_]. split.
        { erewrite try_raised.
          2:{ rewrite (bind_ok _ _ _ _ _ _ E), Ht.
              erewrite bind_ok.
              2:{ unfold ret. reflexivity. }
              cbv beta iota. rewrite lift_bind, Em. run_simpl. reflexivity. }
          unfold logger_error. rewrite emit_then. unfold ret. run_simpl.
          rewrite !app_nil_r. reflexivity. }
        split; [intros e [<- | []]; reflexivity |].
        split; [reflexivity |]. split; discriminate.
  - eexists _, _, [_]. split.
    { erewrite try_raised.
      2:{ apply bind_raised. exact E. }
      unfold logger_error. rewrite emit_then. unfold ret. run_simpl. reflexivity. }
    split; [intros e' [<- | []]; reflexivity |].
    split; [reflexivity |]. split; [discriminate |].
    intros e' He'. injection He' as <-. reflexivity.
Qed.

End AddOutcome.

Lemma split_cookies_unpreserved (CONFIG : Config) (cookies_info : list CookieInfo) :
  fst (split_cookies CONFIG cookies_info) = map cookie_id (unpreserved CONFIG cookies_info).
Proof.
  induction cookies_info as [| cookie rest IH]; [reflexivity |].
  cbn [split_cookies unpreserved filter]. fold (unpreserved CONFIG rest).
  destruct (split_cookies CONFIG rest) as [ids pins]. cbn [fst] in IH.
  destruct (should_preserve_cookie CONFIG (extract_pt_pin (cookie_pt_pin cookie)));
    cbn [negb fst map]; rewrite IH; reflexivity.
Qed.

Section CleanExactly.
Context {Net : Type} `{Network Net}.

(** X8: whatever the panel lists,
    [clean_panel] sends at most one delete call; its argument is the
    list of the ids of exactly the listed credentials whose identity key
    is not preserved, in the order listed, and no call is sent when
    there is none.  It never adds.  The count it reports is at most the
    number of these credentials and is 0 when it reports a failure. *)
Theorem clean_panel_deletes_the_unpreserved (CONFIG : Config) (s : PanelTask Net)
    (cookies_info : list CookieInfo) :
  value_of (get_all_cookies s) = Ok cookies_info ->
  let evs := events_of (clean_panel CONFIG s) in
  bodies DELETE evs =
    match unpreserved CONFIG cookies_info with
    | [] => []
    | doomed => [Some (JArr (map cookie_id doomed))]
    end /\
  bodies POST evs = [] /\
  exists r, value_of (clean_panel CONFIG s) = Ok r /\
    Clean.deleted_count r <= length (unpreserved CONFIG cookies_info) /\
    (Clean.success r = false -> Clean.deleted_count r = 0).
Proof.
  intros Hl. cbn zeta.
  assert (Hget : bodies DELETE (events_of (get_all_cookies s)) = []
                 /\ bodies POST (events_of (get_all_cookies s)) = []).
  { split; apply bodies_none; intros e He; apply (get_all_cookies_calls s e He). }
  destruct Hget as [HgetD HgetP].
  pose proof (split_cookies_unpreserved CONFIG cookies_info) as Hids.
  destruct cookies_info as [| c rest].
  - rewrite (clean_panel_empty CONFIG s Hl). run_simpl.
    cbn [unpreserved filter]. repeat split; try assumption.
    eexists. split; [reflexivity |]. cbn. split; [lia | discriminate].
  - destruct (unpreserved CONFIG (c :: rest)) as [| d doomed] eqn:Hun.
    + rewrite (clean_panel_nothing CONFIG s (c :: rest) Hl); [| discriminate | exact Hids].
      run_simpl. repeat split; try assumption.
      eexists. split; [reflexivity |]. cbn. split; [lia | discriminate].
    + cbn [map] in Hids.
      destruct (clean_panel_bodies CONFIG s (c :: rest) _ _ Hl Hids) as [HD HP].
      split; [exact HD |]. split; [exact HP |].
      destruct (clean_panel_delete CONFIG s (c :: rest) _ _ Hl Hids)
        as (m & logs & -> & _). run_simpl.
      eexists. split; [reflexivity |]. unfold clean_verdict.
      destruct (accepted _); cbn [Clean.deleted_count Clean.success length].
      * rewrite length_map. split; [lia | discriminate].
      * split; [lia | reflexivity].
Qed.

End CleanExactly.

Lemma clean_panel_deletes_the_unpreserved_witness :
  let CONFIG := Demo.config [Demo.panel1] ["pt_pin=userC;"] in
  let s := {| self := new_QingLongAPI "http://p1:5700/" "id1" "sec1" "面板1";
              remote := Demo.secondary1 [] |} in
  bodies DELETE (events_of (clean_panel CONFIG s)) = [Some (JArr [JNum 11])] /\
  bodies POST (events_of (clean_panel CONFIG s)) = [].
Proof.
  cbn zeta.
  pose proof (@clean_panel_deletes_the_unpreserved QL.Server QL_Network (Demo.config [Demo.panel1] ["pt_pin=userC;"])
      {| self := new_QingLongAPI "http://p1:5700/" "id1" "sec1" "面板1";
         remote := Demo.secondary1 [] |}
      [{| cookie_id := JNum 11; cookie_value := JStr "pt_key=oldA;pt_pin=userA;";
          cookie_pt_pin := "pt_pin=userA"; cookie_status := JNum 0 |};
       {| cookie_id := JNum 12; cookie_value := JStr "pt_key=keyC;pt_pin=userC;";
          cookie_pt_pin := "pt_pin=userC"; cookie_status := JNum 1 |}]
      ltac:(vm_compute; reflexivity)) as (HD & HP & _).
  split; [exact HD | exact HP].
Defined.

(* ================================================================== *)
(** ** More on the IP allowlist *)
(* ================================================================== *)

Section WhitelistOutcome.
Context {Net : Type} `{Network Net}.

Lemma safe_request_last (rq : request) (detail : string) (s : Process Net) (body : json) :
  value_of (safe_request rq detail s) = Ok body ->
  exists pre, events_of (safe_request rq detail s) = pre ++ [Http rq (Reply body)].
Proof.
  intros Hv. destruct (safe_request_events rq detail s) as [_ Hlast]. cbn zeta in Hlast.
  rewrite Hv in Hlast. destruct Hlast as (pre & Hev & _). eauto.
Qed.

(** X9: [manage_whitelist] never raises.  For
    an operation other than "list" it returns [True] or [False], and
    [True] only when the last exchange was answered with [ret == 200],
    which is then followed by one line of log.  An operation that is
    not in [service_map] sends nothing and gives [False].  Every
    exchange (at most two) is the same GET to [PROXY_API_URL], with the
    service of the operation and with the address under "white" exactly
    when one is given for "add" or "del".  The cache is not touched. *)
Theorem manage_whitelist_outcome (CONFIG : Config) (operation : string) (ip : json)
    (s : Process Net) :
  let o := manage_whitelist CONFIG operation ip s in
  let rq := {| rq_method := GET; rq_url := PROXY_API_URL CONFIG; rq_bearer := None;
               rq_params := whitelist_params CONFIG operation ip;
               rq_json := None; rq_form := []; rq_file := None |} in
  (exists v, value_of o = Ok v /\
     (String.eqb operation "list" = false ->
        exists b, v = JBool b /\
          (b = true -> exists pre body info,
             events_of o = pre ++ [Http rq (Reply body); Log INFO info] /\
             granted (Reply body) = true))) /\
  (service_map operation = None ->
     o = (Ok (JBool false), s, [Log ERROR ("❌ 未知的白名单操作: " +++ operation)])) /\
  (forall rq' r, In (Http rq' r) (events_of o) -> rq' = rq) /\
  length (filter is_http (events_of o)) <= 2 /\
  redis (state_of o) = redis s.
Proof.
  cbn zeta. unfold manage_whitelist, whitelist_params.
  destruct (service_map operation) as [service |] eqn:Hmap.
  2:{ assert (Hlist : String.eqb operation "list" = false).
      { unfold service_map in Hmap.
        destruct (String.eqb operation "add"); [discriminate |].
        destruct (String.eqb operation "del"); [discriminate |].
        destruct (String.eqb operation "list"); [discriminate | reflexivity]. }
      unfold whitelist_failure. rewrite Hlist.
      unfold logger_error. rewrite emit_then. unfold ret. run_simpl.
      split; [| split; [reflexivity | split; [| split; [cbn; lia | reflexivity]]]].
      - eexists. split; [reflexivity |]. intros _. exists false.
        split; [reflexivity | discriminate].
      - intros rq' r [Hin | []]. discriminate. }
  set (params := if Json.truthy ip && _ then _ else _).
  set (rq := {| rq_method := GET; rq_url := PROXY_API_URL CONFIG; rq_bearer := None;
                rq_params := params; rq_json := None; rq_form := []; rq_file := None |}).
  pose proof (safe_request_redis rq "" s) as Hredis.
  destruct (safe_request_events rq "" s) as [Hto _].
  pose proof (safe_request_last rq "" s) as Hlast.
  assert (Hcount : length (filter is_http (events_of (safe_request rq "" s))) <= 2).
  { destruct (safe_request_cases rq "" s)
      as [(body & s1 & E1 & ->)
         | [(r1 & e1 & s1 & body & s2 & E1 & He1 & E2 & ->)
           | (r1 & e1 & s1 & r2 & e2 & s2 & E1 & He1 & E2 & He2 & ->)]];
      run_simpl; cbn; lia. }
  destruct (safe_request rq "" s) as [[[result | e] s1] ev1] eqn:E;
    unfold state_of, events_of, value_of in Hredis, Hto, Hlast, Hcount;
    cbn [fst snd] in Hredis, Hto, Hlast, Hcount.
  - destruct (Hlast result eq_refl) as [pre Hpre].
    destruct (py_get result "ret" JNull) as [code | e1] eqn:Ec.
    + destruct (Json.eq_int code 200) eqn:E200.
      * destruct (String.eqb operation "list") eqn:Hlist.
        -- destruct (py_get result "data" (JArr [])) as [data | e2] eqn:Ed.
           ++ erewrite try_ok.
              2:{ rewrite (bind_ok _ _ _ _ _ _ E), lift_bind, Ec, E200. unfold lift.
                  run_simpl. rewrite Ed, app_nil_r. reflexivity. }
              run_simpl. split; [eexists; split; [reflexivity | discriminate] |].
              split; [discriminate |]. split; [exact Hto |]. split; [exact Hcount | exact Hredis].
           ++ destruct result; try discriminate.
        -- erewrite try_ok.
           2:{ rewrite (bind_ok _ _ _ _ _ _ E), lift_bind, Ec, E200.
               unfold logger_info. rewrite emit_then. unfold ret. run_simpl. reflexivity. }
           split.
           { run_simpl. eexists. split; [reflexivity |]. intros _. exists true.
             split; [reflexivity |]. intros _. exists pre, result. eexists.
             split; [rewrite Hpre, <- app_assoc; reflexivity |].
             cbn [granted]. rewrite Ec. exact E200. }
           split; [discriminate |]. run_simpl. split; [| split; [| exact Hredis]].
           { intros rq' r Hin. apply in_app_or in Hin.
             destruct Hin as [Hin | [Hin | []]]; [eauto | discriminate]. }
           rewrite filter_app, length_app. cbn [filter is_http length]. lia.
      * unfold whitelist_failure.
        destruct (py_get result "msg" (JStr "未知错误")) as [msg | e2] eqn:Em.
        -- erewrite try_ok.
           2:{ rewrite (bind_ok _ _ _ _ _ _ E), lift_bind, Ec, E200.
               rewrite lift_bind, Em. unfold logger_error. rewrite emit_then.
               unfold ret. run_simpl. reflexivity. }
           split.
           { run_simpl. eexists. split; [reflexivity |]. intros ->. exists false.
             split; [reflexivity | discriminate]. }
           split; [discriminate |]. run_simpl. split; [| split; [| exact Hredis]].
           { intros rq' r Hin. apply in_app_or in Hin.
             destruct Hin as [Hin | [Hin | []]]; [eauto | discriminate]. }
           rewrite filter_app, length_app. cbn [filter is_http length]. lia.
        -- destruct result; discriminate.
    + unfold whitelist_failure. erewrite try_raised.
      2:{ rewrite (bind_ok _ _ _ _ _ _ E), lift_bind, Ec. run_simpl. reflexivity. }
      unfold logger_error. rewrite emit_then. unfold ret. run_simpl.
      rewrite !app_nil_r.
      split.
      { eexists. split; [reflexivity |]. intros ->. exists false.
        split; [reflexivity | discriminate]. }
      split; [discriminate |]. run_simpl. split; [| split; [| exact Hredis]].
           { intros rq' r Hin. apply in_app_or in Hin.
             destruct Hin as [Hin | [Hin | []]]; [eauto | discriminate]. }
           rewrite filter_app, length_app. cbn [filter is_http length]. lia.
  - unfold whitelist_failure. erewrite try_raised.
    2:{ apply bind_raised. exact E. }
    unfold logger_error. rewrite emit_then. unfold ret. run_simpl.
    split.
    { eexists. split; [reflexivity |]. intros ->. exists false.
      split; [reflexivity | discriminate]. }
    split; [discriminate |]. run_simpl. split; [| split; [| exact Hredis]].
           { intros rq' r Hin. apply in_app_or in Hin.
             destruct Hin as [Hin | [Hin | []]]; [eauto | discriminate]. }
           rewrite filter_app, length_app. cbn [filter is_http length]. lia.
Qed.

End WhitelistOutcome.

Section QuietCheck.
Context {Net : Type} `{Network Net}.

(** X10: when the address cannot be observed,
    or is the one the cache holds, [update_ip_whitelist] does nothing
    but ask the echo service and log one line: no request to the
    allowlist service, no write to the cache, no notification. *)
Theorem update_ip_whitelist_quiet (CONFIG : Config) (readable : string -> bool)
    (s : Process Net) (current_ip : json) :
  value_of (get_current_ip s) = Ok current_ip ->
  Json.truthy current_ip = false \/
  same_ip current_ip (lookup (CURRENT_IP_KEY CONFIG) (redis s)) = true ->
  let detect := get_current_ip s in
  let o := update_ip_whitelist CONFIG readable s in
  o = (Ok tt, state_of detect,
       Log INFO "🔄 开始检查 IP 白名单" :: events_of detect
       ++ [if Json.truthy current_ip then Log INFO "ℹ️ IP 未变动"
           else Log WARNING "⚠️ 获取当前IP失败"]) /\
  redis (state_of o) = redis s /\
  filter is_cache_write (events_of o) = [] /\
  (forall rq r, In (Http rq r) (events_of o) -> rq = ip_request).
Proof.
  intros Hip Hquiet. cbn zeta.
  destruct (get_current_ip_facts s) as (_ & Hredis1 & Hnw1 & Hrq1). cbn zeta in *.
  destruct (get_current_ip s) as [[r1 s1] ev1] eqn:E1.
  unfold value_of in Hip; cbn [fst snd] in Hip. subst r1. run_simpl.
  unfold state_of in Hredis1; unfold events_of in Hnw1, Hrq1;
    cbn [fst snd] in Hredis1, Hnw1, Hrq1.
  assert (Hrun : update_ip_whitelist CONFIG readable s =
                 (Ok tt, s1,
                  Log INFO "🔄 开始检查 IP 白名单" :: ev1
                  ++ [if Json.truthy current_ip then Log INFO "ℹ️ IP 未变动"
                      else Log WARNING "⚠️ 获取当前IP失败"])).
  { unfold update_ip_whitelist. apply try_ok.
    change (Log INFO "🔄 开始检查 IP 白名单" :: ?l)
      with ([Log INFO "🔄 开始检查 IP 白名单"] ++ l).
    eapply bind_to; [reflexivity |]. cbv beta.
    eapply bind_to; [exact E1 |]. cbv beta.
    destruct (Json.truthy current_ip) eqn:Ht; cbn [negb]; [| reflexivity].
    destruct Hquiet as [Hf | Hsame]; [discriminate |].
    change [Log INFO "ℹ️ IP 未变动"] with ([] ++ [Log INFO "ℹ️ IP 未变动"]).
    eapply bind_to; [reflexivity |]. cbv beta.
    rewrite Hredis1, Hsame. reflexivity. }
  rewrite Hrun. run_simpl. split; [reflexivity |]. split; [exact Hredis1 |]. split.
  - apply filter_none. intros e [<- | He]; [reflexivity |].
    apply in_app_or in He. destruct He as [He | [<- | []]]; [auto |].
    destruct (Json.truthy current_ip); reflexivity.
  - intros rq r [Hin | Hin]; [discriminate |].
    apply in_app_or in Hin. destruct Hin as [Hin | [Hin | []]]; [eauto |].
    destruct (Json.truthy current_ip); discriminate.
Qed.

End QuietCheck.

Lemma update_ip_whitelist_quiet_witness :
  let s := {| net := [Reply (JStr "10.0.0.1")]; redis := [("current_ip", "10.0.0.1")] |} in
  let o := update_ip_whitelist (Demo.config [] []) Demo.no_files s in
  redis (state_of o) = redis s /\
  events_of o = [Log INFO "🔄 开始检查 IP 白名单";
                 Http ip_request (Reply (JStr "10.0.0.1"));
                 Log INFO "ℹ️ IP 未变动"].
Proof.
  cbn zeta.
  destruct (@update_ip_whitelist_quiet Scripted Scripted_Network (Demo.config [] [])
              Demo.no_files
              {| net := [Reply (JStr "10.0.0.1")]; redis := [("current_ip", "10.0.0.1")] |}
              (JStr "10.0.0.1") eq_refl (or_intror eq_refl)) as (Hrun & Hredis & _).
  split; [exact Hredis | exact (f_equal events_of Hrun)].
Defined.

(* ================================================================== *)
(** ** The listing of enabled credentials without annotations *)
(* ================================================================== *)

Lemma py_get_dict (item : json) (k : string) (d v : json) :
  py_get item k d = Ok v -> exists f, item = JObj f.
Proof. destruct item; cbn; intros Heq; try discriminate. eauto. Qed.

Lemma enabled_value_row (item : json) :
  enabled_value item = rmap (option_map ck_value) (enabled_row item).
Proof.
  unfold enabled_value, enabled_row.
  destruct (py_get item "status" JNull) as [st | e] eqn:Es; cbn [rbind rmap]; [| reflexivity].
  apply py_get_dict in Es as [f ->].
  destruct (if Json.eq_int st 0 then _ else _) as [[|] | e]; cbn [rbind rmap]; try reflexivity.
  destruct (py_get (JObj f) "value" (JStr "")) as [value | e]; cbn [rbind rmap];
    [| reflexivity].
  destruct (py_split value) as [parts | e]; cbn [rbind rmap]; [| reflexivity].
  destruct (PyStr.nonempty _ && PyStr.nonempty _); reflexivity.
Qed.

Lemma collect_enabled_values (items : list json) :
  collect enabled_value items = rmap (map ck_value) (collect enabled_row items).
Proof.
  induction items as [| item rest IH]; [reflexivity |].
  cbn [collect]. rewrite enabled_value_row, IH.
  destruct (enabled_row item) as [[c |] | e]; cbn [rbind rmap option_map]; try reflexivity;
    destruct (collect enabled_row rest); reflexivity.
Qed.

Lemma listed_values_enabled (answer : json) :
  listed_values answer = rmap (map ck_value) (listed_enabled answer).
Proof.
  unfold listed_values, listed_enabled.
  destruct (py_get answer "data" (JArr [])) as [data | e]; cbn [rbind rmap]; [| reflexivity].
  destruct (py_iter data) as [items | e]; cbn [rbind rmap]; [| reflexivity].
  apply collect_enabled_values.
Qed.

Section ListingRuns.
Context {Net : Type} `{Network Net}.

Lemma get_enabled_cookies_run (s : PanelTask Net) :
  let r := _request GET "/open/envs" None s in
  get_enabled_cookies s =
  match value_of r with
  | Ok answer =>
      match listed_values answer with
      | Ok cookies => (Ok cookies, state_of r, events_of r)
      | Raised e => (Ok [], state_of r, events_of r ++ [values_failed (self s) e])
      end
  | Raised e => (Ok [], state_of r, events_of r ++ [values_failed (self s) e])
  end.
Proof.
  cbn zeta. unfold get_enabled_cookies. rewrite self_bind.
  destruct (_request GET "/open/envs" None s) as [[[answer | e] s1] ev1] eqn:E; run_simpl.
  - unfold listed_values.
    destruct (py_get answer "data" (JArr [])) as [data | e1] eqn:Ed; cbn [rbind].
    + destruct (py_iter data) as [items | e2] eqn:Ei; cbn [rbind].
      * destruct (collect enabled_value items) as [infos | e3] eqn:Ec.
        -- apply try_ok. rewrite (bind_ok _ _ _ _ _ _ E), lift_bind, Ed, lift_bind, Ei.
           unfold lift. run_simpl. rewrite Ec, app_nil_r. reflexivity.
        -- erewrite try_raised.
           2:{ rewrite (bind_ok _ _ _ _ _ _ E), lift_bind, Ed, lift_bind, Ei.
               unfold lift. run_simpl. rewrite Ec, app_nil_r. reflexivity. }
           unfold logger_error. rewrite emit_then. unfold ret. run_simpl. reflexivity.
      * erewrite try_raised.
        2:{ rewrite (bind_ok _ _ _ _ _ _ E), lift_bind, Ed, lift_bind, Ei.
            run_simpl. rewrite app_nil_r. reflexivity. }
        unfold logger_error. rewrite emit_then. unfold ret. run_simpl. reflexivity.
    + erewrite try_raised.
      2:{ rewrite (bind_ok _ _ _ _ _ _ E), lift_bind, Ed. run_simpl.
          rewrite app_nil_r. reflexivity. }
      unfold logger_error. rewrite emit_then. unfold ret. run_simpl. reflexivity.
  - erewrite try_raised.
    2:{ apply bind_raised. exact E. }
    unfold logger_error. rewrite emit_then. unfold ret. run_simpl. reflexivity.
Qed.

(** X11: on the same panel in
    the same state, [get_enabled_cookies] returns the values of the
    credentials [get_enabled_cookies_with_remarks] returns, in the same
    order, after the same exchanges and leaving the same state; neither
    raises. *)
Theorem get_enabled_cookies_agrees_with_remarks (s : PanelTask Net) :
  let plain := get_enabled_cookies s in
  let annotated := get_enabled_cookies_with_remarks s in
  exists cookies_info,
    value_of annotated = Ok cookies_info /\
    value_of plain = Ok (map ck_value cookies_info) /\
    state_of plain = state_of annotated /\
    filter is_http (events_of plain) = filter is_http (events_of annotated).
Proof.
  cbn zeta. rewrite get_enabled_cookies_run, get_enabled_cookies_with_remarks_run. cbn zeta.
  assert (Hlog : forall (evs : list event) (l : event),
             is_log l = true -> filter is_http (evs ++ [l]) = filter is_http evs).
  { intros evs l Hl. rewrite filter_app. destruct l; try discriminate.
    cbn. apply app_nil_r. }
  destruct (value_of (_request GET "/open/envs" None s)) as [answer | e].
  - rewrite listed_values_enabled.
    destruct (listed_enabled answer) as [cookies_info | e]; cbn [rmap]; run_simpl.
    + exists cookies_info. repeat split; reflexivity.
    + exists []. rewrite !Hlog by reflexivity. repeat split; reflexivity.
  - run_simpl. exists []. rewrite !Hlog by reflexivity. repeat split; reflexivity.
Qed.

End ListingRuns.

Lemma nonempty_inv (s : string) : PyStr.nonempty s = true -> s <> "".
Proof. destruct s; [discriminate | intros _; discriminate]. Qed.

Lemma contains_nonempty (sub s : string) :
  sub <> "" -> PyStr.contains sub s = true -> s <> "".
Proof.
  intros Hne Hc ->. rewrite contains_nil in Hc. destruct sub; [contradiction | discriminate].
Qed.

(** What a credential listed by [get_enabled_cookies_with_remarks] is
    made of: two parts of the value the panel holds, stripped. *)
Lemma enabled_row_parts (item : json) (cookie : CookieRemark) :
  enabled_row item = Ok (Some cookie) ->
  exists key pin,
    ck_value cookie = key +++ ";" +++ pin +++ ";" /\
    PyStr.contains "pt_key=" key = true /\ PyStr.contains "pt_pin=" pin = true /\
    PyStr.mem_char ";" key = false /\ PyStr.mem_char ";" pin = false /\
    PyStr.strip key = key /\ PyStr.strip pin = pin.
Proof.
  unfold enabled_row. intros Hrow.
  destruct (py_get item "status" JNull) as [st |]; cbn [rbind] in Hrow; [| discriminate].
  destruct (if Json.eq_int st 0 then _ else _) as [[|] |]; cbn [rbind] in Hrow;
    try discriminate.
  destruct (py_get item "value" (JStr "")) as [value |]; cbn [rbind] in Hrow; [| discriminate].
  destruct (py_split value) as [parts |] eqn:Es; cbn [rbind] in Hrow; [| discriminate].
  apply py_split_text in Es as (v & -> & ->).
  rewrite !(next_where_find (fun p => p)) in Hrow.
  destruct (find (PyStr.contains "pt_key=") (PyStr.split ";" v)) as [key |] eqn:Ek;
    [| discriminate].
  destruct (find (PyStr.contains "pt_pin=") (PyStr.split ";" v)) as [pin |] eqn:Ep;
    [| rewrite andb_false_r in Hrow; discriminate].
  destruct (PyStr.nonempty key && PyStr.nonempty pin); [| discriminate].
  destruct (py_get item "remarks" (JStr "")) as [rem |]; cbn [rbind] in Hrow; [| discriminate].
  injection Hrow as <-. cbn [ck_value].
  apply find_some in Ek as [Hkin Hk]. apply find_some in Ep as [Hpin Hp].
  exists (PyStr.strip key), (PyStr.strip pin). unfold PyStr.strip.
  split; [reflexivity |].
  split; [apply contains_strip_by; (discriminate || auto) |].
  split; [apply contains_strip_by; (discriminate || auto) |].
  split; [apply strip_by_mem; exact (split_parts _ _ _ Hkin) |].
  split; [apply strip_by_mem; exact (split_parts _ _ _ Hpin) |].
  split; apply strip_by_idem.
Qed.

(** X12: a credential that
    [get_enabled_cookies_with_remarks] lists has the form
    "key;pin;" (three parts, the last one empty).  Held by a panel as a
    "JD_COOKIE" record, whatever its id and status, it is listed by
    [get_all_cookies] with that value, and the identity key
    [clean_panel] then tests is the one of the value, never [None]: what
    a pass adds, the next cleaning sees. *)
Theorem added_credentials_are_listed (item : json) (cookie : CookieRemark)
    (id status : json) :
  enabled_row item = Ok (Some cookie) ->
  let posted := JObj [("id", id); ("name", JStr "JD_COOKIE");
                      ("value", JStr (ck_value cookie));
                      ("remarks", ck_remarks cookie); ("status", status)] in
  (exists pt_pin,
     all_row posted = Ok (Some {| cookie_id := id; cookie_value := JStr (ck_value cookie);
                                  cookie_pt_pin := pt_pin; cookie_status := status |}) /\
     extract_pt_pin pt_pin = extract_pt_pin (ck_value cookie)) /\
  extract_pt_pin (ck_value cookie) <> None /\
  exists key pin, PyStr.split ";" (ck_value cookie) = [key; pin; ""].
Proof.
  intros Hrow. cbn zeta.
  destruct (enabled_row_parts item cookie Hrow)
    as (key & pin & Hv & Hk & Hp & Hksep & Hpsep & Hks & Hps).
  assert (Hsplit : PyStr.split ";" (ck_value cookie) = [key; pin; ""]).
  { rewrite Hv.
    change (key +++ ";" +++ pin +++ ";") with (key +++ String ";" (pin +++ String ";" "")).
    rewrite (split_append ";" key _ Hksep), (split_append ";" pin _ Hpsep). reflexivity. }
  assert (Hrel : exists pt_pin,
             all_row (JObj [("id", id); ("name", JStr "JD_COOKIE");
                            ("value", JStr (ck_value cookie));
                            ("remarks", ck_remarks cookie); ("status", status)])
             = Ok (Some {| cookie_id := id; cookie_value := JStr (ck_value cookie);
                           cookie_pt_pin := pt_pin; cookie_status := status |})).
  { unfold all_row. cbn [py_get Json.assoc String.eqb Ascii.eqb Bool.eqb rbind Json.eq_str
                         py_split].
    rewrite Hsplit. cbn [PyStr.next_where]. rewrite Hk.
    assert (Hkne : PyStr.nonempty key = true).
    { apply nonempty_true. apply (contains_nonempty "pt_key="); [discriminate | exact Hk]. }
    assert (Hpne : PyStr.nonempty (PyStr.strip pin) = true).
    { rewrite Hps. apply nonempty_true.
      apply (contains_nonempty "pt_pin="); [discriminate | exact Hp]. }
    assert (Hid : item_id (JObj [("id", id); ("name", JStr "JD_COOKIE");
                                 ("value", JStr (ck_value cookie));
                                 ("remarks", ck_remarks cookie); ("status", status)])
                  = Ok id).
    { unfold item_id. cbn. reflexivity. }
    destruct (PyStr.contains "pt_pin=" key) eqn:Hkp.
    - rewrite Hks, Hkne. cbn [andb]. rewrite Hid. cbn [rbind]. eauto.
    - rewrite Hp, Hkne, Hpne. cbn [andb]. rewrite Hid. cbn [rbind]. eauto. }
  destruct Hrel as [pt_pin Hrel].
  destruct (all_row_pin _ _ Hrel) as (v & pin' & Hv' & He1 & He2).
  cbn [cookie_value cookie_pt_pin] in Hv', He2. injection Hv' as <-.
  split; [| split].
  - exists pt_pin. split; [exact Hrel |]. congruence.
  - congruence.
  - eauto.
Qed.

Lemma added_credentials_are_listed_witness :
  let cookie := {| ck_value := "pt_key=newA;pt_pin=userA;"; ck_remarks := JStr "x" |} in
  (exists pt_pin,
     all_row (JObj [("id", JNum 100); ("name", JStr "JD_COOKIE");
                    ("value", JStr (ck_value cookie));
                    ("remarks", ck_remarks cookie); ("status", JNum 0)])
     = Ok (Some {| cookie_id := JNum 100; cookie_value := JStr (ck_value cookie);
                   cookie_pt_pin := pt_pin; cookie_status := JNum 0 |}) /\
     extract_pt_pin pt_pin = extract_pt_pin (ck_value cookie)) /\
  extract_pt_pin (ck_value cookie) <> None /\
  exists key pin, PyStr.split ";" (ck_value cookie) = [key; pin; ""].
Proof.
  apply (added_credentials_are_listed
           (QL.render (Demo.env 1 " pt_key=newA ; pt_pin=userA ;" "x" 0))
           {| ck_value := "pt_key=newA;pt_pin=userA;"; ck_remarks := JStr "x" |}
           (JNum 100) (JNum 0)).
  reflexivity.
Defined.

(* ================================================================== *)
(** ** The primary panel during a pass *)
(* ================================================================== *)

Section PrimaryUntouched.
Context {Net : Type} `{Network Net} `{!PanelContract Net}.

Lemma request_get_records (endpoint : string) (s : PanelTask Net) :
  records (remote (state_of (_request GET endpoint None s))) = records (remote s).
Proof.
  destruct (request_run GET endpoint None s) as [tok [_ ->]].
  destruct (Json.truthy tok); cbn zeta; run_simpl.
  - rewrite safe_request_get_records by reflexivity. apply get_token_records.
  - apply get_token_records.
Qed.

Lemma get_enabled_cookies_with_remarks_records (s : PanelTask Net) :
  records (remote (state_of (get_enabled_cookies_with_remarks s))) = records (remote s).
Proof.
  rewrite get_enabled_cookies_with_remarks_run. cbn zeta.
  destruct (value_of (_request GET "/open/envs" None s)) as [answer | e].
  - destruct (listed_enabled answer); run_simpl; apply request_get_records.
  - run_simpl. apply request_get_records.
Qed.

Lemma sync_primary (CONFIG : Config) (readable : string -> bool) (w : World Net) :
  primary (final (sync_ck_to_panels CONFIG readable w)) =
  remote (state_of (get_enabled_cookies_with_remarks (main_task CONFIG w))).
Proof.
  destruct (get_enabled_cookies_with_remarks_total (main_task CONFIG w)) as [main Hmain].
  destruct main as [| first more].
  - rewrite (sync_aborted CONFIG readable w Hmain). reflexivity.
  - destruct (sync_completed CONFIG readable w first more Hmain)
      as (_ & _ & _ & _ & _ & _ & _ & Hp & _). exact Hp.
Qed.

(** X13: a pass sends the primary panel
    nothing but the request for a token and the listing (GET): no
    delete and no add, in the events of the listing as in all the
    events the pass itself emits.  On a panel that honours the
    interface contract, the primary therefore holds after the pass the
    records it held before. *)
Theorem sync_only_reads_the_primary (CONFIG : Config) (readable : string -> bool)
    (w : World Net) :
  let run := sync_ck_to_panels CONFIG readable w in
  let fetch := get_enabled_cookies_with_remarks (main_task CONFIG w) in
  primary (final run) = remote (state_of fetch) /\
  records (primary (final run)) = records (primary w) /\
  (forall e, In e (events_of fetch ++ before run ++ between run ++ after run) ->
     is_call DELETE e = false /\ is_call POST e = false) /\
  (forall rq r, In (Http rq r) (events_of fetch) ->
     rq = token_request (self (main_task CONFIG w)) \/
     exists tok, rq = panel_request (url (self (main_task CONFIG w))) GET "/open/envs"
                        tok None).
Proof.
  cbn zeta. split; [apply sync_primary |]. split; [| split].
  - rewrite sync_primary, get_enabled_cookies_with_remarks_records. reflexivity.
  - assert (Hfetch : forall e,
               In e (events_of (get_enabled_cookies_with_remarks (main_task CONFIG w))) ->
               is_call DELETE e = false /\ is_call POST e = false).
    { intros e He. exact (get_enabled_cookies_with_remarks_calls _ e He). }
    assert (Hlog : forall e, is_log e = true ->
                             is_call DELETE e = false /\ is_call POST e = false).
    { intros e He. destruct e; try discriminate. split; reflexivity. }
    destruct (get_enabled_cookies_with_remarks_total (main_task CONFIG w)) as [main Hmain].
    intros e He. apply in_app_or in He. destruct He as [He | He]; [auto |].
    destruct main as [| first more].
    + rewrite (sync_aborted CONFIG readable w Hmain) in He. cbn [before between after] in He.
      rewrite !app_nil_r in He.
      destruct He as [<- | He]; [split; reflexivity |].
      apply in_app_or in He. destruct He as [He | [<- | []]]; [auto | split; reflexivity].
    + destruct (sync_completed CONFIG readable w first more Hmain)
        as (Hb & _ & Hm & _ & Ha & _). cbn zeta in Hb, Hm, Ha.
      rewrite Hb, Hm, Ha in He.
      destruct He as [<- | He]; [split; reflexivity |].
      apply in_app_or in He. destruct He as [He | He].
      * apply in_app_or in He. destruct He as [He | [<- | []]]; [auto | split; reflexivity].
      * destruct He as [<- | [<- | []]]; split; reflexivity.
  - intros rq r Hin. rewrite get_enabled_cookies_with_remarks_run in Hin. cbn zeta in Hin.
    destruct (request_facts GET "/open/envs" None (main_task CONFIG w)) as (_ & _ & _ & Hrq).
    cbn zeta in Hrq.
    assert (Hin' : In (Http rq r) (events_of (_request GET "/open/envs" None
                                                 (main_task CONFIG w)))).
    { destruct (value_of (_request GET "/open/envs" None (main_task CONFIG w)))
        as [answer | e].
      - destruct (listed_enabled answer); run_simpl_in Hin; [exact Hin |].
        apply in_app_or in Hin. destruct Hin as [Hin | [Hin | []]];
          [exact Hin | discriminate].
      - run_simpl_in Hin. apply in_app_or in Hin.
        destruct Hin as [Hin | [Hin | []]]; [exact Hin | discriminate]. }
    destruct (Hrq rq r Hin') as [-> | (tok & _ & ->)]; [left; reflexivity | right; eauto].
Qed.

End PrimaryUntouched.

(* ================================================================== *)
(** ** The limits of the daily scheduler *)
(* ================================================================== *)

(** The four ways the first lines of the loop body end. *)
Lemma next_run_of_cases (h m : Z) (now : datetime) :
  Datetime.valid now ->
  let today := {| ordinal := ordinal now; hour := h; minute := m;
                  second := 0; microsecond := 0 |} in
  let tomorrow := {| ordinal := ordinal now + 1; hour := h; minute := m;
                     second := 0; microsecond := 0 |} in
  next_run_of h m now =
    if negb ((0 <=? h)%Z && (h <=? 23)%Z) then
      Raised (Exn ValueError "hour must be in 0..23")
    else if negb ((0 <=? m)%Z && (m <=? 59)%Z) then
      Raised (Exn ValueError "minute must be in 0..59")
    else if Datetime.lt today now then
      if (ordinal now =? Datetime.MAXORDINAL)%Z
      then Raised (Exn OverflowError "date value out of range")
      else Ok (tomorrow, Datetime.sub_micros tomorrow now)
    else Ok (today, Datetime.sub_micros today now).
Proof.
  intros Vnow. cbn zeta. unfold next_run_of, Datetime.replace.
  destruct ((0 <=? h)%Z && (h <=? 23)%Z); cbn [negb rbind]; [| reflexivity].
  destruct ((0 <=? m)%Z && (m <=? 59)%Z); cbn [negb rbind]; [| reflexivity].
  destruct (Datetime.lt _ now); cbn [rbind]; [| reflexivity].
  unfold Datetime.add_days. cbn [ordinal hour minute second microsecond].
  unfold Datetime.valid in Vnow. destruct Vnow as [[Hlo Hhi] _].
  destruct (Z.eqb_spec (ordinal now) Datetime.MAXORDINAL) as [Heq | Hne].
  - replace ((1 <=? ordinal now + 1)%Z && (ordinal now + 1 <=? Datetime.MAXORDINAL)%Z)
      with false; [reflexivity |].
    symmetry. apply andb_false_iff. right. apply Z.leb_gt. lia.
  - replace ((1 <=? ordinal now + 1)%Z && (ordinal now + 1 <=? Datetime.MAXORDINAL)%Z)
      with true; [reflexivity |].
    symmetry. apply andb_true_intro. split; apply Z.leb_le; lia.
Qed.

(** X14: the first lines of the loop
    body of [schedule_daily_task] compute a next run unless the hour or
    the minute is out of range ([replace] raises [ValueError]) or the
    clock reads the last day of the calendar after the target time
    ([+ timedelta(days=1)] raises [OverflowError]); these are the only
    exceptions, and each is raised in exactly that case. *)
Theorem next_run_of_fails_exactly_when (h m : Z) (now : datetime) :
  Datetime.valid now ->
  let today := {| ordinal := ordinal now; hour := h; minute := m;
                  second := 0; microsecond := 0 |} in
  let in_range := (0 <= h <= 23)%Z /\ (0 <= m <= 59)%Z in
  let no_tomorrow := ordinal now = Datetime.MAXORDINAL /\ Datetime.lt today now = true in
  ((exists next_run wait, next_run_of h m now = Ok (next_run, wait)) <->
   in_range /\ ~ no_tomorrow) /\
  (forall e, next_run_of h m now = Raised e ->
     (exn_class_of e = ValueError <-> ~ in_range) /\
     (exn_class_of e = OverflowError <-> in_range /\ no_tomorrow)).
Proof.
  intros Vnow. cbn zeta. rewrite (next_run_of_cases h m now Vnow). cbn zeta.
  destruct (Z.leb_spec 0 h), (Z.leb_spec h 23); cbn [andb negb];
    try (split; [split; [intros (? & ? & Heq); discriminate | intros [[? ?] _]; lia]
                | intros e Heq; injection Heq as <-; cbn [exn_class_of];
                  split; split; try (intros; lia); try discriminate; try reflexivity;
                  intros [[? ?] _]; lia]).
  destruct (Z.leb_spec 0 m), (Z.leb_spec m 59); cbn [andb negb];
    try (split; [split; [intros (? & ? & Heq); discriminate | intros [[? ?] _]; lia]
                | intros e Heq; injection Heq as <-; cbn [exn_class_of];
                  split; split; try (intros; lia); try discriminate; try reflexivity;
                  intros [[? ?] _]; lia]).
  destruct (Datetime.lt _ now) eqn:Hpast.
  - destruct (Z.eqb_spec (ordinal now) Datetime.MAXORDINAL) as [Heq | Hne].
    + split.
      * split; [intros (? & ? & Hd); discriminate | intros [_ Hno]; exfalso; auto].
      * intros e He. injection He as <-. cbn [exn_class_of].
        split; split; try discriminate; try reflexivity.
        -- intros Hn. exfalso. apply Hn. lia.
        -- intros _. split; [lia | auto].
    + split.
      * split; [intros _; split; [lia | intros [? _]; contradiction] | intros _; eauto].
      * intros e He. discriminate.
  - split.
    + split; [intros _; split; [lia | intros [_ ?]; discriminate] | intros _; eauto].
    + intros e He. discriminate.
Qed.

Lemma next_run_of_fails_exactly_when_witness :
  (exists next_run wait,
     next_run_of 23 59
       {| ordinal := 3652059; hour := 23; minute := 59; second := 30; microsecond := 0 |}
     = Ok (next_run, wait)) <->
  ((0 <= 23 <= 23)%Z /\ (0 <= 59 <= 59)%Z) /\
  ~ (3652059%Z = Datetime.MAXORDINAL /\
     Datetime.lt {| ordinal := 3652059; hour := 23; minute := 59; second := 0;
                    microsecond := 0 |}
                 {| ordinal := 3652059; hour := 23; minute := 59; second := 30;
                    microsecond := 0 |} = true).
Proof.
  apply (next_run_of_fails_exactly_when 23 59
           {| ordinal := 3652059; hour := 23; minute := 59; second := 30;
              microsecond := 0 |}).
  unfold Datetime.valid, Datetime.MAXORDINAL. cbn. lia.
Defined.

(* ================================================================== *)
(** ** A notification whose document cannot be opened *)
(* ================================================================== *)

Section NotifyDocument.
Context {St : Type} `{Network St}.

(** X15: when the document cannot be opened,
    [notify] sends nothing at all: it logs one failure per recipient,
    in the order of [TG_USER_IDS], and returns [False]. *)
Theorem notify_unreadable_document (CONFIG : Config) (readable : string -> bool)
    (title message path : string) (s : St) :
  PyStr.nonempty path = true -> readable path = false ->
  notify CONFIG readable title message (Some path) s =
  (Ok false, s,
   map (fun user_id =>
          notify_failure user_id
            ("[Errno 2] No such file or directory: '" +++ path +++ "'"))
       (TG_USER_IDS CONFIG)).
Proof.
  intros Hpath Hread. unfold notify.
  induction (TG_USER_IDS CONFIG) as [| user_id rest IH]; [reflexivity |].
  cbn [notify_loop map].
  erewrite try_raised.
  2:{ apply bind_raised. unfold notify_send. rewrite Hpath, Hread. reflexivity. }
  unfold logger_error. rewrite emit_then, IH. run_simpl. reflexivity.
Qed.

End NotifyDocument.

Lemma notify_unreadable_document_witness :
  notify (Demo.config [] []) Demo.no_files "CK" "text" (Some "/tmp/ck.txt") Demo.idle =
  (Ok false, Demo.idle,
   [notify_failure (JNum 1001) "[Errno 2] No such file or directory: '/tmp/ck.txt'";
    notify_failure (JNum 1002) "[Errno 2] No such file or directory: '/tmp/ck.txt'";
    notify_failure (JNum 1003) "[Errno 2] No such file or directory: '/tmp/ck.txt'"]).
Proof.
  apply (notify_unreadable_document (Demo.config [] []) Demo.no_files "CK" "text"
           "/tmp/ck.txt" Demo.idle); reflexivity.
Defined.

(* ================================================================== *)
(** ** What the exchanges leave alone *)
(* ================================================================== *)

Section Keeps.
Context {St X : Type} `{Network St}.
Variable g : St -> X.
Hypothesis exchange_keeps : forall rq s, g (snd (exchange rq s)) = g s.

(** What every exchange leaves as it is, [safe_request] leaves as it
    is. *)
Lemma safe_request_keeps (rq : request) (detail : string) (s : St) :
  g (state_of (safe_request rq detail s)) = g s.
Proof.
  destruct (safe_request_cases rq detail s)
    as [(body & s1 & E1 & ->)
       | [(r1 & e1 & s1 & body & s2 & E1 & He1 & E2 & ->)
         | (r1 & e1 & s1 & r2 & e2 & s2 & E1 & He1 & E2 & He2 & ->)]]; run_simpl.
  - rewrite <- (exchange_keeps rq s), E1. reflexivity.
  - rewrite <- (exchange_keeps rq s), E1. cbn [snd].
    rewrite <- (exchange_keeps rq s1), E2. reflexivity.
  - rewrite <- (exchange_keeps rq s), E1. cbn [snd].
    rewrite <- (exchange_keeps rq s1), E2. reflexivity.
Qed.

Lemma notify_send_keeps CONFIG readable title message document user_id (s : St) :
  g (state_of (notify_send CONFIG readable title message document user_id s)) = g s.
Proof.
  unfold notify_send.
  assert (Hthen : forall rq, g (state_of (bind (safe_request rq "") (fun _ => ret tt) s)) = g s).
  { intros rq. rewrite then_ret. run_simpl. apply safe_request_keeps. }
  destruct document as [path |]; [| apply Hthen].
  destruct (PyStr.nonempty path); [| apply Hthen].
  destruct (readable path); [apply Hthen | reflexivity].
Qed.

Lemma notify_keeps CONFIG readable title message document (s : St) :
  g (state_of (notify CONFIG readable title message document s)) = g s.
Proof.
  unfold notify. revert s.
  induction (TG_USER_IDS CONFIG) as [| user_id rest IH]; intros s; [reflexivity |].
  cbn [notify_loop].
  pose proof (notify_send_keeps CONFIG readable title message document user_id s) as Hs.
  destruct (notify_send CONFIG readable title message document user_id s)
    as [[[[] | e] s1] ev1] eqn:E; unfold state_of in Hs; cbn [fst snd] in Hs.
  - erewrite try_ok.
    2:{ eapply bind_to; [exact E | reflexivity]. }
    run_simpl. exact Hs.
  - erewrite try_raised.
    2:{ apply bind_raised. exact E. }
    unfold logger_error. rewrite emit_then. run_simpl. rewrite IH. exact Hs.
Qed.

End Keeps.

Section ClientKeeps.
Context {Net X : Type} `{Network Net}.
Variable f : Net -> X.
Hypothesis exchange_keeps : forall rq n, f (snd (exchange rq n)) = f n.

Lemma panel_exchange_keeps (rq : request) (s : PanelTask Net) :
  f (remote (snd (exchange rq s))) = f (remote s).
Proof.
  unfold exchange at 1, PanelTask_Network.
  pose proof (exchange_keeps rq (remote s)) as Hk.
  destruct (exchange rq (remote s)) as [r n']. exact Hk.
Qed.

Lemma get_token_keeps (s : PanelTask Net) :
  f (remote (state_of (get_token s))) = f (remote s).
Proof.
  unfold get_token. rewrite self_bind.
  destruct (Json.truthy (token (self s))); [reflexivity |].
  fold (token_request (self s)).
  set (rq := token_request (self s)). set (detail := "面板: " +++ name (self s)).
  pose proof (safe_request_keeps (fun t => f (remote t)) panel_exchange_keeps rq detail s)
    as Hrec. cbv beta in Hrec.
  destruct (safe_request rq detail s) as [[[result | e] s1] ev1] eqn:E;
    unfold state_of in Hrec; cbn [fst snd] in Hrec.
  - destruct (py_get result "data" (JObj [])) as [data | e1] eqn:Ed.
    + destruct (py_get data "token" JNull) as [tok | e2] eqn:Et.
      * erewrite try_ok.
        2:{ eapply bind_to; [exact E |]. cbv beta. rewrite lift_bind, Ed, lift_bind, Et.
            reflexivity. }
        run_simpl. exact Hrec.
      * erewrite try_raised.
        2:{ rewrite (bind_ok _ _ _ _ _ _ E), lift_bind, Ed, lift_bind, Et.
            run_simpl. reflexivity. }
        unfold logger_error. rewrite emit_then. unfold ret. run_simpl. exact Hrec.
    + erewrite try_raised.
      2:{ rewrite (bind_ok _ _ _ _ _ _ E), lift_bind, Ed. run_simpl. reflexivity. }
      unfold logger_error. rewrite emit_then. unfold ret. run_simpl. exact Hrec.
  - erewrite try_raised.
    2:{ apply bind_raised. exact E. }
    unfold logger_error. rewrite emit_then. unfold ret. run_simpl. exact Hrec.
Qed.

Lemma request_keeps (meth : method) (endpoint : string) (body : option json)
    (s : PanelTask Net) :
  f (remote (state_of (_request meth endpoint body s))) = f (remote s).
Proof.
  destruct (request_run meth endpoint body s) as [tok [_ ->]].
  destruct (Json.truthy tok); cbn zeta; run_simpl.
  - rewrite (safe_request_keeps (fun t => f (remote t)) panel_exchange_keeps).
    apply get_token_keeps.
  - apply get_token_keeps.
Qed.

Lemma get_enabled_cookies_keeps (s : PanelTask Net) :
  f (remote (state_of (get_enabled_cookies s))) = f (remote s).
Proof.
  rewrite get_enabled_cookies_run. cbn zeta.
  destruct (value_of (_request GET "/open/envs" None s)) as [answer | e].
  - destruct (listed_values answer); run_simpl; apply request_keeps.
  - run_simpl. apply request_keeps.
Qed.

End ClientKeeps.

Section HostKeeps.
Context {Net Disk : Type} `{Network Net}.

Lemma host_exchange_disk (rq : request) (s : Host Net Disk) :
  disk (snd (exchange rq s)) = disk s.
Proof. unfold exchange, Host_Network. destruct (exchange rq (process s)). reflexivity. Qed.

Lemma host_exchange_redis (rq : request) (s : Host Net Disk) :
  redis (process (snd (exchange rq s))) = redis (process s).
Proof.
  unfold exchange at 1, Host_Network.
  pose proof (exchange_redis rq (process s)) as Hr.
  destruct (exchange rq (process s)). exact Hr.
Qed.

End HostKeeps.

Section ListingTotal.
Context {Net : Type} `{Network Net}.

(** [get_enabled_cookies] returns a list, whatever the panel does. *)
Lemma get_enabled_cookies_total (t : PanelTask Net) :
  exists cookies, value_of (get_enabled_cookies t) = Ok cookies.
Proof.
  rewrite get_enabled_cookies_run. cbn zeta.
  destruct (value_of (_request GET "/open/envs" None t)) as [answer | e];
    [| run_simpl; eauto].
  destruct (listed_values answer); run_simpl; eauto.
Qed.

End ListingTotal.

(* ================================================================== *)
(** ** The credential file *)
(* ================================================================== *)

Lemma one_line_cons (c : ascii) (s : string) :
  one_line (String c s) = true ->
  Ascii.eqb c "010" = false /\ Ascii.eqb c "013" = false /\ one_line s = true.
Proof.
  unfold one_line. cbn [PyStr.mem_char]. intros Hl.
  apply andb_prop in Hl as [Hlf Hcr].
  apply negb_true_iff, orb_false_elim in Hlf as [Hlf Hs1].
  apply negb_true_iff, orb_false_elim in Hcr as [Hcr Hs2].
  rewrite Ascii.eqb_sym, Hlf, Ascii.eqb_sym, Hcr, Hs1, Hs2. auto.
Qed.

Lemma file_lines_line (line rest : string) :
  one_line line = true ->
  file_lines (line +++ newline +++ rest) = (line +++ newline) :: file_lines rest.
Proof.
  induction line as [| c line IH]; intros Hl; [reflexivity |].
  apply one_line_cons in Hl as (Hlf & Hcr & Hl).
  cbn [String.append file_lines]. rewrite Hlf, Hcr, (IH Hl). reflexivity.
Qed.

Lemma file_lines_last (line : string) :
  one_line line = true -> line <> "" -> file_lines line = [line].
Proof.
  induction line as [| c line IH]; intros Hl Hne; [contradiction |].
  apply one_line_cons in Hl as (Hlf & Hcr & Hl).
  cbn [file_lines]. rewrite Hlf, Hcr.
  destruct line as [| d line]; [reflexivity |].
  rewrite (IH Hl) by discriminate. reflexivity.
Qed.

Lemma lstrip_by_append (p : ascii -> bool) (s t : string) :
  PyStr.lstrip_by p s <> "" -> PyStr.lstrip_by p (s +++ t) = PyStr.lstrip_by p s +++ t.
Proof.
  induction s as [| c s IH]; intros Hne; [contradiction |].
  cbn [String.append PyStr.lstrip_by] in *. destruct (p c); [exact (IH Hne) | reflexivity].
Qed.

Lemma rstrip_by_nonempty_append (p : ascii -> bool) (s t : string) :
  PyStr.rstrip_by p s <> "" -> PyStr.rstrip_by p (s +++ t) <> "".
Proof.
  induction s as [| c s IH]; intros Hne; [contradiction |].
  cbn [String.append PyStr.rstrip_by] in *.
  destruct (PyStr.rstrip_by p s) as [| d r] eqn:E.
  - destruct (p c) eqn:Hc; [contradiction |].
    destruct (PyStr.rstrip_by p (s +++ t)); discriminate.
  - destruct (PyStr.rstrip_by p (s +++ t)) eqn:E'; [| discriminate].
    exfalso. apply IH; [discriminate | reflexivity].
Qed.

(** A line that holds more than white space still does with its line
    end. *)
Lemma strip_line_end (line : string) :
  PyStr.nonempty (PyStr.strip line) = true ->
  PyStr.nonempty (PyStr.strip (line +++ newline)) = true.
Proof.
  unfold PyStr.strip, PyStr.strip_by. intros Hne.
  assert (Hl : PyStr.lstrip_by PyStr.is_space line <> "").
  { intros E. rewrite E in Hne. discriminate. }
  rewrite (lstrip_by_append _ line newline Hl).
  apply nonempty_true, rstrip_by_nonempty_append.
  intros E. rewrite E in Hne. discriminate.
Qed.

Lemma ck_count_join (cookies : list string) :
  Forall (fun cookie => one_line cookie = true /\
                        PyStr.nonempty (PyStr.strip cookie) = true) cookies ->
  ck_count (String.concat newline cookies) = length cookies.
Proof.
  unfold ck_count. induction cookies as [| cookie rest IH]; intros Hall; [reflexivity |].
  inversion Hall as [| ? ? [Hl Hne] Hrest]; subst.
  destruct rest as [| next rest].
  - cbn [String.concat]. rewrite file_lines_last; [| exact Hl |].
    + cbn [filter]. rewrite Hne. reflexivity.
    + intros ->. discriminate.
  - change (String.concat newline (cookie :: next :: rest))
      with (cookie +++ newline +++ String.concat newline (next :: rest)).
    rewrite (file_lines_line _ _ Hl). cbn [filter].
    rewrite (strip_line_end _ Hne). cbn [length]. rewrite (IH Hrest). reflexivity.
Qed.

Section SaveAndCount.
Context {Net Disk : Type} `{Network Net} `{FileSystem Disk}.

Lemma on_disk_run {A : Type} (op : Disk -> result A * Disk) (s : Host Net Disk) :
  on_disk op s =
  (fst (op (disk s)), {| process := process s; disk := snd (op (disk s)) |}, []).
Proof. unfold on_disk. destruct (op (disk s)). reflexivity. Qed.

(** How [save_cookies_to_file] runs: the directory, then the file, each
    of which may fail; it never raises and talks to nobody. *)
Lemma save_cookies_to_file_run (STORE : Storage) (cookies : list string)
    (s : Host Net Disk) :
  let path := CK_FILE_PATH STORE in
  let made := makedirs (dirname path) (disk s) in
  let written := write_text path (String.concat newline cookies) (snd made) in
  save_cookies_to_file STORE cookies s =
  match fst made with
  | Raised e =>
      (Ok false, {| process := process s; disk := snd made |},
       [Log ERROR ("❌ 保存 CK 失败: " +++ exn_text e)])
  | Ok _ =>
      match fst written with
      | Raised e =>
          (Ok false, {| process := process s; disk := snd written |},
           [Log ERROR ("❌ 保存 CK 失败: " +++ exn_text e)])
      | Ok _ =>
          (Ok true, {| process := process s; disk := snd written |},
           [Log INFO ("✅ 已保存 " +++ PyStr.of_nat (length cookies) +++ " 条 CK")])
      end
  end.
Proof.
  cbn zeta. unfold save_cookies_to_file.
  destruct (makedirs (dirname (CK_FILE_PATH STORE)) (disk s)) as [[[] | e] d1] eqn:Em;
    cbn [fst snd].
  - destruct (write_text (CK_FILE_PATH STORE) (String.concat newline cookies) d1)
      as [[[] | e] d2] eqn:Ew; cbn [fst snd].
    + apply try_ok.
      rewrite (bind_ok _ _ s tt {| process := process s; disk := d1 |} [])
        by (rewrite on_disk_run, Em; reflexivity).
      rewrite (bind_ok _ _ _ tt {| process := process s; disk := d2 |} [])
        by (rewrite on_disk_run; cbn [disk process]; rewrite Ew; reflexivity).
      unfold logger_info. rewrite emit_then. unfold ret. run_simpl. reflexivity.
    + erewrite try_raised.
      2:{ rewrite (bind_ok _ _ s tt {| process := process s; disk := d1 |} [])
            by (rewrite on_disk_run, Em; reflexivity).
          erewrite bind_raised
            by (rewrite on_disk_run; cbn [disk process]; rewrite Ew; reflexivity).
          run_simpl. reflexivity. }
      unfold logger_error. rewrite emit_then. unfold ret. run_simpl. reflexivity.
  - erewrite try_raised.
    2:{ apply bind_raised. rewrite on_disk_run, Em. reflexivity. }
    unfold logger_error. rewrite emit_then. unfold ret. run_simpl. reflexivity.
Qed.


End SaveAndCount.


(* ================================================================== *)
(** ** [update_ck] *)
(* ================================================================== *)

Section UpdateCk.
Context {Net Disk : Type} `{Network Net} `{FileSystem Disk}.

Lemma using_client_run {A : Type} (api : QingLongAPI) (c : M (PanelTask (Host Net Disk)) A)
    (s : Host Net Disk) :
  let o := c {| self := api; remote := s |} in
  using_client api c s = (value_of o, remote (state_of o), events_of o).
Proof. cbn zeta. unfold using_client. destruct (c _) as [[r t] ev]. reflexivity. Qed.

Lemma in_process_redis_set (key value : string) (s : Host Net Disk) :
  in_process (redis_set key (JStr value)) s =
  (Ok tt,
   {| process := {| net := net (process s); redis := (key, value) :: redis (process s) |};
      disk := disk s |},
   [RedisSet key value]).
Proof. reflexivity. Qed.

(** The exchanges of [get_enabled_cookies] are not writes to the
    cache. *)
Lemma get_enabled_cookies_no_writes (t : PanelTask (Host Net Disk)) :
  filter is_cache_write (events_of (get_enabled_cookies t)) = [].
Proof.
  apply filter_none. intros e He.
  rewrite get_enabled_cookies_run in He. cbn zeta in He.
  assert (Hreq : forall e, In e (events_of (_request GET "/open/envs" None t)) ->
                           is_cache_write e = false).
  { intros x Hx. destruct (request_get_calls "/open/envs" t x Hx) as [_ _].
    destruct (request_run GET "/open/envs" None t) as [tok [_ Hrun]].
    rewrite Hrun in Hx.
    assert (Htok : forall y, In y (events_of (get_token t)) -> is_cache_write y = false).
    { intros y Hy. unfold get_token in Hy. rewrite self_bind in Hy.
      destruct (Json.truthy (token (self t))); [destruct Hy |].
      set (body := bind _ _) in Hy.
      assert (Hb : forall z, In z (events_of (body t)) -> is_cache_write z = false).
      { intros z Hz. unfold body in Hz. rewrite bind_events in Hz.
        apply in_app_or in Hz. destruct Hz as [Hz | Hz];
          [exact (safe_request_no_writes _ _ _ z Hz) |].
        destruct (value_of (safe_request _ _ t)) as [result |]; [| destruct Hz].
        rewrite bind_events in Hz. unfold lift at 1 2 in Hz. run_simpl_in Hz.
        cbn [app] in Hz.
        destruct (py_get result "data" (JObj [])) as [data |]; [| destruct Hz].
        rewrite bind_events in Hz. unfold lift at 1 2 in Hz. run_simpl_in Hz.
        cbn [app] in Hz.
        destruct (py_get data "token" JNull) as [tok' |]; [| destruct Hz].
        unfold set_token, ret, bind, events_of in Hz. cbn in Hz. destruct Hz. }
      destruct (body t) as [[[tk | e'] s1] ev1] eqn:E.
      - rewrite (try_ok _ _ _ _ _ _ E) in Hy. run_simpl_in Hy. apply Hb. exact Hy.
      - rewrite (try_raised _ _ _ _ _ _ E) in Hy. unfold logger_error in Hy.
        rewrite emit_then in Hy. run_simpl_in Hy.
        apply in_app_or in Hy. destruct Hy as [Hy | [<- | Hy]];
          [apply Hb; exact Hy | reflexivity |].
        unfold ret, events_of in Hy. cbn in Hy. destruct Hy. }
    destruct (Json.truthy tok); cbn zeta in Hx; run_simpl_in Hx.
    - apply in_app_or in Hx. destruct Hx as [Hx | Hx]; [auto |].
      exact (safe_request_no_writes _ _ _ x Hx).
    - auto. }
  destruct (value_of (_request GET "/open/envs" None t)) as [answer | e'].
  - destruct (listed_values answer); run_simpl_in He; [auto |].
    apply in_app_or in He. destruct He as [He | [<- | []]]; [auto | reflexivity].
  - run_simpl_in He. apply in_app_or in He.
    destruct He as [He | [<- | []]]; [auto | reflexivity].
Qed.


End UpdateCk.

(* ================================================================== *)
(** ** [cleanup_logs] *)
(* ================================================================== *)

Section CleanupLogs.
Context {Net Disk : Type} `{Network Net} `{FileSystem Disk}.

Lemma notify_value CONFIG readable title message (s : Host Net Disk) :
  exists sent, value_of (notify CONFIG readable title message None s) = Ok sent.
Proof.
  destruct (notify_loop_outcome CONFIG readable title message None (TG_USER_IDS CONFIG) s)
    as (b & Hb & _). exists b. exact Hb.
Qed.

(** How [cleanup_logs] runs, case by case. *)
Lemma cleanup_logs_run (CONFIG : Config) (STORE : Storage)
    (readable : string -> bool) (s : Host Net Disk) :
  let dir := LOG_DIR STORE in
  let removed := rmtree dir (disk s) in
  let made := makedirs dir (snd removed) in
  let o := cleanup_logs CONFIG STORE readable s in
  value_of o = Ok tt /\
  if path_exists dir (disk s) then
    match fst removed, fst made with
    | Ok _, Ok _ =>
        let after := {| process := process s; disk := snd made |} in
        let report := notify CONFIG readable "日志清理完成" ("已清空目录: " +++ dir) None after in
        o = (Ok tt, state_of report,
             Log INFO ("✅ 已清理日志目录: " +++ dir) :: events_of report)
    | Ok _, Raised e =>
        let after := {| process := process s; disk := snd made |} in
        let report := notify CONFIG readable "日志清理失败" (exn_text e) None after in
        o = (Ok tt, state_of report,
             Log ERROR ("❌ 清理日志失败: " +++ exn_text e) :: events_of report)
    | Raised e, _ =>
        let after := {| process := process s; disk := snd removed |} in
        let report := notify CONFIG readable "日志清理失败" (exn_text e) None after in
        o = (Ok tt, state_of report,
             Log ERROR ("❌ 清理日志失败: " +++ exn_text e) :: events_of report)
    end
  else o = (Ok tt, s, [Log WARNING ("⚠️ 日志目录不存在: " +++ dir)]).
Proof.
  cbn zeta. unfold cleanup_logs.
  set (dir := LOG_DIR STORE).
  set (probe := fun s0 : Host Net Disk => (Ok (path_exists dir (disk s0)), s0, @nil event)).
  assert (Hprobe : probe s = (Ok (path_exists dir (disk s)), s, [])) by reflexivity.
  assert (Hfail : forall e (after : Host Net Disk),
             bind (logger_error ("❌ 清理日志失败: " +++ exn_text e))
                  (fun _ => bind (notify CONFIG readable "日志清理失败" (exn_text e) None)
                                 (fun _ => ret tt)) after
             = (Ok tt, state_of (notify CONFIG readable "日志清理失败" (exn_text e) None after),
                Log ERROR ("❌ 清理日志失败: " +++ exn_text e)
                :: events_of (notify CONFIG readable "日志清理失败" (exn_text e) None after))).
  { intros e after. unfold logger_error. rewrite emit_then, then_ret.
    destruct (notify_value CONFIG readable "日志清理失败" (exn_text e) after) as [sent ->].
    run_simpl. reflexivity. }
  destruct (path_exists dir (disk s)) eqn:Hex.
  - destruct (rmtree dir (disk s)) as [[[] | e] d1] eqn:Er; cbn [fst snd].
    + destruct (makedirs dir d1) as [[[] | e] d2] eqn:Em; cbn [fst snd].
      * set (after := {| process := process s; disk := d2 |}).
        destruct (notify_value CONFIG readable "日志清理完成" ("已清空目录: " +++ dir) after)
          as [sent Hsent].
        erewrite try_ok.
        2:{ rewrite (bind_ok _ _ _ _ _ _ Hprobe). cbv iota.
            rewrite (bind_ok _ _ s tt {| process := process s; disk := d1 |} [])
              by (rewrite on_disk_run, Er; reflexivity).
            rewrite (bind_ok _ _ _ tt after [])
              by (rewrite on_disk_run; cbn [disk process]; rewrite Em; reflexivity).
            unfold logger_info. rewrite emit_then, then_ret, Hsent. run_simpl.
            reflexivity. }
        run_simpl. split; reflexivity.
      * erewrite try_raised.
        2:{ rewrite (bind_ok _ _ _ _ _ _ Hprobe). cbv iota.
            rewrite (bind_ok _ _ s tt {| process := process s; disk := d1 |} [])
              by (rewrite on_disk_run, Er; reflexivity).
            erewrite bind_raised
              by (rewrite on_disk_run; cbn [disk process]; rewrite Em; reflexivity).
            run_simpl. reflexivity. }
        rewrite Hfail. run_simpl. split; reflexivity.
    + erewrite try_raised.
      2:{ rewrite (bind_ok _ _ _ _ _ _ Hprobe). cbv iota.
          erewrite bind_raised by (rewrite on_disk_run, Er; reflexivity).
          run_simpl. reflexivity. }
      rewrite Hfail. run_simpl. split; reflexivity.
  - erewrite try_ok.
    2:{ rewrite (bind_ok _ _ _ _ _ _ Hprobe). cbv iota.
        unfold logger_warning, emit. run_simpl. reflexivity. }
    run_simpl. split; reflexivity.
Qed.

(** X18: [cleanup_logs] never raises.  When LOG_DIR
    does not exist it logs one warning and changes nothing.  When it
    exists, the directory is removed and made again; one line is logged
    and then [notify] is called once: with "日志清理完成" when both steps
    succeeded, "日志清理失败" with the text of the exception when the
    removal failed (the directory is then not made again) or the making
    failed. *)
Theorem cleanup_logs_outcome (CONFIG : Config) (STORE : Storage)
    (readable : string -> bool) (s : Host Net Disk) :
  let dir := LOG_DIR STORE in
  let removed := rmtree dir (disk s) in
  let made := makedirs dir (snd removed) in
  let o := cleanup_logs CONFIG STORE readable s in
  value_of o = Ok tt /\
  (path_exists dir (disk s) = false ->
     o = (Ok tt, s, [Log WARNING ("⚠️ 日志目录不存在: " +++ dir)])) /\
  (path_exists dir (disk s) = true ->
     exists after title message line,
       let report := notify CONFIG readable title message None after in
       o = (Ok tt, state_of report, line :: events_of report) /\
       process after = process s /\ is_log line = true /\
       ((fst removed = Ok tt /\ fst made = Ok tt /\ disk after = snd made /\
         title = "日志清理完成" /\ message = "已清空目录: " +++ dir) \/
        (exists e, (fst removed = Raised e /\ disk after = snd removed \/
                    fst removed = Ok tt /\ fst made = Raised e /\ disk after = snd made) /\
                   title = "日志清理失败" /\ message = exn_text e /\
                   line = Log ERROR ("❌ 清理日志失败: " +++ exn_text e)))).
Proof.
  cbn zeta. destruct (cleanup_logs_run CONFIG STORE readable s) as [Hv Hrun].
  cbn zeta in Hrun. split; [exact Hv |].
  destruct (path_exists (LOG_DIR STORE) (disk s)).
  - split; [discriminate |]. intros _.
    destruct (rmtree (LOG_DIR STORE) (disk s)) as [[[] | e] d1]; cbn [fst snd] in *.
    + destruct (makedirs (LOG_DIR STORE) d1) as [[[] | e] d2]; cbn [fst snd] in *.
      * eexists _, _, _, _. split; [exact Hrun |]. split; [reflexivity |].
        split; [reflexivity |]. left. repeat split; reflexivity.
      * eexists _, _, _, _. split; [exact Hrun |]. split; [reflexivity |].
        split; [reflexivity |]. right. exists e. split; [right |]; repeat split; reflexivity.
    + eexists _, _, _, _. split; [exact Hrun |]. split; [reflexivity |].
      split; [reflexivity |]. right. exists e. split; [left |]; repeat split; reflexivity.
  - split; [intros _; exact Hrun | discriminate].
Qed.

End CleanupLogs.

(* ================================================================== *)
(** ** The command handlers *)
(* ================================================================== *)

Section CommandFacts.
Context {Net Disk C : Type} `{Network Net} `{FileSystem Disk} `{Chat C}.

Lemma say_run {St : Type} (op : C -> result unit * C) (s : Session St C) :
  say op s = (fst (op (chat s)), {| task := task s; chat := snd (op (chat s)) |}, []).
Proof. unfold say. destruct (op (chat s)). reflexivity. Qed.

Lemma in_task_run {St A : Type} (c : M St A) (s : Session St C) :
  in_task c s =
  (value_of (c (task s)), {| task := state_of (c (task s)); chat := chat s |},
   events_of (c (task s))).
Proof. unfold in_task. destruct (c (task s)) as [[r t] ev]. reflexivity. Qed.

(** X19: once its first message is sent,
    [clean_logs_command] runs [cleanup_logs] and replaces the message by
    "✅ 日志清理完成" whatever the job did, a failed cleaning included;
    the text "❌ 清理失败" is shown only when that replacement itself
    raised. *)
Theorem clean_logs_command_reports_done (CONFIG : Config) (STORE : Storage)
    (readable : string -> bool) (s : Session (Host Net Disk) C) (c1 : C) :
  reply_text "🔄 正在清理日志..." (chat s) = (Ok tt, c1) ->
  let job := cleanup_logs CONFIG STORE readable (task s) in
  let done := edit_text "✅ 日志清理完成" c1 in
  clean_logs_command CONFIG STORE readable s =
  match fst done with
  | Ok _ => (Ok tt, {| task := state_of job; chat := snd done |}, events_of job)
  | Raised e =>
      let failed := edit_text ("❌ 清理失败: " +++ exn_text e) (snd done) in
      (fst failed, {| task := state_of job; chat := snd failed |}, events_of job)
  end.
Proof.
  intros Hreply. cbn zeta. unfold clean_logs_command.
  destruct (cleanup_logs_run CONFIG STORE readable (task s)) as [Hv _]. cbn zeta in Hv.
  rewrite (bind_ok _ _ s tt {| task := task s; chat := c1 |} [])
    by (rewrite say_run, Hreply; reflexivity).
  run_simpl. cbn [app].
  set (job := cleanup_logs CONFIG STORE readable (task s)) in *.
  assert (Hjob : in_task (cleanup_logs CONFIG STORE readable)
                   {| task := task s; chat := c1 |}
                 = (Ok tt, {| task := state_of job; chat := c1 |}, events_of job)).
  { rewrite in_task_run. cbn [task chat]. fold job. rewrite Hv. reflexivity. }
  destruct (edit_text "✅ 日志清理完成" c1) as [[[] | e] c2] eqn:Ed; cbn [fst snd].
  - erewrite try_ok.
    2:{ rewrite (bind_ok _ _ _ _ _ _ Hjob), say_run. cbn [task chat]. rewrite Ed.
        cbn [fst snd]. run_simpl. rewrite app_nil_r. reflexivity. }
    run_simpl. reflexivity.
  - erewrite try_raised.
    2:{ rewrite (bind_ok _ _ _ _ _ _ Hjob), say_run. cbn [task chat]. rewrite Ed.
        cbn [fst snd]. run_simpl. rewrite app_nil_r. reflexivity. }
    rewrite say_run. cbn [task chat]. run_simpl. rewrite app_nil_r. reflexivity.
Qed.

End CommandFacts.

Section SyncCommandFacts.
Context {Net C : Type} `{Network Net} `{Chat C}.

(** X20: once its first message is sent,
    [sync_ck_command] runs one pass of [sync_ck_to_panels], then lists
    the primary again with a new client and replaces the message by
    "✅ CK同步操作已完成" and the number of credentials of that second
    listing, whatever the pass did; "❌ 同步失败" is shown only when that
    replacement itself raised. *)
Theorem sync_ck_command_reports_done (CONFIG : Config) (readable : string -> bool)
    (w : World Net) (c c1 : C) :
  reply_text "🔄 正在执行CK同步到其他面板..." c = (Ok tt, c1) ->
  let run := sync_ck_to_panels CONFIG readable w in
  let recount := get_enabled_cookies (main_task CONFIG (final run)) in
  let cmd := sync_ck_command CONFIG readable w c in
  exists main_cookies,
    value_of recount = Ok main_cookies /\
    let done := edit_text ("✅ CK同步操作已完成" +++ newline +++ newline +++ "主面板CK数量: "
                           +++ PyStr.of_nat (length main_cookies) +++ "个") c1 in
    pass cmd = Some run /\
    primary (world_after cmd) = remote (state_of recount) /\
    secondaries (world_after cmd) = secondaries (final run) /\
    match fst done with
    | Ok _ =>
        ended cmd = Ok tt /\ chat_after cmd = snd done /\ later cmd = events_of recount
    | Raised e =>
        (ended cmd, chat_after cmd) = edit_text ("❌ 同步失败: " +++ exn_text e) (snd done) /\
        later cmd = events_of recount ++ [Log ERROR ("❌ 手动同步CK出错: " +++ exn_text e)]
    end.
Proof.
  intros Hreply. cbn zeta. unfold sync_ck_command. rewrite Hreply.
  unfold main_task.
  set (t := {| self := _; remote := primary (final (sync_ck_to_panels CONFIG readable w)) |}).
  destruct (get_enabled_cookies_total t) as [main_cookies Hval].
  destruct (get_enabled_cookies t) as [[r t1] ev] eqn:E.
  unfold value_of in Hval; cbn [fst snd] in Hval. subst r. run_simpl.
  exists main_cookies. split; [reflexivity |].
  destruct (edit_text _ c1) as [[[] | e] c2] eqn:Ed; cbn [fst snd].
  - repeat split; reflexivity.
  - destruct (edit_text ("❌ 同步失败: " +++ exn_text e) c2) as [r c3].
    repeat split; reflexivity.
Qed.

End SyncCommandFacts.

Lemma clean_logs_command_reports_done_witness :
  let STORE := {| CK_FILE_PATH := "scripts/beta/env/ck.txt";
                  CURRENT_CK_HASH_KEY := "current_ck_hash"; LOG_DIR := "logs/scripts" |} in
  let s := {| task := {| process := {| net := Demo.idle; redis := [] |};
                         disk := {| mem_files := []; mem_dirs := ["logs/scripts"];
                                    mem_readonly := true |} |};
              chat := {| shown := []; refusals := [] |} |} in
  let o := clean_logs_command (Demo.config [] []) STORE Demo.no_files s in
  value_of o = Ok tt /\
  shown (chat (state_of o)) = ["🔄 正在清理日志..."; "✅ 日志清理完成"] /\
  In (Log ERROR "❌ 清理日志失败: [Errno 30] Read-only file system: 'logs/scripts'")
     (events_of o).
Proof.
  cbn zeta.
  pose proof (clean_logs_command_reports_done (Net := QL.Server) (Disk := MemDisk)
                (C := Outbox) (Demo.config [] [])
                {| CK_FILE_PATH := "scripts/beta/env/ck.txt";
                   CURRENT_CK_HASH_KEY := "current_ck_hash"; LOG_DIR := "logs/scripts" |}
                Demo.no_files
                {| task := {| process := {| net := Demo.idle; redis := [] |};
                              disk := {| mem_files := []; mem_dirs := ["logs/scripts"];
                                         mem_readonly := true |} |};
                   chat := {| shown := []; refusals := [] |} |}
                {| shown := ["🔄 正在清理日志..."]; refusals := [] |}) as Hrun.
  specialize (Hrun eq_refl). cbn zeta in Hrun. rewrite Hrun.
  vm_compute. repeat split. left. reflexivity.
Defined.

Lemma sync_ck_command_reports_done_witness :
  let cmd := sync_ck_command (Demo.config [Demo.panel1] ["pt_pin=userC;"]) Demo.no_files
               (Demo.world (Demo.server "mid" "msec" "tok-main" [] [QL.Down "unreachable";
                                                                     QL.Down "unreachable"])
                           [Demo.secondary1 []])
               {| shown := []; refusals := [] |} in
  ended cmd = Ok tt /\
  shown (chat_after cmd) =
    ["🔄 正在执行CK同步到其他面板...";
     "✅ CK同步操作已完成" +++ newline +++ newline +++ "主面板CK数量: 0个"].
Proof.
  cbn zeta.
  pose proof (sync_ck_command_reports_done (Net := QL.Server) (C := Outbox)
                (Demo.config [Demo.panel1] ["pt_pin=userC;"])
                Demo.no_files
                (Demo.world (Demo.server "mid" "msec" "tok-main" []
                               [QL.Down "unreachable"; QL.Down "unreachable"])
                            [Demo.secondary1 []])
                {| shown := []; refusals := [] |}
                {| shown := ["🔄 正在执行CK同步到其他面板..."]; refusals := [] |}) as Hrun.
  destruct (Hrun eq_refl) as (main_cookies & Hval & _ & _ & _ & Hdone).
  vm_compute in Hval. injection Hval as <-.
  cbn [length fst snd edit_text Outbox_Chat deliver refusals shown] in Hdone.
  destruct Hdone as (He & Hc & _). split; [exact He |]. rewrite Hc. reflexivity.
Defined.

Section StateFacts.
Context {St : Type}.

Lemma bind_state {A B : Type} (c : M St A) (k : A -> M St B) (s : St) :
  state_of (bind c k s) =
  match value_of (c s) with
  | Ok a => state_of (k a (state_of (c s)))
  | Raised _ => state_of (c s)
  end.
Proof.
  unfold bind, state_of, value_of. destruct (c s) as [[[a | e] s1] ev1]; cbn [fst snd];
    [destruct (k a s1) as [[r s2] ev2] |]; reflexivity.
Qed.

Lemma bind_value {A B : Type} (c : M St A) (k : A -> M St B) (s : St) :
  value_of (bind c k s) =
  match value_of (c s) with
  | Ok a => value_of (k a (state_of (c s)))
  | Raised e => Raised e
  end.
Proof.
  unfold bind, state_of, value_of. destruct (c s) as [[[a | e] s1] ev1]; cbn [fst snd];
    [destruct (k a s1) as [[r s2] ev2] |]; reflexivity.
Qed.

Lemma try_state {A : Type} (c : M St A) (h : exn -> M St A) (s : St) :
  state_of (try_except c h s) =
  match value_of (c s) with
  | Ok _ => state_of (c s)
  | Raised e => state_of (h e (state_of (c s)))
  end.
Proof.
  unfold try_except, state_of, value_of. destruct (c s) as [[[a | e] s1] ev1]; cbn [fst snd];
    [| destruct (h e s1) as [[r s2] ev2]]; reflexivity.
Qed.


End StateFacts.

Section GetCkFacts.
Context {Net Disk C : Type} `{Network Net} `{FileSystem Disk} `{Chat C}.

Lemma say_task {St : Type} (op : C -> result unit * C) (s : Session St C) :
  task (state_of (say op s)) = task s.
Proof. rewrite say_run. reflexivity. Qed.

Lemma in_task_task {St A : Type} (c : M St A) (s : Session St C) :
  task (state_of (in_task c s)) = state_of (c (task s)).
Proof. rewrite in_task_run. reflexivity. Qed.

Lemma in_task_value {St A : Type} (c : M St A) (s : Session St C) :
  value_of (in_task c s) = value_of (c (task s)).
Proof. rewrite in_task_run. reflexivity. Qed.

(** Where [update_ck] leaves the files and the cache, from the listing
    and the saving it does. *)
Lemma update_ck_state (CONFIG : Config) (STORE : Storage) (ck_hash : list string -> string)
    (s : Host Net Disk) :
  let api := new_QingLongAPI (QL_URL CONFIG) (CLIENT_ID CONFIG) (CLIENT_SECRET CONFIG)
               "主面板" in
  let fetch := using_client api get_enabled_cookies s in
  state_of (update_ck CONFIG STORE ck_hash s) =
  match value_of fetch with
  | Ok (cookie :: more) =>
      let save := save_cookies_to_file STORE (cookie :: more) (state_of fetch) in
      match value_of save with
      | Ok true =>
          state_of (in_process (redis_set (CURRENT_CK_HASH_KEY STORE)
                                  (JStr (ck_hash (cookie :: more)))) (state_of save))
      | _ => state_of save
      end
  | _ => state_of fetch
  end.
Proof.
  cbn zeta. unfold update_ck, logger_info, logger_warning, logger_error.
  rewrite try_state, bind_state, bind_value. cbn [value_of emit fst snd state_of].
  fold (@value_of (Host Net Disk)) (@state_of (Host Net Disk)).
  rewrite bind_state, bind_value.
  set (fetch := using_client _ get_enabled_cookies s).
  destruct (value_of fetch) as [[| cookie more] | e]; [reflexivity | | reflexivity].
  rewrite bind_state, bind_value.
  set (save := save_cookies_to_file STORE (cookie :: more) (state_of fetch)).
  destruct (value_of save) as [[|] | e]; [| reflexivity | reflexivity].
  rewrite bind_state, bind_value, in_process_redis_set. run_simpl. reflexivity.
Qed.

(** X21: once its first message is
    sent, [get_ck_command] leaves the credential file and the cache in
    the state a run of [update_ck] from the same state leaves them in,
    whatever becomes of the messages it edits afterwards. *)
Theorem get_ck_command_updates_like_update_ck (CONFIG : Config) (STORE : Storage)
    (ck_hash : list string -> string) (s : Session (Host Net Disk) C) (c1 : C) :
  reply_text "🔄 正在获取 CK..." (chat s) = (Ok tt, c1) ->
  task (state_of (get_ck_command CONFIG STORE ck_hash s)) =
  state_of (update_ck CONFIG STORE ck_hash (task s)).
Proof.
  intros Hreply. rewrite update_ck_state. cbn zeta. unfold get_ck_command, logger_error.
  rewrite bind_state, say_run, Hreply. cbn [value_of state_of fst snd task chat].
  fold (@value_of (Session (Host Net Disk) C)) (@state_of (Session (Host Net Disk) C)).
  set (s1 := {| task := task s; chat := c1 |}).
  change (task s) with (task s1).
  assert (Hhandler : forall e (s2 : Session (Host Net Disk) C),
             task (state_of (bind (emit (Log ERROR ("❌ 获取 CK 出错: " +++ exn_text e)))
                               (fun _ => say (edit_text ("❌ 获取 CK 出错: " +++ exn_text e)))
                               s2)) = task s2).
  { intros e s2. rewrite emit_then. cbn [state_of fst snd].
    fold (@state_of (Session (Host Net Disk) C)). apply say_task. }
  assert (Hsay : forall text (s2 : Session (Host Net Disk) C),
             task match value_of (say (edit_text text) s2) with
                  | Ok _ => state_of (say (edit_text text) s2)
                  | Raised e =>
                      state_of (bind (emit (Log ERROR ("❌ 获取 CK 出错: " +++ exn_text e)))
                                  (fun _ => say (edit_text ("❌ 获取 CK 出错: "
                                                            +++ exn_text e)))
                                  (state_of (say (edit_text text) s2)))
                  end = task s2).
  { intros text s2. destruct (value_of (say (edit_text text) s2)) as [[] | e];
      [| rewrite Hhandler]; apply say_task. }
  rewrite try_state, bind_state, bind_value, in_task_value.
  set (fetch := using_client _ get_enabled_cookies (task s1)).
  assert (Hf : task (state_of (in_task (using_client
                 (new_QingLongAPI (QL_URL CONFIG) (CLIENT_ID CONFIG) (CLIENT_SECRET CONFIG)
                    "主面板") get_enabled_cookies) s1)) = state_of fetch)
    by apply in_task_task.
  set (s2 := state_of (in_task _ s1)) in *.
  destruct (value_of fetch) as [[| cookie more] | e].
  - rewrite Hsay. exact Hf.
  - rewrite bind_state, bind_value, in_task_value, Hf.
    set (save := save_cookies_to_file STORE (cookie :: more) (state_of fetch)).
    assert (Hs : task (state_of (in_task (save_cookies_to_file STORE (cookie :: more)) s2))
                 = state_of save)
      by (rewrite in_task_task, Hf; reflexivity).
    set (s3 := state_of (in_task (save_cookies_to_file STORE (cookie :: more)) s2)) in *.
    destruct (value_of save) as [[|] | e].
    + rewrite bind_state, bind_value, in_task_value, in_process_redis_set.
      cbn [value_of fst snd].
      fold (@value_of (Session (Host Net Disk) C)) (@state_of (Session (Host Net Disk) C)).
      rewrite Hsay, in_task_task, Hs. reflexivity.
    + rewrite Hsay. exact Hs.
    + rewrite Hhandler. exact Hs.
  - rewrite Hhandler. exact Hf.
Qed.

End GetCkFacts.

Lemma get_ck_command_updates_like_update_ck_witness :
  let CONFIG := Demo.config [] [] in
  let STORE := {| CK_FILE_PATH := "scripts/beta/env/ck.txt";
                  CURRENT_CK_HASH_KEY := "current_ck_hash"; LOG_DIR := "logs/scripts" |} in
  let s := {| task := {| process := {| net := Demo.main_server; redis := [] |};
                         disk := {| mem_files := []; mem_dirs := [];
                                    mem_readonly := false |} |};
              chat := {| shown := []; refusals := [false; true; true] |} |} in
  let o := get_ck_command CONFIG STORE (String.concat ",") s in
  task (state_of o) = state_of (update_ck CONFIG STORE (String.concat ",") (task s)) /\
  redis (process (task (state_of o))) =
    [("current_ck_hash", "pt_key=newA;pt_pin=userA;,pt_key=keyB;pt_pin=userB;")] /\
  shown (chat (state_of o)) = ["🔄 正在获取 CK..."].
Proof.
  cbn zeta. split; [| vm_compute; split; reflexivity].
  apply (get_ck_command_updates_like_update_ck (Net := QL.Server) (Disk := MemDisk)
           (C := Outbox))
    with (c1 := {| shown := ["🔄 正在获取 CK..."]; refusals := [true; true] |}).
  reflexivity.
Defined.

(* ================================================================== *)
(** ** [load_config] *)
(* ================================================================== *)

Lemma config_values_all (entries : list (string * json)) :
  Forall has_value entries ->
  config_values entries = Ok (map (fun entry => (fst entry, entry_value entry)) entries).
Proof.
  induction entries as [| [key item] rest IH]; intros Hall; [reflexivity |].
  inversion Hall as [| ? ? (fields & value & Hitem & Hv) Hrest]; subst.
  cbn [snd] in Hitem. subst item.
  cbn [config_values py_index]. rewrite Hv. cbn [rbind]. rewrite (IH Hrest).
  cbn [rbind map fst]. unfold entry_value. cbn [snd]. rewrite Hv. reflexivity.
Qed.

Lemma config_values_spoiled (entries : list (string * json)) (key : string) (item : json) :
  In (key, item) entries -> ~ has_value (key, item) ->
  exists e, config_values entries = Raised e.
Proof.
  induction entries as [| [k it] rest IH]; intros Hin Hbad; [destruct Hin |].
  cbn [config_values].
  destruct (py_index it "value") as [value | e] eqn:Ei; cbn [rbind]; [| eauto].
  destruct Hin as [Heq | Hin].
  - injection Heq as -> ->. exfalso. apply Hbad.
    destruct item; cbn [py_index] in Ei; try discriminate.
    destruct (Json.assoc "value" fields) as [v |] eqn:Hv; [| discriminate].
    exists fields, v. split; [reflexivity | exact Hv].
  - destruct (IH Hin Hbad) as [e ->]. cbn [rbind]. eauto.
Qed.

(** X22: [load_config] returns either the
    value of every entry of the "config" section of the file, under the
    entry's key and in the order of the file, or the default dictionary:
    the latter when the file could not be opened or decoded, when it is
    not an object with an object under "config", and as soon as one
    entry is not an object with a "value", the values of the other
    entries being dropped with it. *)
Theorem load_config_all_or_nothing (config_path : string) (loaded : result json) :
  let config := fst (load_config config_path loaded) in
  (forall fields entries,
     loaded = Ok (JObj fields) -> Json.assoc "config" fields = Some (JObj entries) ->
     (Forall has_value entries ->
      config = map (fun entry => (fst entry, entry_value entry)) entries) /\
     (forall key item, In (key, item) entries -> ~ has_value (key, item) ->
      config = default_config)) /\
  (forall e, loaded = Raised e -> config = default_config) /\
  (forall config_data,
     loaded = Ok config_data ->
     (forall fields entries, config_data = JObj fields ->
                             Json.assoc "config" fields <> Some (JObj entries)) ->
     config = default_config).
Proof.
  cbn zeta. unfold load_config. split; [| split].
  - intros fields entries -> Hsec. cbn [rbind py_index]. rewrite Hsec. cbn [rbind py_items].
    split.
    + intros Hall. rewrite (config_values_all entries Hall). reflexivity.
    + intros key item Hin Hbad.
      destruct (config_values_spoiled entries key item Hin Hbad) as [e ->]. reflexivity.
  - intros e ->. reflexivity.
  - intros config_data -> Hno. cbn [rbind].
    destruct config_data as [| b | z | t | l | fields]; try reflexivity.
    cbn [py_index]. destruct (Json.assoc "config" fields) as [section |] eqn:Hsec;
      [| reflexivity].
    cbn [rbind]. destruct section as [| b | z | t | l | entries]; try reflexivity.
    exfalso. exact (Hno fields entries eq_refl Hsec).
Qed.
